(** * Clueless: template tracker (utils/pxls/template_manager.py)

    A shallow embedding of the template entity, the style decoder, the
    compositor, the hot-cell locator, the ETA estimator and the template
    registry, together with the properties the specification states about
    them.

    Conventions of the embedding:
    - a numpy 2-D array is a shape and an item function ([ndarray]);
      basic slices, slice assignment and boolean-mask assignment follow
      numpy (negative bounds, clamping, broadcasting, shape errors);
    - a Python exception is a value of [exn]; fallible code returns
      [result];
    - Python [int] is [Z]; Python [float] and [timedelta] durations are
      idealised as exact rationals [Q] (no rounding);
    - attributes that start as [None] are [option]s. *)

From Stdlib Require Import ZArith List Bool Lia String Ascii QArith.
Import ListNotations.
Local Open Scope string_scope.
Local Open Scope Z_scope.

(* ===================================================================== *)
(** ** Exceptions and results *)
(* ===================================================================== *)

Inductive exn : Type :=
| ValueError (msg : string)
| Exception_ (msg : string)
| IndexError
| TypeError
| AttributeError
| ZeroDivisionError
| AssertionError
| IntegrityError.

Inductive result (A : Type) : Type :=
| OK (a : A)
| Err (e : exn).
Arguments OK {A} a.
Arguments Err {A} e.

Definition bind {A B} (r : result A) (k : A -> result B) : result B :=
  match r with
  | OK a => k a
  | Err e => Err e
  end.

Notation "'let*' x ':=' r 'in' k" := (bind r (fun x => k))
  (at level 10, x name, r at level 100, k at level 200).

(* ===================================================================== *)
(** ** numpy arrays *)
(* ===================================================================== *)

Module Np.

(** [a.shape == (shape0, shape1)] and [a[y, x] == item y x] for
    [0 <= y < shape0], [0 <= x < shape1]. *)
Record ndarray (A : Type) : Type := mk_ndarray {
  shape0 : nat;
  shape1 : nat;
  item : Z -> Z -> A
}.
Arguments mk_ndarray {A} shape0 shape1 item.
Arguments shape0 {A} n.
Arguments shape1 {A} n.
Arguments item {A} n y x.

Definition rows {A} (a : ndarray A) : Z := Z.of_nat (shape0 a).
Definition cols {A} (a : ndarray A) : Z := Z.of_nat (shape1 a).

(** [range(n)] *)
Definition range (n : nat) : list Z := map Z.of_nat (seq 0 n).

(** An array literal given by its rows. *)
Definition of_rows {A} (d : A) (l : list (list A)) : ndarray A :=
  mk_ndarray (List.length l) (List.length (hd [] l))
    (fun y x => nth (Z.to_nat x) (nth (Z.to_nat y) l []) d).

(** The rows of an array, for reading results. *)
Definition to_rows {A} (a : ndarray A) : list (list A) :=
  map (fun y => map (fun x => item a y x) (range (shape1 a))) (range (shape0 a)).

Definition in_bounds {A} (a : ndarray A) (y x : Z) : Prop :=
  0 <= y < rows a /\ 0 <= x < cols a.

Definition in_boundsb {A} (a : ndarray A) (y x : Z) : bool :=
  (0 <=? y) && (y <? rows a) && (0 <=? x) && (x <? cols a).

Definition same_shape {A B} (a : ndarray A) (b : ndarray B) : bool :=
  Nat.eqb (shape0 a) (shape0 b) && Nat.eqb (shape1 a) (shape1 b).

(** [np.full((h, w), v)], [np.full_like(a, v)] *)
Definition full {A} (h w : nat) (v : A) : ndarray A :=
  mk_ndarray h w (fun _ _ => v).
Definition full_like {A B} (a : ndarray A) (v : B) : ndarray B :=
  full (shape0 a) (shape1 a) v.

(** Element-wise operations with a scalar or on one array. *)
Definition map_items {A B} (f : A -> B) (a : ndarray A) : ndarray B :=
  mk_ndarray (shape0 a) (shape1 a) (fun y x => f (item a y x)).

(** [a != v], [a == v] *)
Definition ne_scalar (a : ndarray Z) (v : Z) : ndarray bool :=
  map_items (fun c => negb (c =? v)) a.
Definition eq_scalar (a : ndarray Z) (v : Z) : ndarray bool :=
  map_items (fun c => c =? v) a.

(** [~m] *)
Definition invert (m : ndarray bool) : ndarray bool := map_items negb m.

(** Element-wise binary operations: the operands must have one shape
    (numpy would broadcast a dimension of size 1; the program never
    relies on it for these operations). *)
Definition zip_items {A B C} (f : A -> B -> C) (a : ndarray A) (b : ndarray B)
  : result (ndarray C) :=
  if same_shape a b then
    OK (mk_ndarray (shape0 a) (shape1 a) (fun y x => f (item a y x) (item b y x)))
  else Err (ValueError "operands could not be broadcast together").

(** [a == b] *)
Definition equal (a b : ndarray Z) : result (ndarray bool) := zip_items Z.eqb a b.
(** [np.logical_and(a, b)] *)
Definition logical_and (a b : ndarray bool) : result (ndarray bool) :=
  zip_items andb a b.

Definition sum_list (l : list Z) : Z := fold_right Z.add 0 l.

(** [np.sum(m)] of a boolean array: the number of [True] items. *)
Definition sum (m : ndarray bool) : Z :=
  sum_list (map (fun y =>
    sum_list (map (fun x => if item m y x then 1 else 0) (range (shape1 m))))
    (range (shape0 m))).

(** [m.all()] *)
Definition all (m : ndarray bool) : bool :=
  forallb (fun y => forallb (fun x => item m y x) (range (shape1 m)))
    (range (shape0 m)).

(** One bound of a Python slice over a sequence of length [len]:
    [None] gives the default, a negative bound counts from the end, and
    everything is clamped to [0, len]. *)
Definition slice_bound (len dflt : Z) (i : option Z) : Z :=
  match i with
  | None => dflt
  | Some i => if i <? 0 then Z.max (i + len) 0 else Z.min i len
  end.

(** [a[y0:y1, x0:x1]] *)
Definition getslice {A} (a : ndarray A) (y0 y1 x0 x1 : option Z) : ndarray A :=
  let ys := slice_bound (rows a) 0 y0 in
  let ye := slice_bound (rows a) (rows a) y1 in
  let xs := slice_bound (cols a) 0 x0 in
  let xe := slice_bound (cols a) (cols a) x1 in
  mk_ndarray (Z.to_nat (ye - ys)) (Z.to_nat (xe - xs))
    (fun y x => item a (ys + y) (xs + x)).

(** A source dimension [n] fits a target dimension [m] when they are
    equal or the source has size 1 (broadcasting). *)
Definition broadcastable (n m : nat) : bool := Nat.eqb n m || Nat.eqb n 1.

(** [a[y0:y1, x0:x1] = src] *)
Definition setslice {A} (a : ndarray A) (y0 y1 x0 x1 : option Z) (src : ndarray A)
  : result (ndarray A) :=
  let ys := slice_bound (rows a) 0 y0 in
  let ye := slice_bound (rows a) (rows a) y1 in
  let xs := slice_bound (cols a) 0 x0 in
  let xe := slice_bound (cols a) (cols a) x1 in
  let h := Z.to_nat (ye - ys) in
  let w := Z.to_nat (xe - xs) in
  if broadcastable (shape0 src) h && broadcastable (shape1 src) w then
    OK (mk_ndarray (shape0 a) (shape1 a) (fun y x =>
          if (ys <=? y) && (y <? ys + Z.of_nat h) && (xs <=? x) && (x <? xs + Z.of_nat w)
          then item src (if Nat.eqb (shape0 src) 1 then 0 else y - ys)
                        (if Nat.eqb (shape1 src) 1 then 0 else x - xs)
          else item a y x))
  else Err (ValueError "could not broadcast input array").

(** [a[mask] = v] for a boolean [mask]: the mask must have the shape of
    [a]. *)
Definition setmask {A} (a : ndarray A) (mask : ndarray bool) (v : A)
  : result (ndarray A) :=
  if same_shape a mask then
    OK (mk_ndarray (shape0 a) (shape1 a)
          (fun y x => if item mask y x then v else item a y x))
  else Err IndexError.

(** [mask ⊆ mask']: every in-range [True] item of [m] is [True] in [m']. *)
Definition subset (m m' : ndarray bool) : Prop :=
  shape0 m = shape0 m' /\ shape1 m = shape1 m' /\
  forall y x, in_bounds m y x -> item m y x = true -> item m' y x = true.

End Np.
Import Np.

(* ===================================================================== *)
(** ** The canvas snapshot ([stats]) *)
(* ===================================================================== *)

(** The shared object [stats] of utils.setup, as far as this module reads
    it: the board (palette index per cell), the placemap (0 = placeable,
    255 = not placeable) and the virginmap. *)
Record Stats : Type := mk_Stats {
  board_array : ndarray Z;
  placemap_array : ndarray Z;
  virginmap_array : ndarray Z
}.

(* ===================================================================== *)
(** ** class Template *)
(* ===================================================================== *)

Record Template : Type := mk_Template {
  url : option string;
  stylized_url : option string;
  title : option string;
  ox : Z;
  oy : Z;
  canvas_code : string;
  owner_id : option Z;
  hidden : option bool;
  name : option string;
  id : option Z;
  palettized_array : ndarray Z;
  width : Z;
  height : Z;
  total_size : Z;
  placeable_mask : option (ndarray bool);
  total_placeable : option Z;
  placed_mask : option (ndarray bool);
  current_progress : option Z;
  is_combo : bool   (* isinstance(self, Combo) *)
}.

(** The index that marks a transparent cell of a template. *)
Definition TRANSPARENT : Z := 255.

(** [Template.crop_array_to_template] *)
Definition crop_array_to_template (self : Template) (array : ndarray Z)
  : result (ndarray Z) :=
  let y0 := Z.min (Z.max 0 (oy self)) (rows array) in
  let y1 := Z.max 0 (Z.min (rows array) (oy self + height self)) in
  let x0 := Z.min (Z.max 0 (ox self)) (cols array) in
  let x1 := Z.max 0 (Z.min (cols array) (ox self + width self)) in
  let _cropped_array := getslice array (Some y0) (Some y1) (Some x0) (Some x1) in
  let cropped_array := full_like (palettized_array self) 255 in
  setslice cropped_array
    (Some (y0 - oy self)) (Some (y1 - oy self))
    (Some (x0 - ox self)) (Some (x1 - ox self)) _cropped_array.

(** [Template.make_placeable_mask] *)
Definition make_placeable_mask (stats : Stats) (self : Template)
  : result (ndarray bool) :=
  let* cropped_placemap := crop_array_to_template self (placemap_array stats) in
  let placeable_mask := ne_scalar (palettized_array self) 255 in
  setmask placeable_mask (eq_scalar cropped_placemap 255) false.

(** [Template.make_placed_mask]; [self.placeable_mask] must have been
    set ([~None] is a TypeError). *)
Definition make_placed_mask (stats : Stats) (self : Template)
  (board_array_arg : option (ndarray Z)) : result (ndarray bool) :=
  let board := match board_array_arg with
               | None => board_array stats
               | Some b => b
               end in
  let* cropped_board := crop_array_to_template self board in
  let* placed_mask := equal (palettized_array self) cropped_board in
  match placeable_mask self with
  | None => Err TypeError
  | Some pm => setmask placed_mask (invert pm) false
  end.

Definition set_progress (self : Template) (pm : ndarray bool) (p : Z) : Template :=
  mk_Template (url self) (stylized_url self) (title self) (ox self) (oy self)
    (canvas_code self) (owner_id self) (hidden self) (name self) (id self)
    (palettized_array self) (width self) (height self) (total_size self)
    (placeable_mask self) (total_placeable self) (Some pm) (Some p)
    (is_combo self).

(** [Template.update_progress]: the progress and the updated object. *)
Definition update_progress (stats : Stats) (self : Template)
  (board_array_arg : option (ndarray Z)) : result (Z * Template) :=
  let* pm := make_placed_mask stats self board_array_arg in
  let p := Np.sum pm in
  OK (p, set_progress self pm p).

(** [Template.__init__].  [palettized] is the array of palette indexes
    that [reduce(image_array, get_rgba_palette())] returns (utils.pxls.
    template is outside this module). *)
Definition Template_init (stats : Stats) (url_ stylized_url_ : string)
  (title_ : option string) (palettized : ndarray Z) (ox_ oy_ : Z)
  (canvas_code_ : string) : result Template :=
  let self0 :=
    mk_Template (Some url_) (Some stylized_url_) title_ ox_ oy_ canvas_code_
      None None None None palettized (cols palettized) (rows palettized)
      (Np.sum (ne_scalar palettized 255)) None None None None false in
  let* pm := make_placeable_mask stats self0 in
  OK (mk_Template (Some url_) (Some stylized_url_) title_ ox_ oy_ canvas_code_
        None None None None palettized (cols palettized) (rows palettized)
        (Np.sum (ne_scalar palettized 255)) (Some pm) (Some (Np.sum pm))
        None None false).

(** [Template.get_wrong_pixels_mask] and the to-go mask of [find_coords]:
    [np.logical_and(~self.placed_mask, self.placeable_mask)]. *)
Definition get_wrong_pixels_mask (self : Template) : result (ndarray bool) :=
  match placed_mask self, placeable_mask self with
  | Some placed, Some placeable => logical_and (invert placed) placeable
  | _, _ => Err TypeError
  end.

(** [Template.crop_to_canvas]: the cropped array and the new [ox], [oy]. *)
Definition crop_to_canvas (stats : Stats) (self : Template)
  (canvas_arg : option (ndarray Z)) : result (ndarray Z * Z * Z) :=
  let canvas := match canvas_arg with
                | None => board_array stats
                | Some c => c
                end in
  let min_x := if ox self >? 0 then 0 else - ox self in
  let min_y := if oy self >? 0 then 0 else - oy self in
  let array := getslice (palettized_array self) (Some min_y) None (Some min_x) None in
  let x := Z.max 0 (ox self) in
  let y := Z.max 0 (oy self) in
  if (y >? rows canvas) || (x >? cols canvas) then
    Err (ValueError "The template is outside canvas boundaries.")
  else
    let height := if y + rows array >? rows canvas then rows canvas - y
                  else rows array in
    let width := if x + cols array >? cols canvas then cols canvas - x
                 else cols array in
    let array := getslice array None (Some height) None (Some width) in
    OK (array, x, y).

(* --------------------------------------------------------------------- *)
(** *** The hot-cell locator *)
(* --------------------------------------------------------------------- *)

(** [np.pad(m, [(0, bottom_pad), (0, right_pad)])]: constant padding
    with [False]; a negative pad width is refused. *)
Definition pad_bottom_right (m : ndarray bool) (bottom_pad right_pad : Z)
  : result (ndarray bool) :=
  if (bottom_pad <? 0) || (right_pad <? 0) then
    Err (ValueError "index can't contain negative values")
  else
    OK (mk_ndarray (shape0 m + Z.to_nat bottom_pad) (shape1 m + Z.to_nat right_pad)
          (fun y x => if in_boundsb m y x then item m y x else false)).

(** [to_chunks(arr, nrows, ncols)] of [find_coords].
    [arr.reshape(h // nrows, nrows, -1, ncols)] addresses item
    [(R, j, C, i)] at [arr[R * nrows + j, C * ncols + i]]; [swapaxes(1, 2)]
    makes it [(R, C, j, i)]; [reshape(-1, nrows, ncols)] numbers the
    chunks [k = R * (w // ncols) + C] in C order.  The result is the list
    of the chunks in that order. *)
Definition to_chunks (arr : ndarray bool) (nrows ncols : Z)
  : result (list (ndarray bool)) :=
  if negb (rows arr mod nrows =? 0) then Err AssertionError
  else if negb (cols arr mod ncols =? 0) then Err AssertionError
  else
    let chunk_rows := rows arr / nrows in
    let chunk_cols := cols arr / ncols in
    OK (map (fun k =>
              let R := k / chunk_cols in
              let C := k mod chunk_cols in
              mk_ndarray (Z.to_nat nrows) (Z.to_nat ncols)
                (fun j i => item arr (R * nrows + j) (C * ncols + i)))
            (range (Z.to_nat (chunk_rows * chunk_cols)))).

(** One iteration of the loop of [fast_max_chunk]; the state is
    [(i, max_index, chunk_pixels)]. *)
Definition max_chunk_step (st : Z * Z * Z) (chunk : ndarray bool) : Z * Z * Z :=
  let '(i, max_index, chunk_pixels) := st in
  let sum := Np.sum chunk in
  if sum >? chunk_pixels then (i + 1, i, sum)
  else (i + 1, max_index, chunk_pixels).

(** [fast_max_chunk] *)
Definition fast_max_chunk (chunked_mask : list (ndarray bool)) : Z :=
  let '(_, max_index, _) := fold_left max_chunk_step chunked_mask (0, -1, 0) in
  max_index.

(** [Template.find_coords]; [None] is the pair [(None, None)]. *)
Definition find_coords (self : Template) (chunk_size : Z)
  : result (option (Z * Z)) :=
  let* togo_mask := get_wrong_pixels_mask self in
  if chunk_size =? 0 then Err ZeroDivisionError
  else
    let right_pad := chunk_size - cols togo_mask mod chunk_size in
    let bottom_pad := chunk_size - rows togo_mask mod chunk_size in
    let* togo_mask := pad_bottom_right togo_mask bottom_pad right_pad in
    let* chunked_mask := to_chunks togo_mask chunk_size chunk_size in
    let max_index := fast_max_chunk chunked_mask in
    if max_index =? -1 then OK None
    else
      (* np.unravel_index(max_index, [c // chunk_size for c in togo_mask.shape]) *)
      let dim0 := rows togo_mask / chunk_size in
      let dim1 := cols togo_mask / chunk_size in
      if (max_index <? 0) || (dim0 * dim1 <=? max_index) then
        Err (ValueError "index is out of bounds for array")
      else
      let highest_chunk_coords := (max_index / dim1, max_index mod dim1) in
      let coords_in_template :=
        (fst highest_chunk_coords * chunk_size + chunk_size / 2,
         snd highest_chunk_coords * chunk_size + chunk_size / 2) in
      OK (Some (snd coords_in_template + ox self,
                fst coords_in_template + oy self)).

(* --------------------------------------------------------------------- *)
(** *** The ETA estimator *)
(* --------------------------------------------------------------------- *)

(** The first component of the pair [get_eta] returns: [None], a string,
    the integer [0], or [timedelta(hours=h)]. *)
Inductive eta_value : Type :=
| EtaNone
| EtaStr (s : string)
| EtaInt (n : Z)
| EtaDelta (hours : Q).

(** [a / b] on floats. *)
Definition truediv (a b : Q) : result Q :=
  if Qeq_bool b 0 then Err ZeroDivisionError else OK (a / b)%Q.

(** A [datetime] is a number of microseconds; so is a [timedelta]. *)
Definition timedelta_days (d : Z) : Z := d * 24 * 3600 * 1000000.
Definition timedelta_hours (h : Z) : Z := h * 3600 * 1000000.

Section Eta.

(** [db_templates.get_template_progress(self, dt)]: the stored sample
    [(datetime, progress)] looked up at [dt], if any. *)
Variable get_template_progress : Template -> Z -> option (Z * Z).

(** [td_format(td, short_format=True, hide_seconds=True, max_unit="day")]
    of utils.time_converter, on a duration in hours. *)
Variable td_format : Q -> string.

(** [Template.get_progress_at] *)
Definition get_progress_at (self : Template) (dt : Z) : option Z * option Z :=
  match get_template_progress self dt with
  | Some (datetime, progress) => (Some datetime, Some progress)
  | None => (None, None)
  end.

(** [Template.get_eta]; [now] is [round_minutes_down(datetime.utcnow())]. *)
Definition get_eta (self : Template) (now : Z) (as_string : bool)
  : result (eta_value * option Q) :=
  let td := timedelta_days 7 in
  let '(old_datetime, old_progress) := get_progress_at self (now - td) in
  let '(now_datetime, now_progress) := get_progress_at self now in
  match old_progress, now_progress, old_datetime, now_datetime with
  | Some old_progress, Some now_progress, Some old_datetime, Some now_datetime =>
    let diff_pixels := now_progress - old_progress in
    let diff_time := now_datetime - old_datetime in
    match total_placeable self, current_progress self with
    | Some total_placeable, Some current_progress =>
      let togo := total_placeable - current_progress in
      if total_placeable - current_progress =? 0 then
        OK (if as_string then EtaStr "done" else EtaInt 0, None)
      else if diff_time =? 0 then OK (EtaNone, None)
      else
        let* hours := truediv (inject_Z diff_time) (inject_Z (timedelta_hours 1)) in
        let* speed := truediv (inject_Z diff_pixels) hours in
        if Qeq_bool speed 0 then
          OK (if as_string then EtaStr "Never™️" else EtaNone, Some speed)
        else
          let* eta := truediv (inject_Z togo) speed in
          if Qle_bool eta 0 then
            let* eta := truediv (inject_Z now_progress) speed in
            if as_string then OK (EtaStr ("-" ++ td_format (- eta)%Q), Some speed)
            else OK (EtaDelta eta, Some speed)
          else if as_string then
            let* minutes := truediv eta (1 # 60) in
            if Qlt_le_dec minutes 1 then OK (EtaStr "< 1m", Some speed)
            else OK (EtaStr (td_format eta), Some speed)
          else OK (EtaDelta eta, Some speed)
    | _, _ => Err TypeError
    end
  | _, _, _, _ => OK (EtaNone, None)
  end.

End Eta.

(* ===================================================================== *)
(** ** class Combo *)
(* ===================================================================== *)

(** [Combo.__init__] *)
Definition Combo_init (title_ : string) (palettized : ndarray Z) (ox_ oy_ : Z)
  (name_ : string) (bot_id : Z) (canvas_code_ : string) : Template :=
  mk_Template None None (Some title_) ox_ oy_ canvas_code_
    (Some bot_id) (Some false) (Some name_) None palettized
    (cols palettized) (rows palettized) (Np.sum (ne_scalar palettized 255))
    None None None None true.

(* ===================================================================== *)
(** ** Module-level functions: layer, detemplatize *)
(* ===================================================================== *)

(** [view[mask] = arr[mask]] where [view = background[oy : oy + h,
    ox : ox + w]] is a view of [background]: the items of [arr] selected
    by [mask] are written through to [background]; the mask must have
    the shape of the view. *)
Definition paste_masked (background : ndarray Z) (oy_ ox_ : Z) (arr : ndarray Z)
  (mask : ndarray bool) : result (ndarray Z) :=
  let y0 := Some oy_ in
  let y1 := Some (oy_ + rows arr) in
  let x0 := Some ox_ in
  let x1 := Some (ox_ + cols arr) in
  let view := getslice background y0 y1 x0 x1 in
  let ys := slice_bound (rows background) 0 y0 in
  let xs := slice_bound (cols background) 0 x0 in
  if same_shape view mask && same_shape arr mask then
    OK (mk_ndarray (shape0 background) (shape1 background) (fun y x =>
          if in_boundsb view (y - ys) (x - xs) && item mask (y - ys) (x - xs)
          then item arr (y - ys) (x - xs)
          else item background y x))
  else Err IndexError.

(** The state of the loop of [layer]:
    [(background, min_x, min_y, max_x, max_y)]. *)
Definition layer_state : Type := ndarray Z * Z * Z * Z * Z.

(** One iteration of the loop of [layer]. *)
Definition layer_step (stats : Stats) (st : layer_state) (template : Template)
  : result layer_state :=
  let '(background, min_x, min_y, max_x, max_y) := st in
  match crop_to_canvas stats template None with
  | Err (ValueError _) => OK st                      (* continue *)
  | Err e => Err e
  | OK (arr, ox_, oy_) =>
    let mask := ne_scalar arr 255 in
    let* background := paste_masked background oy_ ox_ arr mask in
    OK (background,
        Z.min ox_ min_x, Z.min oy_ min_y,
        Z.max (ox_ + width template) max_x, Z.max (oy_ + height template) max_y)
  end.

Fixpoint layer_loop (stats : Stats) (templates : list Template) (st : layer_state)
  : result layer_state :=
  match templates with
  | [] => OK st
  | template :: rest =>
    let* st := layer_step stats st template in
    layer_loop stats rest st
  end.

(** [layer]: [(ox, oy, image)]. *)
Definition layer (stats : Stats) (templates : list Template)
  (placemap_arg : option (ndarray Z)) (crop_to_placemap crop_to_template : bool)
  : result (Z * Z * ndarray Z) :=
  let placemap := match placemap_arg with
                  | None => placemap_array stats
                  | Some p => p
                  end in
  let background := full_like placemap 255 in
  let* st := layer_loop stats templates
               (background, cols background, rows background, 0, 0) in
  let '(background, min_x, min_y, max_x, max_y) := st in
  let* background :=
    if crop_to_placemap then setmask background (ne_scalar placemap 0) 255
    else OK background in
  if crop_to_template then
    OK (min_x, min_y,
        getslice background (Some min_y) (Some max_y) (Some min_x) (Some max_x))
  else OK (0, 0, background).

(** An RGBA pixel of a [uint8] image of shape [(h, w, 4)]. *)
Record rgba : Type := mk_rgba { red : Z; green : Z; blue : Z; alpha : Z }.

(** The offsets [(j, i)] of the double loop over a block, in loop order. *)
Definition block_offsets (block_size : Z) : list (Z * Z) :=
  flat_map (fun j => map (fun i => (j, i)) (range (Z.to_nat block_size)))
    (range (Z.to_nat block_size)).

(** [fast_detemplatize] *)
Definition fast_detemplatize (array : ndarray rgba)
  (true_height true_width block_size : Z) : ndarray rgba :=
  mk_ndarray (Z.to_nat true_height) (Z.to_nat true_width) (fun y x =>
    match find (fun '(j, i) =>
                  alpha (item array (y * block_size + j) (x * block_size + i)) >? 128)
               (block_offsets block_size) with
    | Some (j, i) =>
      let px := item array (y * block_size + j) (x * block_size + i) in
      mk_rgba (red px) (green px) (blue px) 255
    | None => mk_rgba 0 0 0 0
    end).

(** [detemplatize] *)
Definition detemplatize (img_raw : ndarray rgba) (true_width : Z)
  : result (ndarray rgba) :=
  if (true_width <=? 0) || (cols img_raw / true_width =? 1) then OK img_raw
  else
    let block_size := cols img_raw / true_width in
    if block_size =? 0 then Err ZeroDivisionError
    else
      let true_height := rows img_raw / block_size in
      OK (fast_detemplatize img_raw true_height true_width block_size).

(* ===================================================================== *)
(** ** Strings *)
(* ===================================================================== *)

(** [c.lower()] on an ASCII letter (other characters are unchanged). *)
Definition lower_ascii (c : ascii) : ascii :=
  let n := nat_of_ascii c in
  if (Nat.leb 65 n && Nat.leb n 90)%bool then ascii_of_nat (n + 32) else c.

(** [s.lower()] *)
Fixpoint lower (s : string) : string :=
  match s with
  | EmptyString => EmptyString
  | String c rest => String (lower_ascii c) (lower rest)
  end.

(** A character of the class [[A-Za-z0-9_-]]. *)
Definition is_name_char (c : ascii) : bool :=
  let n := nat_of_ascii c in
  ((Nat.leb 65 n && Nat.leb n 90) || (Nat.leb 97 n && Nat.leb n 122)
   || (Nat.leb 48 n && Nat.leb n 57) || Nat.eqb n 95 || Nat.eqb n 45)%bool.

(** [re.match(r"^[A-Za-z0-9_-]*$", s)]: [$] matches at the end of the
    string and also just before a newline that ends it. *)
Fixpoint name_regex_match (s : string) : bool :=
  match s with
  | EmptyString => true
  | String c rest =>
    if is_name_char c then name_regex_match rest
    else (Nat.eqb (nat_of_ascii c) 10 && String.eqb rest EmptyString)%bool
  end.

(** [x in l] for a list of strings. *)
Definition str_in (x : string) (l : list string) : bool :=
  existsb (String.eqb x) l.

(** The names that [get_template] resolves to the combo. *)
Definition COMBO_NAMES : list string := ["@combo"; "combo"; "global"].

Definition opt_eqb {A} (eqb : A -> A -> bool) (a b : option A) : bool :=
  match a, b with
  | Some x, Some y => eqb x y
  | None, None => true
  | _, _ => false
  end.

(** Truth value of an [Optional[bool]] / [Optional[str]] / [Optional[int]]. *)
Definition truthy_bool (b : option bool) : bool :=
  match b with Some true => true | _ => false end.
Definition truthy_str (s : option string) : bool :=
  match s with Some s => negb (String.eqb s EmptyString) | None => false end.

(* ===================================================================== *)
(** ** class TemplateManager *)
(* ===================================================================== *)

Record TemplateManager : Type := mk_TemplateManager {
  list_ : list Template;        (* self.list *)
  progress_admins : list Z;
  combo : option Template;
  is_loading : bool
}.

Definition set_list (self : TemplateManager) (l : list Template) : TemplateManager :=
  mk_TemplateManager l (progress_admins self) (combo self) (is_loading self).
Definition set_combo (self : TemplateManager) (c : Template) : TemplateManager :=
  mk_TemplateManager (list_ self) (progress_admins self) (Some c) (is_loading self).

(** A template object of the registry: the combo, or the object at a
    position of [self.list].  Templates are compared by identity in the
    program ([==] on objects without [__eq__]); positions stand for the
    identities of the listed objects. *)
Inductive tref : Type :=
| RCombo
| RList (i : nat).

Definition tref_eqb (a b : tref) : bool :=
  match a, b with
  | RCombo, RCombo => true
  | RList i, RList j => Nat.eqb i j
  | _, _ => false
  end.

Definition deref (self : TemplateManager) (r : tref) : option Template :=
  match r with
  | RCombo => combo self
  | RList i => nth_error (list_ self) i
  end.

(** [enumerate(l)] *)
Definition enumerate {A} (l : list A) : list (nat * A) :=
  combine (seq 0 (List.length l)) l.

(** [TemplateManager.check_valid_name] *)
Definition check_valid_name (name_ : string) : result string :=
  if negb (name_regex_match name_) then
    Err (ValueError "The template name can only contain letters, numbers, hyphens (`-`) and underscores (`_`).")
  else if (Nat.ltb (String.length name_) 2 || Nat.ltb 40 (String.length name_))%bool then
    Err (ValueError "The template name must be between 2 and 40 characters.")
  else if str_in (lower name_) COMBO_NAMES then
    Err (ValueError "This name is reserved for the @combo template.")
  else OK name_.

(** The test of the loop of [get_template] on one listed template;
    [temp.name.lower()] on a template without a name is an error. *)
Definition get_template_match (temp : Template) (name_ : string)
  (owner_id_ : option Z) (hidden_ : bool) : result bool :=
  match name temp with
  | None => Err AttributeError
  | Some n =>
    if String.eqb (lower n) (lower name_) then
      if hidden_ then
        OK (truthy_bool (hidden temp) && opt_eqb Z.eqb (owner_id temp) owner_id_)%bool
      else OK (negb (truthy_bool (hidden temp)))
    else OK false
  end.

Fixpoint get_template_loop (l : list (nat * Template)) (name_ : string)
  (owner_id_ : option Z) (hidden_ : bool) : result (option tref) :=
  match l with
  | [] => OK None
  | (i, temp) :: rest =>
    let* found := get_template_match temp name_ owner_id_ hidden_ in
    if found then OK (Some (RList i))
    else get_template_loop rest name_ owner_id_ hidden_
  end.

(** [TemplateManager.get_template] *)
Definition get_template (self : TemplateManager) (name_ : string)
  (owner_id_ : option Z) (hidden_ : bool) : result (option tref) :=
  if (str_in (lower name_) COMBO_NAMES &&
      match combo self with Some _ => true | None => false end)%bool
  then OK (Some RCombo)
  else get_template_loop (enumerate (list_ self)) name_ owner_id_ hidden_.

(** [TemplateManager.get_all_public_templates], with the positions. *)
Definition get_all_public_templates (self : TemplateManager) : list (nat * Template) :=
  filter (fun '(_, t) => negb (truthy_bool (hidden t))) (enumerate (list_ self)).

(** [TemplateManager.get_hidden_templates], with the positions. *)
Definition get_hidden_templates (self : TemplateManager) (owner_id_ : option Z)
  : list (nat * Template) :=
  filter (fun '(_, t) =>
            (truthy_bool (hidden t) && opt_eqb Z.eqb (owner_id t) owner_id_)%bool)
         (enumerate (list_ self)).

(** [(a == b).all()] guarded by [a.shape == b.shape]. *)
Definition same_image (a b : ndarray Z) : bool :=
  (same_shape a b &&
   match equal a b with
   | OK m => Np.all m
   | Err _ => false
   end)%bool.

(** [TemplateManager.check_duplicate_template]: the position of the
    first listed template with the same image and coordinates. *)
Definition check_duplicate_template (self : TemplateManager) (template : Template)
  : option nat :=
  let list_to_search :=
    if truthy_bool (hidden template)
    then get_hidden_templates self (owner_id template)
    else get_all_public_templates self in
  match find (fun '(_, t) =>
                (same_image (palettized_array template) (palettized_array t)
                 && ((oy template =? oy t) && (ox template =? ox t)))%bool)
             list_to_search with
  | Some (i, _) => Some i
  | None => None
  end.

(** Attribute assignments on a template object. *)
Definition set_identity (t : Template) (name_ : option string)
  (owner_id_ : option Z) (hidden_ : option bool) (id_ : option Z) : Template :=
  mk_Template (url t) (stylized_url t) (title t) (ox t) (oy t) (canvas_code t)
    owner_id_ hidden_ name_ id_ (palettized_array t) (width t) (height t)
    (total_size t) (placeable_mask t) (total_placeable t) (placed_mask t)
    (current_progress t) (is_combo t).

Definition set_palettized_array (t : Template) (a : ndarray Z) : Template :=
  mk_Template (url t) (stylized_url t) (title t) (ox t) (oy t) (canvas_code t)
    (owner_id t) (hidden t) (name t) (id t) a (width t) (height t)
    (total_size t) (placeable_mask t) (total_placeable t) (placed_mask t)
    (current_progress t) (is_combo t).

Definition set_canvas_code (t : Template) (c : string) : Template :=
  mk_Template (url t) (stylized_url t) (title t) (ox t) (oy t) c
    (owner_id t) (hidden t) (name t) (id t) (palettized_array t) (width t)
    (height t) (total_size t) (placeable_mask t) (total_placeable t)
    (placed_mask t) (current_progress t) (is_combo t).

Definition set_placeable (t : Template) (m : ndarray bool) (n : Z) : Template :=
  mk_Template (url t) (stylized_url t) (title t) (ox t) (oy t) (canvas_code t)
    (owner_id t) (hidden t) (name t) (id t) (palettized_array t) (width t)
    (height t) (total_size t) (Some m) (Some n) (placed_mask t)
    (current_progress t) (is_combo t).

(** [TemplateManager.make_combo_image] *)
Definition make_combo_image (stats : Stats) (self : TemplateManager)
  : result (ndarray Z) :=
  let* r := layer stats (rev (list_ self)) None true false in
  OK (snd r).

(** [TemplateManager.update_combo]: the outcome and the manager after
    the call (the combo object is updated in place, also when a later
    statement raises). *)
Definition update_combo (stats : Stats) (self : TemplateManager)
  (bot_id : option Z) (canvas_code_ : option string)
  : result Template * TemplateManager :=
  match make_combo_image stats self with
  | Err e => (Err e, self)
  | OK palettized =>
    let created :=
      match combo self with
      | None =>
        match bot_id, canvas_code_ with
        | Some b, Some c =>
          if (negb (b =? 0) && negb (String.eqb c EmptyString))%bool then
            OK (Combo_init "@clueless-combo" palettized 0 0 "@combo" b c)
          else Err (Exception_ "Cannot init the combo with empty bot_id or canvas_code")
        | _, _ => Err (Exception_ "Cannot init the combo with empty bot_id or canvas_code")
        end
      | Some c =>
        let c := set_palettized_array c palettized in
        OK (if truthy_str canvas_code_
            then set_canvas_code c (match canvas_code_ with Some s => s | None => "" end)
            else c)
      end in
    match created with
    | Err e => (Err e, self)
    | OK c =>
      (* remove the non placeable pixels *)
      match setmask (palettized_array c) (eq_scalar (placemap_array stats) 255) 255 with
      | Err e => (Err e, set_combo self c)
      | OK arr =>
        let c := set_palettized_array c arr in
        (* update the placeable mask *)
        match make_placeable_mask stats c with
        | Err e => (Err e, set_combo self c)
        | OK pm =>
          let c := set_placeable c pm (Np.sum pm) in
          (OK c, set_combo self c)
        end
      end
    end
  end.

Definition str_of_name (n : option string) : string :=
  match n with Some s => s | None => "None" end.

Definition BASE64_MSG : string :=
  "You cannot add a template with a base64 URL to the tracker." ++
  String (ascii_of_nat 10)
    "Use `/template image:<your template link>` to shorten the link.".

(** The two checks on the links of a template ([save], [update_template]). *)
Definition check_links (template : Template) : result unit :=
  match stylized_url template with
  | None => Err AttributeError
  | Some su =>
    if String.prefix "data:image" su then Err (ValueError BASE64_MSG)
    else
      match url template with
      | None => Err TypeError
      | Some u =>
        if Nat.ltb 512 (String.length u) then
          Err (ValueError "The template URL cannot be longer than 512 characters.")
        else OK tt
      end
  end.

Definition DUPLICATE_NAME (n : string) : exn :=
  ValueError ("There is already a template with the name `" ++ n ++ "`.").

Definition DUPLICATE_TEMPLATE (n : option string) : exn :=
  ValueError ("There is already a template with the same image and coords named `"
              ++ str_of_name n ++ "`.").

Section Registry.

Variable stats : Stats.

(** [db_templates.create_template(template)]: the new id, or the
    exception the database raises. *)
Variable db_create_template : Template -> result Z.

(** [TemplateManager.save]: the outcome and the manager after the call.
    [template] is the object the caller has just built (it is not yet in
    [self.list]); the attributes [save] assigns to it before its checks
    belong to that object, not to the manager. *)
Definition save (self : TemplateManager) (template : Template) (name_ : string)
  (owner_id_ : Z) (hidden_ : bool) : result unit * TemplateManager :=
  let template := set_identity template (Some name_) (Some owner_id_) (Some hidden_)
                    (id template) in
  (* check on the name *)
  match check_valid_name name_ with
  | Err e => (Err e, self)
  | OK name_ =>
    let template := set_identity template (Some name_) (owner_id template)
                      (hidden template) (id template) in
    (* check on template link size *)
    match check_links template with
    | Err e => (Err e, self)
    | OK _ =>
      (* check duplicate template names *)
      match get_template self name_ (owner_id template) hidden_ with
      | Err e => (Err e, self)
      | OK (Some _) => (Err (DUPLICATE_NAME name_), self)
      | OK None =>
        (* check duplicate images/coords *)
        match check_duplicate_template self template with
        | Some i =>
          (Err (DUPLICATE_TEMPLATE
                  (match nth_error (list_ self) i with
                   | Some t => name t
                   | None => None
                   end)), self)
        | None =>
          (* save in db *)
          match db_create_template template with
          | Err e => (Err e, self)
          | OK id_ =>
            let template := set_identity template (name template)
                              (owner_id template) (hidden template) (Some id_) in
            (* save in list *)
            let self := set_list self (list_ self ++ [template]) in
            (* update the @combo *)
            match update_combo stats self None None with
            | (Err e, self) => (Err e, self)
            | (OK _, self) => (OK tt, self)
            end
          end
        end
      end
    end
  end.

(** [get_template_from_url(url)]: the template decoded from a link, or
    the exception raised while downloading or decoding it. *)
Variable get_template_from_url : string -> result Template.

(** [db_templates.update_template(old_temp, url, name, owner_id)]: the id
    of the updated row (or a false value), or the exception raised. *)
Variable db_update_template :
  Template -> option string -> option string -> option Z -> result (option Z).

(** [self.list.remove(old); self.list.insert(i, new)] where [i] is the
    position of [old]. *)
Definition replace_at {A} (l : list A) (i : nat) (x : A) : list A :=
  firstn i l ++ x :: skipn (S i) l.

(** The [if new_url: ... else: ...] part of [update_template]. *)
Definition update_template_source (self : TemplateManager) (old_ref : tref)
  (old_temp : Template) (new_url : option string) : result Template :=
  if truthy_str new_url then
    let* new_temp := get_template_from_url
                       (match new_url with Some u => u | None => "" end) in
    let* _ := check_links new_temp in
    if opt_eqb Z.eqb (total_placeable new_temp) (Some 0) then
      Err (ValueError "The template seems to be outside the canvas, make sure it's correctly positioned.")
    else
      let temp_same_image := check_duplicate_template self new_temp in
      let assign :=
        OK (set_identity new_temp (name old_temp) (owner_id old_temp)
              (hidden old_temp) (id old_temp)) in
      match temp_same_image with
      | Some j =>
        if tref_eqb (RList j) old_ref then
          if (opt_eqb String.eqb (title old_temp) (title new_temp) &&
              opt_eqb String.eqb (stylized_url old_temp) (stylized_url new_temp))%bool
          then Err (ValueError "The new template has no changes (same image, coords, title, image link).")
          else assign
        else
          Err (DUPLICATE_TEMPLATE
                 (match nth_error (list_ self) j with
                  | Some t => name t
                  | None => None
                  end))
      | None => assign
      end
  else OK old_temp (* copy.deepcopy(old_temp) *).

(** The [if new_name: ...] part of [update_template]. *)
Definition update_template_name (self : TemplateManager) (old_ref : tref)
  (new_temp : Template) (new_name : option string) : result Template :=
  if truthy_str new_name then
    let* new_name := check_valid_name
                       (match new_name with Some n => n | None => "" end) in
    let* temp_with_same_name := get_template self new_name None false in
    match temp_with_same_name with
    | Some r =>
      if negb (tref_eqb r old_ref) then Err (DUPLICATE_NAME new_name)
      else OK (set_identity new_temp (Some new_name) (owner_id new_temp)
                 (hidden new_temp) (id new_temp))
    | None =>
      OK (set_identity new_temp (Some new_name) (owner_id new_temp)
            (hidden new_temp) (id new_temp))
    end
  else OK new_temp.

(** [TemplateManager.update_template]: the pair [(old_temp, new_temp)]
    and the manager after the call. *)
Definition update_template (self : TemplateManager) (current_name : string)
  (command_user_id : Z) (new_url new_name : option string) (new_owner : option Z)
  : result (Template * Template) * TemplateManager :=
  match get_template self current_name (Some command_user_id) false with
  | Err e => (Err e, self)
  | OK None => (Err (ValueError ("No template named `" ++ current_name ++ "` found.")), self)
  | OK (Some old_ref) =>
    match deref self old_ref with
    | None => (Err AttributeError, self)
    | Some old_temp =>
      if (negb (opt_eqb Z.eqb (owner_id old_temp) (Some command_user_id)) &&
          negb (existsb (Z.eqb command_user_id) (progress_admins self)))%bool then
        (Err (ValueError "You cannot edit a template that you don't own."), self)
      else if is_combo old_temp then
        (Err (ValueError "You cannot edit the combo."), self)
      else
        match (let* new_temp := update_template_source self old_ref old_temp new_url in
               update_template_name self old_ref new_temp new_name) with
        | Err e => (Err e, self)
        | OK new_temp =>
          let new_temp :=
            match new_owner with
            | Some new_owner_id =>
              set_identity new_temp (name new_temp) (Some new_owner_id)
                (hidden new_temp) (id new_temp)
            | None => new_temp
            end in
          let new_temp := set_identity new_temp (name new_temp) (owner_id new_temp)
                            (Some false) (id new_temp) in
          match db_update_template old_temp (url new_temp) (name new_temp)
                  (owner_id new_temp) with
          | Err IntegrityError =>
            (Err (ValueError "You cannot transfer the ownership to a user that has never used the bot."), self)
          | Err e => (Err e, self)
          | OK temp_id =>
            if match temp_id with Some n => n =? 0 | None => true end then
              (Err (ValueError "There was an error while updating the template."), self)
            else
              match old_ref with
              | RCombo => (Err (ValueError "x not in list"), self)
              | RList old_temp_index =>
                let self := set_list self
                              (replace_at (list_ self) old_temp_index new_temp) in
                match update_combo stats self None None with
                | (Err e, self) => (Err e, self)
                | (OK _, self) => (OK (old_temp, new_temp), self)
                end
              end
          end
        end
    end
  end.

End Registry.

(* ===================================================================== *)
(** ** Vocabulary of the properties, and example data *)
(* ===================================================================== *)

(** The invariant [Template.__init__] establishes between the stored
    dimensions, the pixel grid and the placeable mask. *)
Definition template_dims_ok (t : Template) : Prop :=
  width t = cols (palettized_array t) /\ height t = rows (palettized_array t).

(** The placement rectangle of the template and the canvas share at
    least one cell. *)
Definition overlaps_canvas (t : Template) (canvas : ndarray Z) : Prop :=
  Z.max 0 (ox t) < Z.min (cols canvas) (ox t + cols (palettized_array t)) /\
  Z.max 0 (oy t) < Z.min (rows canvas) (oy t + rows (palettized_array t)).

(** A 4 x 4 canvas where every cell is placeable, and a 2 x 2 grid. *)
Definition canvas_4x4 : ndarray Z := full 4 4 0.

Definition stats_4x4 : Stats := mk_Stats canvas_4x4 canvas_4x4 canvas_4x4.

Definition grid_2x2 : ndarray Z := of_rows 255 [[1; 2]; [3; 4]].

(** An opaque pixel and a 5 x 5 image of them. *)
Definition opaque (v : Z) : rgba := mk_rgba v v v 255.

Definition image_5x5 : ndarray rgba :=
  mk_ndarray 5 5 (fun y x => opaque (10 * y + x)).

(** The speed [get_eta] computes, in pixels per hour. *)
Definition eta_speed (old_datetime old_progress now_datetime now_progress : Z) : Q :=
  (inject_Z (now_progress - old_progress) /
   (inject_Z (now_datetime - old_datetime) / inject_Z (timedelta_hours 1)))%Q.

(** The value of a result that is [OK]. *)
Definition from_ok {A} (default : A) (r : result A) : A :=
  match r with
  | OK a => a
  | Err _ => default
  end.

(** A tracked template for the examples: a strip of ten cells of colour
    1 on a 1 x 10 canvas whose first four cells are already right. *)
Definition stats_strip : Stats :=
  mk_Stats (of_rows 0 [[1; 1; 1; 1; 0; 0; 0; 0; 0; 0]]) (full 1 10 0) (full 1 10 0).

Definition strip_template : Template :=
  from_ok (Combo_init "" (full 0 0 0) 0 0 "" 0 "")
    (let* t := Template_init stats_strip "u" "s" None (full 1 10 1) 0 0 "c" in
     let* r := update_progress stats_strip t None in
     OK (snd r)).

Definition week : Z := timedelta_days 7.

(** Samples: 172 pixels a week ago, 4 now. *)
Definition history_losing (_ : Template) (dt : Z) : option (Z * Z) :=
  if dt =? 0 then Some (0, 172)
  else if dt =? week then Some (week, 4)
  else None.

(** Samples: 100 pixels a week ago, 100 now. *)
Definition history_flat (_ : Template) (dt : Z) : option (Z * Z) :=
  if dt =? 0 then Some (0, 100)
  else if dt =? week then Some (week, 100)
  else None.

Definition td_format_hours (h : Q) : string :=
  if Qle_bool h 24 then "hours" else "days".

(** The number of [True] cells of the mask [m] in the chunk at row [R]
    and column [C] of the grid of [chunk_size] x [chunk_size] chunks
    (cells beyond the mask count for nothing). *)
Definition chunk_count (m : ndarray bool) (chunk_size R C : Z) : Z :=
  sum_list (map (fun j =>
    sum_list (map (fun i =>
      if (if in_boundsb m (R * chunk_size + j) (C * chunk_size + i)
          then item m (R * chunk_size + j) (C * chunk_size + i) else false)
      then 1 else 0)
      (range (Z.to_nat chunk_size))))
    (range (Z.to_nat chunk_size))).

(** The to-go mask: placeable and not placed. *)
Definition togo_mask_of (placed placeable : ndarray bool) : ndarray bool :=
  mk_ndarray (shape0 placed) (shape1 placed)
    (fun y x => negb (item placed y x) && item placeable y x).

(** [(R', C')] comes before [(R, C)] in row-major order. *)
Definition row_major_before (R' C' R C : Z) : Prop :=
  R' < R \/ (R' = R /\ C' < C).

(** The chunk grid of [find_coords] has [rows // chunk_size + 1] rows and
    [cols // chunk_size + 1] columns: the padding always adds between 1
    and [chunk_size] rows and columns. *)
Definition chunk_grid (m : ndarray bool) (chunk_size R C : Z) : Prop :=
  0 <= R < rows m / chunk_size + 1 /\ 0 <= C < cols m / chunk_size + 1.

(** The result of [find_coords] for the chunk [(R, C)]: the centre of the
    chunk, moved by the origin of the template. *)
Definition chunk_center (self : Template) (chunk_size R C : Z) : Z * Z :=
  (C * chunk_size + chunk_size / 2 + ox self,
   R * chunk_size + chunk_size / 2 + oy self).

(** What the specification says of the locator, for a to-go mask [togo]
    cut into chunks of size [cs]. *)
Definition hot_chunk_spec (self : Template) (cs : Z) (togo : ndarray bool) : Prop :=
  (* no location when every chunk count is zero *)
  ((forall R C, chunk_grid togo cs R C -> chunk_count togo cs R C = 0) ->
   find_coords self cs = OK None) /\
  (* otherwise the centre of the first chunk holding the largest count *)
  ((exists R C, chunk_grid togo cs R C /\ chunk_count togo cs R C <> 0) ->
   exists R C, chunk_grid togo cs R C /\
     find_coords self cs = OK (Some (chunk_center self cs R C)) /\
     (forall R' C', chunk_grid togo cs R' C' ->
        chunk_count togo cs R' C' <= chunk_count togo cs R C) /\
     (forall R' C', chunk_grid togo cs R' C' -> row_major_before R' C' R C ->
        chunk_count togo cs R' C' < chunk_count togo cs R C)) /\
  (* a single true cell gives the centre of its chunk *)
  (forall y0 x0, in_bounds togo y0 x0 ->
     (forall y x, in_bounds togo y x -> (item togo y x = true <-> y = y0 /\ x = x0)) ->
     find_coords self cs = OK (Some (chunk_center self cs (y0 / cs) (x0 / cs)))).

(** The palette index the template [t] shows at the canvas cell
    [(y, x)]: transparent outside its placement rectangle. *)
Definition template_cell (t : Template) (y x : Z) : Z :=
  if in_boundsb (palettized_array t) (y - oy t) (x - ox t)
  then item (palettized_array t) (y - oy t) (x - ox t)
  else TRANSPARENT.

(** The template is not transparent at the canvas cell [(y, x)]. *)
Definition opaque_at (t : Template) (y x : Z) : bool :=
  negb (template_cell t y x =? TRANSPARENT).

(** The colour of the canvas cell [(y, x)] after the templates [ts] were
    drawn in order over a cell of colour [below]. *)
Fixpoint composite_cell (ts : list Template) (below : Z) (y x : Z) : Z :=
  match ts with
  | [] => below
  | t :: rest =>
    composite_cell rest (if opaque_at t y x then template_cell t y x else below) y x
  end.

(** Two pixel grids with the same shape and the same cells. *)
Definition grid_identical (a b : ndarray Z) : Prop :=
  shape0 a = shape0 b /\ shape1 a = shape1 b /\
  forall y x, in_bounds a y x -> item a y x = item b y x.

(** The scope in which [save] looks for duplicates of a template saved
    by [owner] with the flag [hidden]: the owner's hidden templates, or
    all the templates that are not hidden. *)
Definition in_scope (t : Template) (owner : Z) (hidden_ : bool) : bool :=
  if hidden_ then truthy_bool (hidden t) && opt_eqb Z.eqb (owner_id t) (Some owner)
  else negb (truthy_bool (hidden t)).

(** A listed template of the scope already has the name (names are
    compared without case). *)
Definition name_taken (self : TemplateManager) (name_ : string) (owner : Z)
  (hidden_ : bool) : Prop :=
  exists i t n, nth_error (list_ self) i = Some t /\ name t = Some n /\
    lower n = lower name_ /\ in_scope t owner hidden_ = true.

(** A listed template of the scope has the same pixel grid at the same
    origin; [i] is its position. *)
Definition image_taken_at (self : TemplateManager) (template : Template)
  (owner : Z) (hidden_ : bool) (i : nat) (t : Template) : Prop :=
  nth_error (list_ self) i = Some t /\ in_scope t owner hidden_ = true /\
  grid_identical (palettized_array template) (palettized_array t) /\
  ox template = ox t /\ oy template = oy t.

(** Every listed template has a name (as [save] and the loader leave
    them). *)
Definition all_named (self : TemplateManager) : Prop :=
  Forall (fun t => name t <> None) (list_ self).


(** A template object as [Template.__init__] builds it on the 4 x 4
    canvas. *)
Definition demo_template (u su : string) (pal : ndarray Z) (ox_ oy_ : Z) : Template :=
  from_ok (Combo_init "" (full 0 0 0) 0 0 "" 0 "")
    (Template_init stats_4x4 u su None pal ox_ oy_ "c").

Definition db_create_ok (_ : Template) : result Z := OK 7.

Definition db_update_ok (_ : Template) (_ _ : option string) (_ : option Z)
  : result (option Z) := OK (Some 7).

Definition no_download (_ : string) : result Template :=
  Err (ValueError "Couldn't download the template image.").

Definition template_a : Template :=
  demo_template "https://pxls.space/#template=a&tw=2&ox=0&oy=0"
    "https://i.example/a.png" grid_2x2 0 0.

(** A template with a base64 image link. *)
Definition template_base64 : Template :=
  demo_template "https://pxls.space/#template=b&tw=2&ox=2&oy=2"
    "data:image/png;base64,AAAA" (of_rows 255 [[5; 5]; [5; 5]]) 2 2.

(** The same grid and origin as [template_a] under another link. *)
Definition template_a_copy : Template :=
  demo_template "https://pxls.space/#template=c&tw=2&ox=0&oy=0"
    "https://i.example/c.png" grid_2x2 0 0.

(** A manager with its combo, and then with [template_a] saved as the
    public template "foo" of user 1. *)
Definition manager_empty : TemplateManager := mk_TemplateManager [] [] None false.

Definition manager_combo : TemplateManager :=
  snd (update_combo stats_4x4 manager_empty (Some 99) (Some "c")).

Definition manager_foo : TemplateManager :=
  snd (save stats_4x4 db_create_ok manager_combo template_a "foo" 1 false).

(** Two overlapping templates on a canvas whose cell (0, 0) is not
    placeable. *)
Definition stats_demo : Stats :=
  mk_Stats canvas_4x4
    (of_rows 0 [[255; 0; 0; 0]; [0; 0; 0; 0]; [0; 0; 0; 0]; [0; 0; 0; 0]])
    canvas_4x4.

Definition template_low : Template := template_a.

Definition template_high : Template :=
  demo_template "u" "s" (of_rows 255 [[255; 5]; [6; 7]]) 1 1.

(* ===================================================================== *)
(** ** Further functions of the module and of its callers *)
(* ===================================================================== *)

(** [crop_array_to_shape] (used by [make_before_after_gif]);
    [np.full] refuses a negative dimension. *)
Definition crop_array_to_shape (array1 : ndarray Z) (height_ width_ oy_ ox_ : Z)
  : result (ndarray Z) :=
  let y0 := Z.min (Z.max 0 oy_) (rows array1) in
  let y1 := Z.max 0 (Z.min (rows array1) (oy_ + height_)) in
  let x0 := Z.min (Z.max 0 ox_) (cols array1) in
  let x1 := Z.max 0 (Z.min (cols array1) (ox_ + width_)) in
  let _cropped_array := getslice array1 (Some y0) (Some y1) (Some x0) (Some x1) in
  if (height_ <? 0) || (width_ <? 0) then
    Err (ValueError "negative dimensions are not allowed")
  else
    let cropped_array := full (Z.to_nat height_) (Z.to_nat width_) 255 in
    setslice cropped_array
      (Some (y0 - oy_)) (Some (y1 - oy_))
      (Some (x0 - ox_)) (Some (x1 - ox_)) _cropped_array.

(** The value of the array [a] at the canvas cell under the cell
    [(y, x)] of a grid placed at [(oy, ox)]: 255 outside [a]. *)
Definition canvas_under (a : ndarray Z) (oy_ ox_ y x : Z) : Z :=
  if in_boundsb a (oy_ + y) (ox_ + x) then item a (oy_ + y) (ox_ + x) else 255.

(** Every character of the string is of the class [[A-Za-z0-9_-]]. *)
Fixpoint all_name_chars (s : string) : bool :=
  match s with
  | EmptyString => true
  | String c rest => is_name_char c && all_name_chars rest
  end.

(** The string made of one newline. *)
Definition NEWLINE : string := String (ascii_of_nat 10) EmptyString.

(** A grid of four pixels, and the image that shows each of them as a
    block of 2 x 2 pixels. *)
Definition pixels_2x2 : ndarray rgba :=
  mk_ndarray 2 2 (fun y x => opaque (10 * y + x)).

Definition pixels_2x2_scaled : ndarray rgba :=
  mk_ndarray 4 4 (fun y x => opaque (10 * (y / 2) + x / 2)).

(** [self.list.remove(temp)] where [i] is the position of [temp]. *)
Definition remove_at {A} (l : list A) (i : nat) : list A :=
  firstn i l ++ skipn (S i) l.

Section RegistryMore.

Variable stats : Stats.

(** [db_templates.delete_template(temp)], or the exception it raises. *)
Variable db_delete_template : Template -> result unit.

(** [TemplateManager.delete_template]: the template deleted and the
    manager after the call. *)
Definition delete_template (self : TemplateManager) (name_ : string)
  (command_user_id : Z) (hidden_ : bool) : result Template * TemplateManager :=
  match get_template self name_ (Some command_user_id) hidden_ with
  | Err e => (Err e, self)
  | OK None => (Err (ValueError ("No template named `" ++ name_ ++ "` found.")), self)
  | OK (Some temp_ref) =>
    match deref self temp_ref with
    | None => (Err AttributeError, self)
    | Some temp =>
      if (negb (opt_eqb Z.eqb (owner_id temp) (Some command_user_id)) &&
          negb (existsb (Z.eqb command_user_id) (progress_admins self)))%bool then
        (Err (ValueError "You cannot delete a template that you don't own."), self)
      else if is_combo temp then
        (Err (ValueError "You cannot delete the combo."), self)
      else
        match db_delete_template temp with
        | Err e => (Err e, self)
        | OK _ =>
          match temp_ref with
          | RCombo => (Err (ValueError "list.remove(x): x not in list"), self)
          | RList i =>
            let self := set_list self (remove_at (list_ self) i) in
            match update_combo stats self None None with
            | (Err e, self) => (Err e, self)
            | (OK _, self) => (OK temp, self)
            end
          end
        end
    end
  end.

End RegistryMore.

(** Two templates are looked up in the same scope: both are public, or
    both are hidden and have the same owner. *)
Definition same_scope (a b : Template) : bool :=
  if truthy_bool (hidden a)
  then truthy_bool (hidden b) && opt_eqb Z.eqb (owner_id a) (owner_id b)
  else negb (truthy_bool (hidden b)).

(** No two listed templates of one scope have the same name (without
    case). *)
Definition names_unique (self : TemplateManager) : Prop :=
  forall i j ti tj ni nj,
    nth_error (list_ self) i = Some ti -> nth_error (list_ self) j = Some tj ->
    name ti = Some ni -> name tj = Some nj -> lower ni = lower nj ->
    same_scope ti tj = true -> i = j.

(** No two listed templates of one scope have the same pixel grid at the
    same origin. *)
Definition images_unique (self : TemplateManager) : Prop :=
  forall i j ti tj,
    nth_error (list_ self) i = Some ti -> nth_error (list_ self) j = Some tj ->
    same_scope ti tj = true ->
    grid_identical (palettized_array ti) (palettized_array tj) ->
    ox ti = ox tj -> oy ti = oy tj -> i = j.

(** The object [save] appends: the template with its name, owner,
    hidden flag and database id set. *)
Definition saved_template (template : Template) (name_ : string) (owner : Z)
  (hidden_ : bool) (id_ : Z) : Template :=
  set_identity template (Some name_) (Some owner) (Some hidden_) (Some id_).

Definition db_delete_ok (_ : Template) : result unit := OK tt.

(** The combo can be refreshed: cropping the placemap to it succeeds for
    every grid of the placemap's shape it may be given. *)
Definition combo_ready (stats : Stats) (c : Template) : Prop :=
  forall arr : ndarray Z,
    shape0 arr = shape0 (placemap_array stats) ->
    shape1 arr = shape1 (placemap_array stats) ->
    exists cm, crop_array_to_template (set_palettized_array c arr) (placemap_array stats)
               = OK cm.

(** *** cogs/clock.py: the periodic refresh of the tracked templates *)

Section Clock.

Variable stats : Stats.

(** [db_templates.create_template_stat(temp, dt, progress)] and
    [db_templates.create_combo_stat(combo, dt, progress)], or the
    exceptions they raise; [dt] is the time of the refresh. *)
Variable create_template_stat : Template -> Z -> Z -> result unit.
Variable create_combo_stat : Template -> Z -> Z -> result (option Z).

(** The loop of [Clock.update_template_stats] over the copy
    [tracked_templates.list[:]]: [todo] are the objects still to visit,
    [kept] the part of [tracked_templates.list] before them.  The result
    is the outcome and [tracked_templates.list] when the loop ends or
    raises. *)
Fixpoint update_template_stats_loop (canvas_code_ : option string) (dt : Z)
  (todo kept : list Template) : result unit * list Template :=
  match todo with
  | [] => (OK tt, kept)
  | temp :: rest =>
    if match canvas_code_ with
       | Some c => negb (String.eqb (canvas_code temp) c)
       | None => false
       end
    then update_template_stats_loop canvas_code_ dt rest kept
    else
      match update_progress stats temp None with
      | Err e => (Err e, (kept ++ temp :: rest)%list)
      | OK (progress, temp) =>
        match create_template_stat temp dt progress with
        | Err e => (Err e, (kept ++ temp :: rest)%list)
        | OK _ => update_template_stats_loop canvas_code_ dt rest (kept ++ [temp])%list
        end
      end
  end.

(** [Clock.update_template_stats]; [canvas_code_] is what
    [stats.get_canvas_code()] returned, [bot_user_id] is
    [self.bot.user.id]. *)
Definition update_template_stats (self : TemplateManager)
  (canvas_code_ : option string) (dt bot_user_id : Z)
  : result unit * TemplateManager :=
  match update_template_stats_loop canvas_code_ dt (list_ self) [] with
  | (Err e, l) => (Err e, set_list self l)
  | (OK _, l) =>
    let self := set_list self l in
    (* update the combo and save its progress *)
    match update_combo stats self (Some bot_user_id) canvas_code_ with
    | (Err e, self) => (Err e, self)
    | (OK _, self) =>
      match combo self with
      | None => (Err AttributeError, self)
      | Some c =>
        match update_progress stats c None with
        | Err e => (Err e, self)
        | OK (combo_progress, c) =>
          let self := set_combo self c in
          match create_combo_stat c dt combo_progress with
          | Err e => (Err e, self)
          | OK _ => (OK tt, self)
          end
        end
      end
    end
  end.

End Clock.

(** The template belongs to the canvas whose code is [canvas_code_]
    (to any canvas when the code is unknown). *)
Definition on_canvas (canvas_code_ : option string) (t : Template) : bool :=
  match canvas_code_ with
  | Some c => String.eqb (canvas_code t) c
  | None => true
  end.

(** [t'] is [t] after a successful [update_progress] on the board of the
    snapshot. *)
Definition refreshed (stats : Stats) (t t' : Template) : Prop :=
  exists pm, make_placed_mask stats t None = OK pm /\
             t' = set_progress t pm (Np.sum pm).





(* ===================================================================== *)
(** * Properties *)
(* ===================================================================== *)

(** ** Arrays *)

Module NpFacts.

Lemma sum_list_nonneg (l : list Z) :
  Forall (fun v => 0 <= v) l -> 0 <= sum_list l.
Proof.
  induction 1 as [|v l Hv _ IH]; simpl; lia.
Qed.

Lemma sum_list_map_le {A} (f g : A -> Z) (l : list A) :
  (forall a, In a l -> f a <= g a) ->
  sum_list (map f l) <= sum_list (map g l).
Proof.
  induction l as [|a l IH]; simpl; intros H; [lia|].
  specialize (H a (or_introl eq_refl)) as Ha.
  assert (sum_list (map f l) <= sum_list (map g l)) by (apply IH; intros; apply H; now right).
  lia.
Qed.

Lemma in_range (n : nat) (z : Z) : In z (range n) <-> 0 <= z < Z.of_nat n.
Proof.
  unfold range. rewrite in_map_iff. split.
  - intros [k [<- Hk]]. apply in_seq in Hk. lia.
  - intros Hz. exists (Z.to_nat z). split; [lia|]. apply in_seq. lia.
Qed.

Lemma sum_nonneg (m : ndarray bool) : 0 <= Np.sum m.
Proof.
  unfold Np.sum. apply sum_list_nonneg, Forall_forall.
  intros v Hv. apply in_map_iff in Hv as [y [<- _]].
  apply sum_list_nonneg, Forall_forall.
  intros v Hv. apply in_map_iff in Hv as [x [<- _]].
  destruct (item m y x); lia.
Qed.

Lemma sum_subset (m m' : ndarray bool) : subset m m' -> Np.sum m <= Np.sum m'.
Proof.
  intros (H0 & H1 & Hsub). unfold Np.sum. rewrite <- H0, <- H1.
  apply sum_list_map_le. intros y Hy.
  apply sum_list_map_le. intros x Hx.
  apply in_range in Hy, Hx.
  destruct (item m y x) eqn:E.
  - rewrite (Hsub y x); [lia| split; assumption | assumption].
  - destruct (item m' y x); lia.
Qed.

Lemma same_shape_true {A B} (a : ndarray A) (b : ndarray B) :
  same_shape a b = true <-> shape0 a = shape0 b /\ shape1 a = shape1 b.
Proof.
  unfold same_shape. rewrite andb_true_iff, !Nat.eqb_eq. reflexivity.
Qed.

Lemma slice_bound_range (len d : Z) (i : option Z) :
  0 <= len -> 0 <= d <= len -> 0 <= slice_bound len d i <= len.
Proof.
  intros Hl Hd. destruct i as [i|]; simpl; [|lia].
  destruct (i <? 0) eqn:E; lia.
Qed.

Lemma slice_bound_in (len d i : Z) :
  0 <= i <= len -> slice_bound len d (Some i) = i.
Proof.
  intros H. simpl. destruct (i <? 0) eqn:E; lia.
Qed.

End NpFacts.
Import NpFacts.

(** ** Placement masks *)

(** Cropping an array to a template never fails and gives an array of
    the template's shape. *)
Lemma crop_array_to_template_ok (t : Template) (array : ndarray Z) :
  template_dims_ok t ->
  exists c, crop_array_to_template t array = OK c /\
            shape0 c = shape0 (palettized_array t) /\
            shape1 c = shape1 (palettized_array t).
Proof.
  intros [Hw Hh]. unfold crop_array_to_template, setslice, getslice.
  set (pal := palettized_array t) in *.
  cbn [shape0 shape1 full_like full rows cols slice_bound].
  unfold rows, cols in *. cbn [shape0 shape1 full_like full].
  match goal with
  | |- exists c, (if ?b then _ else _) = _ /\ _ => assert (Hb : b = true)
  end.
  { unfold broadcastable. apply andb_true_iff; split; apply orb_true_iff; left;
      apply Nat.eqb_eq.
    - repeat match goal with
             | |- context [?a <? ?b] => destruct (Z.ltb_spec a b)
             end; lia.
    - repeat match goal with
             | |- context [?a <? ?b] => destruct (Z.ltb_spec a b)
             end; lia. }
  rewrite Hb. eexists. split; [reflexivity|]. simpl. split; reflexivity.
Qed.

Lemma make_placed_mask_subset (stats : Stats) (t : Template) (pm : ndarray bool)
  (board_arg : option (ndarray Z)) :
  template_dims_ok t ->
  placeable_mask t = Some pm ->
  same_shape (palettized_array t) pm = true ->
  exists placed, make_placed_mask stats t board_arg = OK placed /\ subset placed pm.
Proof.
  intros Hd Hpm Hs. unfold make_placed_mask.
  destruct (crop_array_to_template_ok t
              (match board_arg with None => board_array stats | Some b => b end) Hd)
    as (c & -> & Hc0 & Hc1).
  cbn [bind]. unfold equal, zip_items.
  assert (Hsc : same_shape (palettized_array t) c = true)
    by (apply same_shape_true; split; congruence).
  rewrite Hsc. cbn [bind]. rewrite Hpm.
  apply same_shape_true in Hs as [Hs0 Hs1].
  unfold setmask.
  match goal with
  | |- exists p, (if ?b then _ else _) = _ /\ _ => assert (Hb : b = true)
  end.
  { apply same_shape_true. simpl. split; assumption. }
  rewrite Hb. eexists. split; [reflexivity|].
  unfold subset. cbn [shape0 shape1 item invert map_items].
  repeat split; try assumption.
  intros y x _. destruct (item pm y x); simpl; congruence.
Qed.

Lemma Template_init_ok (stats : Stats) (u su : string) (ttl : option string)
  (pal : ndarray Z) (ox_ oy_ : Z) (cc : string) :
  exists t pm, Template_init stats u su ttl pal ox_ oy_ cc = OK t /\
    palettized_array t = pal /\ ox t = ox_ /\ oy t = oy_ /\
    template_dims_ok t /\
    placeable_mask t = Some pm /\ total_placeable t = Some (Np.sum pm) /\
    same_shape pal pm = true /\
    subset pm (ne_scalar pal 255).
Proof.
  unfold Template_init, make_placeable_mask.
  match goal with
  | |- context [crop_array_to_template ?t0 ?a] =>
    destruct (crop_array_to_template_ok t0 a) as (c & -> & Hc0 & Hc1);
      [split; reflexivity|]
  end.
  cbn [bind palettized_array] in *. unfold setmask.
  match goal with
  | |- context [if ?b then _ else _] => assert (Hb : b = true)
  end.
  { apply same_shape_true. simpl. split; congruence. }
  rewrite Hb. cbn [bind]. do 2 eexists. split; [reflexivity|].
  cbn [palettized_array ox oy placeable_mask total_placeable].
  repeat split; try reflexivity.
  - apply same_shape_true. simpl. split; reflexivity.
  - cbn [item ne_scalar eq_scalar map_items]. intros y x _.
    destruct (item c y x =? 255); [discriminate|tauto].
Qed.

(** Whatever the attributes of a template object are, a placed mask
    that [make_placed_mask] returns is a subset of the placeable mask it
    holds (this covers the combo and templates edited in place). *)
Lemma make_placed_mask_subset_any (stats : Stats) (t : Template)
  (board_arg : option (ndarray Z)) (placed pm : ndarray bool) :
  make_placed_mask stats t board_arg = OK placed ->
  placeable_mask t = Some pm ->
  subset placed pm /\ 0 <= Np.sum placed <= Np.sum pm.
Proof.
  unfold make_placed_mask. intros H Hpm. rewrite Hpm in H.
  destruct (crop_array_to_template t _) as [c|e]; [|discriminate H].
  cbn [bind] in H. unfold equal, zip_items in H.
  destruct (same_shape (palettized_array t) c); [|discriminate H].
  cbn [bind] in H. unfold setmask in H.
  match type of H with
  | (if ?b then _ else _) = _ => destruct b eqn:Hs; [|discriminate H]
  end.
  inversion H; subst placed; clear H.
  apply same_shape_true in Hs as [Hs0 Hs1]. cbn [shape0 shape1 invert map_items] in *.
  assert (Hsub : subset
            (mk_ndarray (shape0 (palettized_array t)) (shape1 (palettized_array t))
               (fun y x => if item (invert pm) y x then false
                           else item (palettized_array t) y x =? item c y x)) pm).
  { unfold subset. cbn [shape0 shape1 item invert map_items].
    repeat split; try assumption.
    intros y x _. destruct (item pm y x); simpl; congruence. }
  split; [exact Hsub|]. split; [apply sum_nonneg|apply sum_subset, Hsub].
Qed.

(** The board cropped to a template that sticks out of the canvas: the
    cells outside the canvas read 255. *)
Example crop_array_to_template_corner :
  let board := mk_ndarray 4 4 (fun y x => 10 * y + x) in
  let stats := mk_Stats board canvas_4x4 canvas_4x4 in
  exists t1 t2 c1 c2,
    Template_init stats "u" "s" None grid_2x2 (-1) (-1) "c" = OK t1 /\
    Template_init stats "u" "s" None grid_2x2 3 3 "c" = OK t2 /\
    crop_array_to_template t1 board = OK c1 /\
    to_rows c1 = [[255; 255]; [255; 0]] /\
    crop_array_to_template t2 board = OK c2 /\
    to_rows c2 = [[33; 255]; [255; 255]] /\
    option_map to_rows (placeable_mask t2) = Some [[true; false]; [false; false]].
Proof.
  do 4 eexists. repeat split; vm_compute; reflexivity.
Qed.

(** C1. For every template (built by [Template.__init__] on any pixel
    grid, origin and canvas snapshot) and every board, the placed mask
    computed by [make_placed_mask] is a subset of the placeable mask, and
    the progress returned by [update_progress] is the size of the placed
    mask and lies between 0 and [total_placeable]. *)
Theorem placed_subset_placeable_and_progress_bounded
  (stats stats' : Stats) (u su : string) (ttl : option string)
  (pal : ndarray Z) (ox_ oy_ : Z) (cc : string) (board_arg : option (ndarray Z)) :
  exists t placeable placed total progress t',
    Template_init stats u su ttl pal ox_ oy_ cc = OK t /\
    placeable_mask t = Some placeable /\
    total_placeable t = Some total /\
    make_placed_mask stats' t board_arg = OK placed /\
    subset placed placeable /\
    update_progress stats' t board_arg = OK (progress, t') /\
    placed_mask t' = Some placed /\
    current_progress t' = Some progress /\
    0 <= progress <= total.
Proof.
  destruct (Template_init_ok stats u su ttl pal ox_ oy_ cc)
    as (t & pm & Hinit & Hpal & _ & _ & Hd & Hpm & Htot & Hs & _).
  subst pal.
  destruct (make_placed_mask_subset stats' t pm board_arg Hd Hpm Hs)
    as (placed & Hplaced & Hsub).
  exists t, pm, placed, (Np.sum pm), (Np.sum placed), (set_progress t placed (Np.sum placed)).
  repeat split; try assumption; try reflexivity.
  - apply Hsub.
  - apply Hsub.
  - apply Hsub.
  - unfold update_progress. rewrite Hplaced. reflexivity.
  - apply sum_nonneg.
  - apply sum_subset, Hsub.
Qed.

(** ** Cropping a template to the canvas *)

Ltac no_if t :=
  lazymatch t with
  | context [if _ then _ else _] => fail
  | _ => idtac
  end.

(** Case analysis on the integer comparisons of the goal, innermost
    first. *)
Ltac case_ltb :=
  rewrite ?Z.gtb_ltb;
  repeat match goal with
         | |- context [?a <? ?b] => no_if a; no_if b; destruct (Z.ltb_spec a b)
         | |- context [?a <=? ?b] => no_if a; no_if b; destruct (Z.leb_spec a b)
         | |- context [?a =? ?b] => no_if a; no_if b; destruct (Z.eqb_spec a b)
         end.

(** What the code tests: the error is raised exactly when the clamped
    origin lies strictly beyond the bottom or the right edge. *)
Lemma crop_to_canvas_raises_iff (stats : Stats) (t : Template) (canvas : ndarray Z) :
  (exists e, crop_to_canvas stats t (Some canvas) = Err e) <->
  (oy t > rows canvas \/ ox t > cols canvas).
Proof.
  unfold crop_to_canvas.
  destruct ((Z.max 0 (oy t) >? rows canvas) || (Z.max 0 (ox t) >? cols canvas)) eqn:E.
  - split; [intros _|intros _; eexists; reflexivity].
    apply orb_true_iff in E. rewrite !Z.gtb_ltb, !Z.ltb_lt in E.
    unfold rows, cols in *. lia.
  - split; [intros [e He]; discriminate|].
    apply orb_false_iff in E. rewrite !Z.gtb_ltb, !Z.ltb_ge in E.
    unfold rows, cols in *. lia.
Qed.

(** Whenever the error is raised the template has no cell on the canvas. *)
Lemma crop_to_canvas_raises_no_overlap (stats : Stats) (t : Template)
  (canvas : ndarray Z) (e : exn) :
  crop_to_canvas stats t (Some canvas) = Err e -> ~ overlaps_canvas t canvas.
Proof.
  intros H [Hx Hy].
  assert (Hr : oy t > rows canvas \/ ox t > cols canvas)
    by (apply (crop_to_canvas_raises_iff stats); eauto).
  unfold rows, cols in *. lia.
Qed.

(** When the rectangles overlap, the result is the pixel grid clipped to
    the overlap, with the origin clamped to the canvas. *)
Lemma crop_to_canvas_overlap (stats : Stats) (t : Template) (canvas : ndarray Z) :
  overlaps_canvas t canvas ->
  exists arr,
    crop_to_canvas stats t (Some canvas) = OK (arr, Z.max 0 (ox t), Z.max 0 (oy t)) /\
    rows arr = Z.min (rows canvas) (oy t + rows (palettized_array t)) - Z.max 0 (oy t) /\
    cols arr = Z.min (cols canvas) (ox t + cols (palettized_array t)) - Z.max 0 (ox t) /\
    forall y x, in_bounds arr y x ->
      item arr y x =
      item (palettized_array t) (Z.max 0 (oy t) + y - oy t) (Z.max 0 (ox t) + x - ox t).
Proof.
  intros [Hx Hy]. unfold crop_to_canvas.
  destruct ((Z.max 0 (oy t) >? rows canvas) || (Z.max 0 (ox t) >? cols canvas)) eqn:E.
  { apply orb_true_iff in E. rewrite !Z.gtb_ltb, !Z.ltb_lt in E. lia. }
  eexists. split; [reflexivity|].
  unfold in_bounds, getslice, rows, cols in *.
  cbn [shape0 shape1 item slice_bound].
  set (h := Z.of_nat (shape0 (palettized_array t))) in *.
  set (w := Z.of_nat (shape1 (palettized_array t))) in *.
  assert (0 <= h) by (subst h; lia). assert (0 <= w) by (subst w; lia).
  assert (0 <= Z.of_nat (shape0 canvas)) by lia.
  assert (0 <= Z.of_nat (shape1 canvas)) by lia.
  split; [|split].
  - case_ltb; lia.
  - case_ltb; lia.
  - intros y x _. f_equal; case_ltb; lia.
Qed.

(** A template that overlaps the canvas at one corner. *)
Example crop_to_canvas_corner :
  exists t1 t2 arr1 arr2,
    Template_init stats_4x4 "u" "s" None grid_2x2 (-1) (-1) "c" = OK t1 /\
    Template_init stats_4x4 "u" "s" None grid_2x2 3 3 "c" = OK t2 /\
    crop_to_canvas stats_4x4 t1 None = OK (arr1, 0, 0) /\ to_rows arr1 = [[4]] /\
    crop_to_canvas stats_4x4 t2 None = OK (arr2, 3, 3) /\ to_rows arr2 = [[1]].
Proof.
  do 4 eexists. repeat split; vm_compute; reflexivity.
Qed.

(** C2 (the code at an input where the claim fails).  A 2 x 2 template at
    [ox = -5, oy = 0] has no cell on a 4 x 4 canvas, and so has one at
    [ox = 0, oy = 4]; [crop_to_canvas] raises for neither and returns an
    empty array with the origin moved to the canvas. *)
Theorem crop_to_canvas_outside_returns_empty :
  exists t1 t2 arr1 arr2,
    Template_init stats_4x4 "u" "s" None grid_2x2 (-5) 0 "c" = OK t1 /\
    Template_init stats_4x4 "u" "s" None grid_2x2 0 4 "c" = OK t2 /\
    ~ overlaps_canvas t1 canvas_4x4 /\
    ~ overlaps_canvas t2 canvas_4x4 /\
    crop_to_canvas stats_4x4 t1 None = OK (arr1, 0, 0) /\
    (shape0 arr1, shape1 arr1) = (2%nat, 0%nat) /\
    crop_to_canvas stats_4x4 t2 None = OK (arr2, 0, 4) /\
    (shape0 arr2, shape1 arr2) = (0%nat, 2%nat).
Proof.
  do 4 eexists.
  split; [vm_compute; reflexivity|].
  split; [vm_compute; reflexivity|].
  split; [unfold overlaps_canvas; vm_compute; intros [H _]; discriminate H|].
  split; [unfold overlaps_canvas; vm_compute; intros [_ H]; discriminate H|].
  split; [vm_compute; reflexivity|].
  split; [reflexivity|].
  split; [vm_compute; reflexivity|].
  reflexivity.
Qed.

(** ** The style decoder *)

(** [detemplatize] has two outcomes only: a grid, or the division by a
    zero block size when the target width exceeds the image width. *)
Lemma detemplatize_outcomes (img : ndarray rgba) (tw : Z) :
  (exists g, detemplatize img tw = OK g) \/
  (cols img < tw /\ detemplatize img tw = Err ZeroDivisionError).
Proof.
  unfold detemplatize.
  destruct ((tw <=? 0) || (cols img / tw =? 1)) eqn:E; [left; eauto|].
  apply orb_false_iff in E as [E1 E2]. apply Z.leb_gt in E1.
  destruct (cols img / tw =? 0) eqn:E0; [|left; eauto].
  right. split; [|reflexivity].
  apply Z.eqb_eq in E0. unfold cols in *.
  apply Z.div_small_iff in E0; lia.
Qed.

(** C3 (counterexample).  A 5 x 5 image decoded with target width 2 has
    block size 2, which divides neither its width nor its height, and
    [detemplatize] returns a 2 x 2 grid. *)
Lemma detemplatize_non_dividing_block_returns_grid :
  let block_size := cols image_5x5 / 2 in
  cols image_5x5 mod block_size <> 0 /\
  rows image_5x5 mod block_size <> 0 /\
  exists g, detemplatize image_5x5 2 = OK g /\
            to_rows g = [[opaque 0; opaque 2]; [opaque 20; opaque 22]].
Proof.
  split; [discriminate|]. split; [discriminate|].
  eexists. split; reflexivity.
Qed.

(** C3 (amended).  For every image and every positive target width whose
    block size [b = width // true_width] is at least 2, [detemplatize]
    makes no divisibility check and raises nothing: it returns the grid
    of [height // b] rows and [true_width] columns that
    [fast_detemplatize] reads from the leading blocks, and the rows and
    columns beyond them are ignored. *)
Theorem detemplatize_ignores_remainder (img : ndarray rgba) (tw : Z) :
  0 < tw -> 2 <= cols img / tw ->
  let b := cols img / tw in
  exists g, detemplatize img tw = OK g /\
            g = fast_detemplatize img (rows img / b) tw b /\
            rows g = rows img / b /\ cols g = tw /\
            rows g * b <= rows img /\ cols g * b <= cols img.
Proof.
  intros Htw Hb b. unfold detemplatize. fold b.
  replace (tw <=? 0) with false by (symmetry; apply Z.leb_gt; lia).
  replace (b =? 1) with false by (symmetry; apply Z.eqb_neq; lia).
  replace (b =? 0) with false by (symmetry; apply Z.eqb_neq; lia).
  cbn [orb]. eexists. split; [reflexivity|]. split; [reflexivity|].
  unfold rows, cols. cbn [fast_detemplatize shape0 shape1].
  assert (0 <= Z.of_nat (shape0 img) / b) by (apply Z.div_pos; lia).
  rewrite !Z2Nat.id by lia.
  split; [reflexivity|]. split; [reflexivity|].
  split.
  - rewrite Z.mul_comm. apply Z.mul_div_le. lia.
  - subst b. unfold cols. rewrite Z.mul_comm, (Z.mul_comm _ tw).
    pose proof (Z.mul_div_le (Z.of_nat (shape1 img)) tw Htw).
    pose proof (Z.mul_div_le (Z.of_nat (shape1 img)) (Z.of_nat (shape1 img) / tw)).
    nia.
Qed.

Lemma detemplatize_ignores_remainder_witness :
  exists g, detemplatize image_5x5 2 = OK g /\
            g = fast_detemplatize image_5x5 (rows image_5x5 / 2) 2 2 /\
            rows g = 2 /\ cols g = 2 /\
            rows g * 2 <= 5 /\ cols g * 2 <= 5.
Proof.
  apply (detemplatize_ignores_remainder image_5x5 2); [lia | vm_compute; discriminate].
Defined.

(** C4.  Whenever the inferred block size [width // true_width] is 1,
    [detemplatize] returns the input image unchanged. *)
Theorem detemplatize_block_size_one_identity (img : ndarray rgba) (tw : Z) :
  cols img / tw = 1 -> detemplatize img tw = OK img.
Proof.
  intros H. unfold detemplatize. rewrite H, Z.eqb_refl, orb_true_r. reflexivity.
Qed.

Lemma detemplatize_block_size_one_identity_witness :
  cols image_5x5 / 3 = 1 /\ detemplatize image_5x5 3 = OK image_5x5.
Proof.
  split; [reflexivity|].
  apply (detemplatize_block_size_one_identity image_5x5 3). reflexivity.
Defined.

(** ** The ETA estimator *)

Module EtaFacts.

Lemma Qeq_bool_inject_Z_0 (d : Z) : Qeq_bool (inject_Z d) 0 = (d =? 0).
Proof.
  unfold Qeq_bool, inject_Z. simpl. rewrite Z.mul_1_r.
  destruct d; reflexivity.
Qed.

Lemma Qdiv_inject_Z_eq_0 (d k : Z) :
  k <> 0 -> (inject_Z d / inject_Z k == 0)%Q -> d = 0.
Proof.
  intros Hk H.
  assert (Hk' : ~ (inject_Z k == 0)%Q).
  { intros E. apply Qeq_bool_iff in E. rewrite Qeq_bool_inject_Z_0 in E.
    apply Z.eqb_eq in E. contradiction. }
  assert (E : (inject_Z d == 0)%Q).
  { eapply Qeq_trans; [symmetry; apply (Qmult_div_r _ _ Hk')|].
    eapply Qeq_trans; [apply Qmult_comp; [apply Qeq_refl|exact H]|apply Qmult_0_r]. }
  apply Qeq_bool_iff in E. rewrite Qeq_bool_inject_Z_0 in E.
  now apply Z.eqb_eq.
Qed.

Lemma truediv_ok (a b : Q) : ~ (b == 0)%Q -> truediv a b = OK (a / b)%Q.
Proof.
  intros H. unfold truediv. destruct (Qeq_bool b 0) eqn:E; [|reflexivity].
  apply Qeq_bool_iff in E. contradiction.
Qed.

(** The number of hours between two distinct datetimes is not zero. *)
Lemma hours_nonzero (diff_time : Z) :
  diff_time <> 0 ->
  ~ (inject_Z diff_time / inject_Z (timedelta_hours 1) == 0)%Q.
Proof.
  intros Hd E. apply Qdiv_inject_Z_eq_0 in E; [contradiction|discriminate].
Qed.

Lemma Qdiv_zero_den (a : Q) (b : Q) : (b == 0)%Q -> (a / b == 0)%Q.
Proof.
  intros H. unfold Qdiv.
  destruct b as [[|n|n] d]; unfold Qeq in H; simpl in H; try lia.
  unfold Qinv. simpl. apply Qmult_0_r.
Qed.

Lemma Qdiv_pos_neg_le_0 (a : Z) (s : Q) :
  0 < a -> (s < 0)%Q -> Qle_bool (inject_Z a / s) 0 = true.
Proof.
  intros Ha Hs. apply Qle_bool_iff.
  destruct s as [[|n|n] d]; unfold Qlt in Hs; simpl in Hs; try lia.
  unfold Qle, Qdiv, Qmult, Qinv. simpl. lia.
Qed.

End EtaFacts.
Import EtaFacts.

Section EtaProperties.

Variable get_template_progress : Template -> Z -> option (Z * Z).
Variable td_format : Q -> string.

(** C6.  When the two samples exist at distinct timestamps with equal
    progress and the remaining work is not zero, [get_eta] performs no
    division by zero and returns the "speed is zero" result: the string
    "Never" (or [None] when [as_string] is false) paired with a speed
    equal to 0, which is neither a duration nor the "no data" pair. *)
Theorem get_eta_zero_speed (self : Template) (now : Z) (as_string : bool)
  (old_datetime now_datetime progress total current : Z) :
  get_template_progress self (now - timedelta_days 7) = Some (old_datetime, progress) ->
  get_template_progress self now = Some (now_datetime, progress) ->
  old_datetime <> now_datetime ->
  total_placeable self = Some total ->
  current_progress self = Some current ->
  total - current <> 0 ->
  exists speed,
    get_eta get_template_progress td_format self now as_string =
      OK (if as_string then EtaStr "Never™️" else EtaNone, Some speed) /\
    (speed == 0)%Q /\
    speed = eta_speed old_datetime progress now_datetime progress.
Proof.
  intros Hold Hnow Hdt Htot Hcur Htogo.
  exists (eta_speed old_datetime progress now_datetime progress).
  unfold get_eta, get_progress_at, eta_speed.
  rewrite Hold, Hnow, Htot, Hcur.
  replace (total - current =? 0) with false by (symmetry; apply Z.eqb_neq; lia).
  replace (now_datetime - old_datetime =? 0) with false
    by (symmetry; apply Z.eqb_neq; lia).
  assert (Hh : ~ (inject_Z (now_datetime - old_datetime) /
                  inject_Z (timedelta_hours 1) == 0)%Q)
    by (apply hours_nonzero; lia).
  rewrite truediv_ok by discriminate. cbn [bind].
  rewrite (truediv_ok _ _ Hh). cbn [bind].
  assert (Hs : (inject_Z (progress - progress) /
                (inject_Z (now_datetime - old_datetime) /
                 inject_Z (timedelta_hours 1)) == 0)%Q).
  { rewrite Z.sub_diag. unfold Qdiv at 1. apply Qmult_0_l. }
  apply Qeq_bool_iff in Hs as Hb. rewrite Hb.
  split; [reflexivity|]. split; [exact Hs|reflexivity].
Qed.

(** C5 (amended).  When the two samples exist, the speed is negative and
    the remaining work is positive, [get_eta] does not return the
    remaining work divided by the speed: it replaces it by the sampled
    progress divided by the speed, the signed time in which the progress
    reaches zero at that speed, returned as a duration, or formatted after
    a minus sign when [as_string] is true. *)
Theorem get_eta_negative_speed (self : Template) (now : Z)
  (old_datetime old_progress now_datetime now_progress total current : Z) :
  get_template_progress self (now - timedelta_days 7) = Some (old_datetime, old_progress) ->
  get_template_progress self now = Some (now_datetime, now_progress) ->
  total_placeable self = Some total ->
  current_progress self = Some current ->
  let speed := eta_speed old_datetime old_progress now_datetime now_progress in
  (speed < 0)%Q ->
  0 < total - current ->
  get_eta get_template_progress td_format self now false =
    OK (EtaDelta (inject_Z now_progress / speed), Some speed) /\
  get_eta get_template_progress td_format self now true =
    OK (EtaStr ("-" ++ td_format (- (inject_Z now_progress / speed))), Some speed).
Proof.
  intros Hold Hnow Htot Hcur speed Hs Htogo.
  assert (Hs0 : ~ (speed == 0)%Q) by (intros E; rewrite E in Hs; discriminate Hs).
  assert (Hh : ~ (inject_Z (now_datetime - old_datetime) /
                  inject_Z (timedelta_hours 1) == 0)%Q).
  { intros E. apply Hs0. unfold speed, eta_speed. now apply Qdiv_zero_den. }
  assert (Hdt : now_datetime - old_datetime <> 0).
  { intros E. apply Hh. rewrite E. unfold Qdiv. apply Qmult_0_l. }
  unfold get_eta, get_progress_at.
  rewrite Hold, Hnow, Htot, Hcur.
  replace (total - current =? 0) with false by (symmetry; apply Z.eqb_neq; lia).
  replace (now_datetime - old_datetime =? 0) with false
    by (symmetry; apply Z.eqb_neq; lia).
  rewrite truediv_ok by discriminate. cbn [bind].
  rewrite (truediv_ok _ _ Hh). cbn [bind].
  fold (eta_speed old_datetime old_progress now_datetime now_progress). fold speed.
  replace (Qeq_bool speed 0) with false
    by (symmetry; apply not_true_is_false; intros E; apply Qeq_bool_iff in E; auto).
  rewrite (truediv_ok _ _ Hs0). cbn [bind].
  rewrite (Qdiv_pos_neg_le_0 _ _ Htogo Hs).
  rewrite (truediv_ok _ _ Hs0). cbn [bind].
  split; reflexivity.
Qed.

End EtaProperties.

Example strip_template_masks :
  option_map to_rows (placeable_mask strip_template)
    = Some [[true; true; true; true; true; true; true; true; true; true]] /\
  option_map to_rows (placed_mask strip_template)
    = Some [[true; true; true; true; false; false; false; false; false; false]].
Proof. split; reflexivity. Qed.

Lemma strip_template_progress :
  total_placeable strip_template = Some 10 /\ current_progress strip_template = Some 4.
Proof. split; reflexivity. Qed.

Lemma get_eta_zero_speed_witness :
  exists speed,
    get_eta history_flat td_format_hours strip_template week true =
      OK (EtaStr "Never™️", Some speed) /\
    (speed == 0)%Q /\
    speed = eta_speed 0 100 week 100.
Proof.
  apply (get_eta_zero_speed history_flat td_format_hours strip_template week true
           0 week 100 10 4); try reflexivity; discriminate.
Defined.

(** C5 (counterexample).  With 10 placeable pixels, 4 placed, and samples
    of 172 pixels a week ago and 4 now, the speed is -1 pixel per hour and
    the remaining work is 6; [get_eta] returns -4 hours (the sampled
    progress over the speed), which is not the remaining work over the
    speed, -6 hours. *)
Lemma get_eta_negative_speed_substitutes_progress :
  let speed := eta_speed 0 172 week 4 in
  total_placeable strip_template = Some 10 /\
  current_progress strip_template = Some 4 /\
  (speed < 0)%Q /\
  exists eta,
    get_eta history_losing td_format_hours strip_template week false =
      OK (EtaDelta eta, Some speed) /\
    (eta == -4 # 1)%Q /\
    (inject_Z (10 - 4) / speed == -6 # 1)%Q /\
    ~ (eta == inject_Z (10 - 4) / speed)%Q.
Proof.
  split; [reflexivity|]. split; [reflexivity|]. split; [reflexivity|].
  eexists. split; [vm_compute; reflexivity|].
  split; [reflexivity|]. split; [reflexivity|].
  intros H. vm_compute in H. discriminate H.
Qed.

Lemma get_eta_negative_speed_witness :
  let speed := eta_speed 0 172 week 4 in
  get_eta history_losing td_format_hours strip_template week false =
    OK (EtaDelta (inject_Z 4 / speed), Some speed) /\
  get_eta history_losing td_format_hours strip_template week true =
    OK (EtaStr ("-" ++ td_format_hours (- (inject_Z 4 / speed))), Some speed).
Proof.
  apply (get_eta_negative_speed history_losing td_format_hours strip_template week
           0 172 week 4 10 4); reflexivity.
Defined.

(** ** The hot-cell locator *)

Module LocatorFacts.

Lemma range_length (n : nat) : List.length (range n) = n.
Proof. unfold range. now rewrite length_map, length_seq. Qed.

Lemma nth_range (n j : nat) (d : Z) : (j < n)%nat -> nth j (range n) d = Z.of_nat j.
Proof.
  intros H. unfold range.
  rewrite (nth_indep _ d (Z.of_nat 0)) by (rewrite length_map, length_seq; lia).
  rewrite map_nth, seq_nth by lia. reflexivity.
Qed.

(** The loop of [fast_max_chunk] from any state: either no chunk beats
    the current maximum, or the result is the first chunk that holds the
    largest count. *)
Lemma max_chunk_fold (d : ndarray bool) (chunks : list (ndarray bool)) :
  forall i mi cp,
  exists mi' cp',
    fold_left max_chunk_step chunks (i, mi, cp) =
      (i + Z.of_nat (List.length chunks), mi', cp') /\
    ((mi' = mi /\ cp' = cp /\
      forall j, (j < List.length chunks)%nat -> Np.sum (nth j chunks d) <= cp) \/
     (exists j, (j < List.length chunks)%nat /\ mi' = i + Z.of_nat j /\
        cp' = Np.sum (nth j chunks d) /\ cp < cp' /\
        (forall j', (j' < j)%nat -> Np.sum (nth j' chunks d) < cp') /\
        (forall j', (j' < List.length chunks)%nat -> Np.sum (nth j' chunks d) <= cp'))).
Proof.
  induction chunks as [|c rest IH]; intros i mi cp.
  - exists mi, cp. simpl. split; [f_equal; f_equal; lia|].
    left. repeat split. intros j Hj. inversion Hj.
  - cbn [fold_left]. unfold max_chunk_step at 2.
    destruct (Np.sum c >? cp) eqn:E; rewrite Z.gtb_ltb in E.
    + apply Z.ltb_lt in E.
      destruct (IH (i + 1) i (Np.sum c)) as (mi' & cp' & Hf & Hcase).
      exists mi', cp'. split.
      { rewrite Hf. f_equal. f_equal. cbn [List.length]. lia. }
      right. destruct Hcase as [(-> & -> & Hall) | (j & Hj & -> & -> & Hlt & Hbef & Hall)].
      * exists 0%nat. cbn [List.length nth]. repeat split; try lia.
        intros [|j'] Hj'; [lia|]. apply Hall. lia.
      * exists (S j). cbn [List.length nth]. repeat split; try lia.
        -- intros [|j'] Hj'; [lia|]. apply Hbef. lia.
        -- intros [|j'] Hj'; [lia|]. apply Hall. lia.
    + apply Z.ltb_ge in E.
      destruct (IH (i + 1) mi cp) as (mi' & cp' & Hf & Hcase).
      exists mi', cp'. split.
      { rewrite Hf. f_equal. f_equal. cbn [List.length]. lia. }
      destruct Hcase as [(-> & -> & Hall) | (j & Hj & -> & -> & Hlt & Hbef & Hall)].
      * left. repeat split. intros [|j'] Hj'; cbn [nth]; [lia|].
        apply Hall. cbn [List.length] in Hj'. lia.
      * right. exists (S j). cbn [List.length nth]. repeat split; try lia.
        -- intros [|j'] Hj'; [lia|]. apply Hbef. lia.
        -- intros [|j'] Hj'; [lia|]. apply Hall. lia.
Qed.

(** [fast_max_chunk]: [-1] when every count is zero, otherwise the first
    index that holds the largest count. *)
Lemma fast_max_chunk_spec (d : ndarray bool) (chunks : list (ndarray bool)) :
  (fast_max_chunk chunks = -1 /\
   forall j, (j < List.length chunks)%nat -> Np.sum (nth j chunks d) = 0) \/
  (exists j, (j < List.length chunks)%nat /\ fast_max_chunk chunks = Z.of_nat j /\
     0 < Np.sum (nth j chunks d) /\
     (forall j', (j' < j)%nat -> Np.sum (nth j' chunks d) < Np.sum (nth j chunks d)) /\
     (forall j', (j' < List.length chunks)%nat ->
        Np.sum (nth j' chunks d) <= Np.sum (nth j chunks d))).
Proof.
  unfold fast_max_chunk.
  destruct (max_chunk_fold d chunks 0 (-1) 0) as (mi' & cp' & -> & Hcase).
  destruct Hcase as [(-> & -> & Hall) | (j & Hj & -> & -> & Hlt & Hbef & Hall)].
  - left. split; [reflexivity|]. intros j Hj.
    pose proof (Hall j Hj). pose proof (sum_nonneg (nth j chunks d)). lia.
  - right. exists j. repeat split; try assumption; try lia.
Qed.

(** A positive sum comes from a [True] item in range. *)
Lemma sum_list_pos_exists {A} (f : A -> Z) (l : list A) :
  (forall a, 0 <= f a) -> 0 < sum_list (map f l) -> exists a, In a l /\ 0 < f a.
Proof.
  intros Hf. induction l as [|a l IH]; simpl; [lia|]. intros H.
  destruct (Z.ltb_spec 0 (f a)).
  - exists a. auto.
  - destruct IH as (b & Hb & Hpos); [specialize (Hf a); lia|].
    exists b. auto.
Qed.

Lemma chunk_count_nonneg (m : ndarray bool) (cs R C : Z) : 0 <= chunk_count m cs R C.
Proof.
  unfold chunk_count. apply sum_list_nonneg, Forall_forall.
  intros v Hv. apply in_map_iff in Hv as [y [<- _]].
  apply sum_list_nonneg, Forall_forall.
  intros v Hv. apply in_map_iff in Hv as [x [<- _]].
  match goal with |- 0 <= if ?b then _ else _ => destruct b end; lia.
Qed.

Lemma chunk_count_pos_exists (m : ndarray bool) (cs R C : Z) :
  0 < chunk_count m cs R C ->
  exists j i, 0 <= j < cs /\ 0 <= i < cs /\
    in_bounds m (R * cs + j) (C * cs + i) /\
    item m (R * cs + j) (C * cs + i) = true.
Proof.
  unfold chunk_count. intros H.
  apply sum_list_pos_exists in H as (j & Hj & H).
  2:{ intros a. apply sum_list_nonneg, Forall_forall.
      intros v Hv. apply in_map_iff in Hv as [x [<- _]].
      match goal with |- 0 <= if ?b then _ else _ => destruct b end; lia. }
  apply sum_list_pos_exists in H as (i & Hi & H).
  2:{ intros a. match goal with |- 0 <= if ?b then _ else _ => destruct b end; lia. }
  apply in_range in Hj, Hi.
  exists j, i. split; [lia|]. split; [lia|].
  destruct (in_boundsb m (R * cs + j) (C * cs + i)) eqn:Eb; [|lia].
  destruct (item m (R * cs + j) (C * cs + i)) eqn:Ei; [|lia].
  split; [|reflexivity].
  unfold in_boundsb in Eb. unfold in_bounds.
  rewrite !andb_true_iff, !Z.leb_le, !Z.ltb_lt in Eb. lia.
Qed.

End LocatorFacts.
Import LocatorFacts.

Module LocatorArith.

Lemma pad_arith (h cs : Z) :
  0 <= h -> 0 < cs ->
  0 < cs - h mod cs /\
  (h + (cs - h mod cs)) mod cs = 0 /\
  (h + (cs - h mod cs)) / cs = h / cs + 1.
Proof.
  intros Hh Hcs.
  pose proof (Z.mod_pos_bound h cs Hcs).
  pose proof (Z.div_mod h cs ltac:(lia)).
  replace (h + (cs - h mod cs)) with ((h / cs + 1) * cs) by lia.
  split; [lia|]. split.
  - apply Z.mod_mul. lia.
  - apply Z.div_mul. lia.
Qed.

(** Chunk numbers and chunk coordinates. *)
Lemma unravel (nC k : Z) :
  0 < nC -> 0 <= k -> 0 <= k / nC /\ 0 <= k mod nC < nC /\ k = k / nC * nC + k mod nC.
Proof.
  intros HC Hk.
  pose proof (Z.mod_pos_bound k nC HC).
  pose proof (Z.div_mod k nC ltac:(lia)).
  pose proof (Z.div_pos k nC Hk HC). lia.
Qed.

Lemma ravel (nC R C : Z) :
  0 <= C < nC -> (R * nC + C) / nC = R /\ (R * nC + C) mod nC = C.
Proof.
  intros HC. split.
  - rewrite Z.add_comm, Z.div_add by lia. rewrite Z.div_small by lia. lia.
  - rewrite Z.add_comm, Z.mod_add by lia. apply Z.mod_small. lia.
Qed.

End LocatorArith.
Import LocatorArith.

Lemma find_coords_cases (self : Template) (cs : Z) (placed placeable : ndarray bool) :
  placed_mask self = Some placed ->
  placeable_mask self = Some placeable ->
  same_shape placed placeable = true ->
  0 < cs ->
  let togo := togo_mask_of placed placeable in
  (find_coords self cs = OK None /\
   forall R C, chunk_grid togo cs R C -> chunk_count togo cs R C = 0) \/
  (exists R C, chunk_grid togo cs R C /\
     find_coords self cs = OK (Some (chunk_center self cs R C)) /\
     0 < chunk_count togo cs R C /\
     (forall R' C', chunk_grid togo cs R' C' ->
        chunk_count togo cs R' C' <= chunk_count togo cs R C) /\
     (forall R' C', chunk_grid togo cs R' C' -> row_major_before R' C' R C ->
        chunk_count togo cs R' C' < chunk_count togo cs R C)).
Proof.
  intros Hplaced Hplaceable Hshape Hcs togo.
  unfold find_coords, get_wrong_pixels_mask, logical_and, zip_items.
  rewrite Hplaced, Hplaceable.
  change (same_shape (invert placed) placeable) with (same_shape placed placeable).
  rewrite Hshape.
  match goal with
  | |- context [bind (OK ?m) _] => change m with togo
  end.
  cbn [bind].
  replace (cs =? 0) with false by (symmetry; apply Z.eqb_neq; lia).
  assert (Hh : 0 <= rows togo) by (unfold rows; lia).
  assert (Hw : 0 <= cols togo) by (unfold cols; lia).
  destruct (pad_arith (rows togo) cs Hh Hcs) as (Hbp & Hbm & Hbd).
  destruct (pad_arith (cols togo) cs Hw Hcs) as (Hrp & Hrm & Hrd).
  set (bp := cs - rows togo mod cs) in *.
  set (rp := cs - cols togo mod cs) in *.
  unfold pad_bottom_right.
  replace ((bp <? 0) || (rp <? 0)) with false
    by (symmetry; apply orb_false_iff; split; apply Z.ltb_ge; lia).
  cbn [bind].
  set (padded := mk_ndarray (shape0 togo + Z.to_nat bp) (shape1 togo + Z.to_nat rp) _).
  assert (Hpr : rows padded = rows togo + bp)
    by (unfold rows, padded; cbn [shape0]; unfold rows in *; lia).
  assert (Hpc : cols padded = cols togo + rp)
    by (unfold cols, padded; cbn [shape1]; unfold cols in *; lia).
  unfold to_chunks. rewrite Hpr, Hpc, Hbm, Hrm, Hbd, Hrd. cbn [Z.eqb negb bind].
  set (nR := rows togo / cs + 1) in *.
  set (nC := cols togo / cs + 1) in *.
  assert (HnR : 0 < nR) by (pose proof (Z.div_pos (rows togo) cs Hh Hcs); lia).
  assert (HnC : 0 < nC) by (pose proof (Z.div_pos (cols togo) cs Hw Hcs); lia).
  set (chunk := fun k : Z => mk_ndarray (Z.to_nat cs) (Z.to_nat cs) _).
  set (K := Z.to_nat (nR * nC)).
  assert (HK : Z.of_nat K = nR * nC) by (unfold K; nia).
  (* the count of a chunk of the padded mask *)
  assert (Hcount : forall j, Np.sum (nth j (map chunk (range K)) (chunk 0)) =
                             chunk_count togo cs (nth j (range K) 0 / nC)
                               (nth j (range K) 0 mod nC)).
  { intros j. rewrite map_nth. reflexivity. }
  assert (Hlen : List.length (map chunk (range K)) = K)
    by (rewrite length_map; apply range_length).
  destruct (fast_max_chunk_spec (chunk 0) (map chunk (range K)))
    as [(Hmi & Hall) | (j & Hj & Hmi & Hpos & Hbef & Hall)]; rewrite Hmi.
  - left. cbn [Z.eqb]. split; [reflexivity|].
    intros R C [HR HC]. fold nR in HR. fold nC in HC.
    destruct (ravel nC R C HC) as [Hd Hm].
    assert (HjK : (Z.to_nat (R * nC + C) < K)%nat) by nia.
    specialize (Hall (Z.to_nat (R * nC + C))). rewrite Hlen in Hall.
    specialize (Hall HjK). rewrite Hcount, nth_range in Hall by assumption.
    rewrite Z2Nat.id, Hd, Hm in Hall by nia. exact Hall.
  - right. rewrite Hlen in *.
    rewrite Hcount, nth_range in Hpos by assumption.
    destruct (unravel nC (Z.of_nat j) HnC ltac:(lia)) as (HR0 & HC0 & Hjeq).
    set (R := Z.of_nat j / nC) in *. set (C := Z.of_nat j mod nC) in *.
    assert (HRlt : R < nR) by nia.
    exists R, C. split; [split; [fold nR|fold nC]; lia|].
    split.
    { replace (Z.of_nat j =? -1) with false by (symmetry; apply Z.eqb_neq; lia).
      replace ((Z.of_nat j <? 0) || (nR * nC <=? Z.of_nat j)) with false
        by (symmetry; apply orb_false_iff; split;
            [apply Z.ltb_ge|apply Z.leb_gt]; lia).
      reflexivity. }
    split; [exact Hpos|]. split.
    + intros R' C' [HR' HC']. fold nR in HR'. fold nC in HC'.
      destruct (ravel nC R' C' HC') as [Hd Hm].
      assert (HjK : (Z.to_nat (R' * nC + C') < K)%nat) by nia.
      specialize (Hall (Z.to_nat (R' * nC + C')) HjK).
      rewrite !Hcount, !nth_range in Hall by assumption.
      rewrite Z2Nat.id, Hd, Hm in Hall by nia. exact Hall.
    + intros R' C' [HR' HC'] Hb. fold nR in HR'. fold nC in HC'.
      destruct (ravel nC R' C' HC') as [Hd Hm].
      assert (Hlt : R' * nC + C' < Z.of_nat j).
      { destruct Hb as [Hb | [-> Hb]]; nia. }
      assert (HjK : (Z.to_nat (R' * nC + C') < j)%nat) by nia.
      specialize (Hbef (Z.to_nat (R' * nC + C')) HjK).
      rewrite !Hcount, !nth_range in Hbef by lia.
      rewrite Z2Nat.id, Hd, Hm in Hbef by nia. exact Hbef.
Qed.

Lemma sum_list_zero_all {A} (f : A -> Z) (l : list A) :
  (forall a, 0 <= f a) -> sum_list (map f l) = 0 -> forall a, In a l -> f a = 0.
Proof.
  intros Hf. induction l as [|b l IH]; simpl; intros H a Ha; [contradiction|].
  assert (0 <= sum_list (map f l)).
  { apply sum_list_nonneg, Forall_forall. intros v Hv.
    apply in_map_iff in Hv as [c [<- _]]. apply Hf. }
  pose proof (Hf b).
  destruct Ha as [<- | Ha]; [lia|]. apply IH; [lia|assumption].
Qed.

Lemma chunk_count_zero_items (m : ndarray bool) (cs R C : Z) :
  chunk_count m cs R C = 0 ->
  forall j i, 0 <= j < cs -> 0 <= i < cs ->
    in_bounds m (R * cs + j) (C * cs + i) ->
    item m (R * cs + j) (C * cs + i) = false.
Proof.
  unfold chunk_count. intros H j i Hj Hi Hb.
  eapply sum_list_zero_all with (a := j) in H.
  2:{ intros a. apply sum_list_nonneg, Forall_forall.
      intros v Hv. apply in_map_iff in Hv as [x [<- _]].
      match goal with |- 0 <= if ?b then _ else _ => destruct b end; lia. }
  2:{ apply in_range. lia. }
  eapply sum_list_zero_all with (a := i) in H.
  2:{ intros a. match goal with |- 0 <= if ?b then _ else _ => destruct b end; lia. }
  2:{ apply in_range. lia. }
  replace (in_boundsb m (R * cs + j) (C * cs + i)) with true in H.
  2:{ symmetry. unfold in_boundsb. unfold in_bounds in Hb.
      rewrite !andb_true_iff, !Z.leb_le, !Z.ltb_lt. lia. }
  destruct (item m (R * cs + j) (C * cs + i)); [discriminate|reflexivity].
Qed.

(** C8.  For a template whose masks are set and every positive chunk
    size, [find_coords] returns [(None, None)] when every chunk of the
    to-go mask (placeable and not placed) has no true cell; otherwise it
    returns the centre, moved by the origin, of the chunk with the largest
    count, the first such chunk in row-major order; a to-go mask with a
    single true cell gives the centre of the chunk of that cell. *)
Theorem find_coords_hot_chunk (self : Template) (cs : Z)
  (placed placeable : ndarray bool) :
  placed_mask self = Some placed ->
  placeable_mask self = Some placeable ->
  same_shape placed placeable = true ->
  0 < cs ->
  hot_chunk_spec self cs (togo_mask_of placed placeable).
Proof.
  intros Hplaced Hplaceable Hshape Hcs.
  pose proof (find_coords_cases self cs placed placeable Hplaced Hplaceable Hshape Hcs)
    as Hcases.
  cbv zeta in Hcases. set (togo := togo_mask_of placed placeable) in *.
  split; [|split].
  - intros Hzero.
    destruct Hcases as [[Hnone _] | (R & C & Hg & _ & Hpos & _)]; [exact Hnone|].
    rewrite (Hzero R C Hg) in Hpos. lia.
  - intros (R0 & C0 & Hg0 & Hne).
    destruct Hcases as [[_ Hall] | (R & C & Hg & Hres & _ & Hmax & Hfirst)].
    + elim Hne. apply Hall, Hg0.
    + exists R, C. repeat split; try assumption; apply Hg.
  - intros y0 x0 Hb Hsingle.
    assert (Htrue : item togo y0 x0 = true) by (apply Hsingle; auto).
    pose proof (Z.div_mod y0 cs ltac:(lia)) as Hy.
    pose proof (Z.div_mod x0 cs ltac:(lia)) as Hx.
    pose proof (Z.mod_pos_bound y0 cs Hcs) as Hym.
    pose proof (Z.mod_pos_bound x0 cs Hcs) as Hxm.
    assert (Hg0 : chunk_grid togo cs (y0 / cs) (x0 / cs)).
    { destruct Hb as [Hby Hbx]. split.
      - pose proof (Z.div_le_mono y0 (rows togo) cs Hcs ltac:(lia)).
        pose proof (Z.div_pos y0 cs ltac:(lia) Hcs). lia.
      - pose proof (Z.div_le_mono x0 (cols togo) cs Hcs ltac:(lia)).
        pose proof (Z.div_pos x0 cs ltac:(lia) Hcs). lia. }
    destruct Hcases as [[_ Hall] | (R & C & Hg & Hres & Hpos & _ & _)].
    + pose proof (chunk_count_zero_items togo cs _ _ (Hall _ _ Hg0)
                    (y0 mod cs) (x0 mod cs) Hym Hxm) as Hf.
      replace (y0 / cs * cs + y0 mod cs) with y0 in Hf by lia.
      replace (x0 / cs * cs + x0 mod cs) with x0 in Hf by lia.
      rewrite (Hf Hb) in Htrue. discriminate.
    + apply chunk_count_pos_exists in Hpos as (j & i & Hj & Hi & Hbji & Hji).
      destruct (proj1 (Hsingle _ _ Hbji) Hji) as [Hy0 Hx0].
      assert (HR : R = y0 / cs)
        by (apply (Z.div_unique y0 cs R j); [left; exact Hj|rewrite <- Hy0; ring]).
      assert (HC : C = x0 / cs)
        by (apply (Z.div_unique x0 cs C i); [left; exact Hi|rewrite <- Hx0; ring]).
      rewrite <- HR, <- HC. exact Hres.
Qed.

Lemma find_coords_hot_chunk_witness :
  exists placed placeable,
    placed_mask strip_template = Some placed /\
    placeable_mask strip_template = Some placeable /\
    hot_chunk_spec strip_template 3 (togo_mask_of placed placeable).
Proof.
  do 2 eexists. split; [reflexivity|]. split; [reflexivity|].
  apply (find_coords_hot_chunk strip_template 3); reflexivity.
Defined.

(** The strip has its six wrong cells at columns 4 to 9: with chunks of
    size 3 the counts are 0, 2, 3, 1 and the hot chunk is the third. *)
Example find_coords_strip : find_coords strip_template 3 = OK (Some (7, 1)).
Proof. reflexivity. Qed.

(** ** The compositor *)

Module LayerFacts.

(** The two outcomes of [crop_to_canvas] and the array it returns. *)
Lemma crop_to_canvas_cases (stats : Stats) (t : Template) :
  let canvas := board_array stats in
  let pal := palettized_array t in
  ((exists msg, crop_to_canvas stats t None = Err (ValueError msg)) /\
   (oy t > rows canvas \/ ox t > cols canvas)) \/
  (exists arr,
     crop_to_canvas stats t None = OK (arr, Z.max 0 (ox t), Z.max 0 (oy t)) /\
     Z.max 0 (oy t) <= rows canvas /\ Z.max 0 (ox t) <= cols canvas /\
     rows arr = Z.max 0 (Z.min (rows canvas) (oy t + rows pal) - Z.max 0 (oy t)) /\
     cols arr = Z.max 0 (Z.min (cols canvas) (ox t + cols pal) - Z.max 0 (ox t)) /\
     forall y x, in_bounds arr y x ->
       item arr y x = item pal (y + Z.max 0 (oy t) - oy t) (x + Z.max 0 (ox t) - ox t)).
Proof.
  intros canvas pal. unfold crop_to_canvas. fold canvas. fold pal.
  destruct ((Z.max 0 (oy t) >? rows canvas) || (Z.max 0 (ox t) >? cols canvas)) eqn:E.
  - left. split; [eexists; reflexivity|].
    apply orb_true_iff in E. rewrite !Z.gtb_ltb, !Z.ltb_lt in E.
    unfold rows, cols in *. lia.
  - right. apply orb_false_iff in E. rewrite !Z.gtb_ltb, !Z.ltb_ge in E.
    destruct E as [Ey Ex].
    eexists. split; [reflexivity|].
    split; [exact Ey|]. split; [exact Ex|].
    unfold in_bounds, getslice, rows, cols in *.
    cbn [shape0 shape1 item slice_bound].
    set (h := Z.of_nat (shape0 pal)) in *.
    set (w := Z.of_nat (shape1 pal)) in *.
    assert (0 <= h) by (subst h; lia). assert (0 <= w) by (subst w; lia).
    split; [|split].
    + case_ltb; lia.
    + case_ltb; lia.
    + intros y x. case_ltb; intros; f_equal; lia.
Qed.

Lemma in_boundsb_iff {A} (a : ndarray A) (y x : Z) :
  in_boundsb a y x = true <-> in_bounds a y x.
Proof.
  unfold in_boundsb, in_bounds.
  rewrite !andb_true_iff, !Z.leb_le, !Z.ltb_lt. tauto.
Qed.

Lemma in_boundsb_false {A} (a : ndarray A) (y x : Z) :
  in_boundsb a y x = false <-> ~ in_bounds a y x.
Proof.
  rewrite <- in_boundsb_iff. destruct (in_boundsb a y x); split; congruence.
Qed.

(** One template pasted on the background: inside the canvas, the cells
    where the template is not transparent take its colour and all other
    cells keep theirs. *)
Lemma layer_step_cell (stats : Stats) (bg : ndarray Z) (mnx mny mxx mxy : Z)
  (t : Template) :
  same_shape (board_array stats) bg = true ->
  exists bg' mnx' mny' mxx' mxy',
    layer_step stats (bg, mnx, mny, mxx, mxy) t = OK (bg', mnx', mny', mxx', mxy') /\
    shape0 bg' = shape0 bg /\ shape1 bg' = shape1 bg /\
    forall y x, in_bounds bg y x ->
      item bg' y x = if opaque_at t y x then template_cell t y x else item bg y x.
Proof.
  intros Hs. apply same_shape_true in Hs as [Hs0 Hs1].
  assert (Hr : rows (board_array stats) = rows bg) by (unfold rows; congruence).
  assert (Hc : cols (board_array stats) = cols bg) by (unfold cols; congruence).
  unfold layer_step.
  destruct (crop_to_canvas_cases stats t)
    as [[[msg ->] Hout] | (arr & -> & Hy0 & Hx0 & Hra & Hca & Harr)].
  - exists bg, mnx, mny, mxx, mxy. repeat split.
    intros y x [Hy Hx]. unfold opaque_at, template_cell.
    replace (in_boundsb (palettized_array t) (y - oy t) (x - ox t)) with false.
    + reflexivity.
    + symmetry. apply in_boundsb_false. unfold in_bounds. lia.
  - rewrite Hr in *. rewrite Hc in *.
    unfold paste_masked.
    set (y0 := Z.max 0 (oy t)) in *. set (x0 := Z.max 0 (ox t)) in *.
    set (view := getslice bg _ _ _ _).
    assert (Hys : slice_bound (rows bg) 0 (Some y0) = y0)
      by (apply slice_bound_in; lia).
    assert (Hxs : slice_bound (cols bg) 0 (Some x0) = x0)
      by (apply slice_bound_in; lia).
    assert (Hye : slice_bound (rows bg) (rows bg) (Some (y0 + rows arr)) = y0 + rows arr)
      by (apply slice_bound_in; lia).
    assert (Hxe : slice_bound (cols bg) (cols bg) (Some (x0 + cols arr)) = x0 + cols arr)
      by (apply slice_bound_in; lia).
    assert (Hv0 : shape0 view = shape0 arr).
    { unfold view, getslice. cbn [shape0]. rewrite Hys, Hye. unfold rows. lia. }
    assert (Hv1 : shape1 view = shape1 arr).
    { unfold view, getslice. cbn [shape1]. rewrite Hxs, Hxe. unfold cols. lia. }
    replace (same_shape view (ne_scalar arr 255) && same_shape arr (ne_scalar arr 255))
      with true.
    2:{ symmetry. apply andb_true_iff. split; apply same_shape_true; simpl; auto. }
    cbn [bind]. do 5 eexists. split; [reflexivity|].
    cbn [shape0 shape1 item]. split; [reflexivity|]. split; [reflexivity|].
    intros y x [Hy Hx]. rewrite Hys, Hxs.
    unfold opaque_at, template_cell, TRANSPARENT.
    cbn [ne_scalar map_items item].
    assert (Hiff : in_bounds view (y - y0) (x - x0) <->
                   in_bounds (palettized_array t) (y - oy t) (x - ox t)).
    { unfold in_bounds. unfold rows, cols in *. rewrite Hv0, Hv1. lia. }
    destruct (in_boundsb view (y - y0) (x - x0)) eqn:Ev.
    + apply in_boundsb_iff in Ev as Hv. apply Hiff in Hv as Hp.
      apply in_boundsb_iff in Hp. rewrite Hp.
      rewrite Harr by (unfold in_bounds in *; unfold rows, cols in *;
                       rewrite <- Hv0, <- Hv1; apply in_boundsb_iff in Ev; exact Ev).
      replace (y - y0 + y0 - oy t) with (y - oy t) by lia.
      replace (x - x0 + x0 - ox t) with (x - ox t) by lia.
      cbn [andb]. reflexivity.
    + apply in_boundsb_false in Ev as Hv.
      replace (in_boundsb (palettized_array t) (y - oy t) (x - ox t)) with false
        by (symmetry; apply in_boundsb_false; tauto).
      reflexivity.
Qed.

End LayerFacts.
Import LayerFacts.

Lemma composite_cell_all_transparent (ts : list Template) (below y x : Z) :
  (forall t, In t ts -> opaque_at t y x = false) ->
  composite_cell ts below y x = below.
Proof.
  revert below. induction ts as [|t ts IH]; intros below H; [reflexivity|].
  cbn [composite_cell]. rewrite (H t (or_introl eq_refl)).
  apply IH. intros t' Ht'. apply H. now right.
Qed.

Lemma composite_cell_app (ts1 ts2 : list Template) (below y x : Z) :
  composite_cell (ts1 ++ ts2) below y x =
  composite_cell ts2 (composite_cell ts1 below y x) y x.
Proof.
  revert below. induction ts1 as [|t ts1 IH]; intros below; [reflexivity|].
  cbn [app composite_cell]. apply IH.
Qed.

Lemma composite_cell_last_opaque (earlier later : list Template) (t : Template)
  (below y x : Z) :
  opaque_at t y x = true ->
  (forall t', In t' later -> opaque_at t' y x = false) ->
  composite_cell (earlier ++ t :: later) below y x = template_cell t y x.
Proof.
  intros Ht Hl. rewrite composite_cell_app. cbn [composite_cell]. rewrite Ht.
  now apply composite_cell_all_transparent.
Qed.

(** The loop of [layer] never fails on a canvas-shaped background and
    computes [composite_cell] in every cell. *)
Lemma layer_loop_cell (stats : Stats) (ts : list Template) :
  forall (bg : ndarray Z) (mnx mny mxx mxy : Z),
  same_shape (board_array stats) bg = true ->
  exists bg' mnx' mny' mxx' mxy',
    layer_loop stats ts (bg, mnx, mny, mxx, mxy) = OK (bg', mnx', mny', mxx', mxy') /\
    shape0 bg' = shape0 bg /\ shape1 bg' = shape1 bg /\
    forall y x, in_bounds bg y x ->
      item bg' y x = composite_cell ts (item bg y x) y x.
Proof.
  induction ts as [|t ts IH]; intros bg mnx mny mxx mxy Hs.
  - exists bg, mnx, mny, mxx, mxy. repeat split.
  - cbn [layer_loop].
    destruct (layer_step_cell stats bg mnx mny mxx mxy t Hs)
      as (bg1 & a & b & c & d & -> & H0 & H1 & Hcell).
    cbn [bind].
    assert (Hs1 : same_shape (board_array stats) bg1 = true).
    { apply same_shape_true in Hs as [? ?]. apply same_shape_true. split; congruence. }
    destruct (IH bg1 a b c d Hs1) as (bg2 & a' & b' & c' & d' & -> & H0' & H1' & Hcell').
    exists bg2, a', b', c', d'. split; [reflexivity|].
    split; [congruence|]. split; [congruence|].
    intros y x Hb. cbn [composite_cell].
    rewrite Hcell', Hcell; [reflexivity|exact Hb|].
    unfold in_bounds, rows, cols in *. rewrite H0, H1. exact Hb.
Qed.

(** The image [layer] returns without cropping to the templates: the
    composite of the templates, with the cells that the placemap marks
    non-placeable cleared when [crop_to_placemap] is set. *)
Lemma layer_full_image (stats : Stats) (ts : list Template)
  (placemap_arg : option (ndarray Z)) (crop_to_placemap : bool) :
  let placemap := match placemap_arg with
                  | None => placemap_array stats
                  | Some p => p
                  end in
  same_shape (board_array stats) placemap = true ->
  exists img mnx mny mxx mxy,
    layer stats ts placemap_arg crop_to_placemap false = OK (0, 0, img) /\
    layer stats ts placemap_arg crop_to_placemap true =
      OK (mnx, mny, getslice img (Some mny) (Some mxy) (Some mnx) (Some mxx)) /\
    shape0 img = shape0 placemap /\ shape1 img = shape1 placemap /\
    forall y x, in_bounds placemap y x ->
      item img y x =
      if crop_to_placemap && negb (item placemap y x =? 0) then TRANSPARENT
      else composite_cell ts TRANSPARENT y x.
Proof.
  intros placemap Hs. unfold layer. fold placemap.
  destruct (layer_loop_cell stats ts (full_like placemap 255)
              (cols (full_like placemap 255)) (rows (full_like placemap 255)) 0 0 Hs)
    as (bg & mnx & mny & mxx & mxy & -> & H0 & H1 & Hcell).
  cbn [bind]. cbn [full_like full shape0 shape1 item] in *.
  destruct crop_to_placemap.
  - unfold setmask.
    replace (same_shape bg (ne_scalar placemap 0)) with true
      by (symmetry; apply same_shape_true; simpl; auto).
    cbn [bind]. do 5 eexists. split; [reflexivity|]. split; [reflexivity|].
    cbn [shape0 shape1 item ne_scalar map_items andb].
    split; [assumption|]. split; [assumption|].
    intros y x Hb. destruct (item placemap y x =? 0); cbn [negb]; [|reflexivity].
    now apply Hcell.
  - cbn [bind]. exists bg, mnx, mny, mxx, mxy.
    split; [reflexivity|]. split; [reflexivity|].
    split; [assumption|]. split; [assumption|].
    intros y x Hb. cbn [andb]. now apply Hcell.
Qed.

(** C9.  On a canvas snapshot whose board and placemap have one shape,
    [layer] succeeds for every ordered list of templates, and in every
    cell of the composite: (1) a cell the placemap marks non-placeable
    holds the transparent index; (2) a placeable cell where a template is
    not transparent, and every template after it in the list is, holds
    that template's palette index, whatever the templates before it;
    (3) adding on top a template that is transparent at a cell leaves the
    cell as the templates below made it; (4) a placeable cell where every
    template is transparent stays transparent. *)
Theorem layer_z_order (stats : Stats) (ts : list Template)
  (placemap_arg : option (ndarray Z)) :
  let placemap := match placemap_arg with
                  | None => placemap_array stats
                  | Some p => p
                  end in
  same_shape (board_array stats) placemap = true ->
  exists img,
    layer stats ts placemap_arg true false = OK (0, 0, img) /\
    shape0 img = shape0 placemap /\ shape1 img = shape1 placemap /\
    forall y x, in_bounds placemap y x ->
      (item placemap y x <> 0 -> item img y x = TRANSPARENT) /\
      (forall earlier t later,
         ts = (earlier ++ t :: later)%list ->
         item placemap y x = 0 ->
         opaque_at t y x = true ->
         (forall t', In t' later -> opaque_at t' y x = false) ->
         item img y x = template_cell t y x) /\
      (forall top, opaque_at top y x = false ->
         exists img',
           layer stats (ts ++ [top]) placemap_arg true false = OK (0, 0, img') /\
           item img' y x = item img y x) /\
      (item placemap y x = 0 ->
       (forall t, In t ts -> opaque_at t y x = false) ->
       item img y x = TRANSPARENT).
Proof.
  intros placemap Hs.
  destruct (layer_full_image stats ts placemap_arg true Hs)
    as (img & _ & _ & _ & _ & Himg & _ & H0 & H1 & Hcell).
  fold placemap in Hcell.
  exists img. split; [exact Himg|]. split; [exact H0|]. split; [exact H1|].
  intros y x Hb. specialize (Hcell y x Hb). cbn [andb] in Hcell.
  split; [|split; [|split]].
  - intros Hne. rewrite Hcell.
    replace (item placemap y x =? 0) with false by (symmetry; now apply Z.eqb_neq).
    reflexivity.
  - intros earlier t later -> Hp Ht Hl. rewrite Hcell, Hp. cbn [Z.eqb negb].
    now apply composite_cell_last_opaque.
  - intros top Htop.
    destruct (layer_full_image stats (ts ++ [top]) placemap_arg true Hs)
      as (img' & _ & _ & _ & _ & Himg' & _ & _ & _ & Hcell').
    fold placemap in Hcell'.
    exists img'. split; [exact Himg'|].
    rewrite Hcell, (Hcell' y x Hb). cbn [andb].
    destruct (negb (item placemap y x =? 0)); [reflexivity|].
    rewrite composite_cell_app. cbn [composite_cell]. now rewrite Htop.
  - intros Hp Hall. rewrite Hcell, Hp. cbn [Z.eqb negb].
    now apply composite_cell_all_transparent.
Qed.

(** ** The registry *)

Module RegistryFacts.

Lemma enumerate_from_In {A} (l : list A) (s i : nat) (a : A) :
  In (i, a) (combine (seq s (List.length l)) l) <->
  (s <= i)%nat /\ nth_error l (i - s) = Some a.
Proof.
  revert s. induction l as [|b l IH]; intros s; cbn [List.length seq combine].
  - split; [intros []|]. intros [_ H]. destruct (i - s)%nat; discriminate.
  - cbn [In]. rewrite IH. split.
    + intros [E | [Hle Hn]].
      * inversion E; subst. split; [lia|]. now rewrite Nat.sub_diag.
      * split; [lia|]. replace (i - s)%nat with (S (i - S s)) by lia. exact Hn.
    + intros [Hle Hn]. destruct (Nat.eq_dec s i) as [->|Hne].
      * left. rewrite Nat.sub_diag in Hn. cbn in Hn. congruence.
      * right. split; [lia|].
        replace (i - s)%nat with (S (i - S s)) in Hn by lia. exact Hn.
Qed.

Lemma enumerate_In {A} (l : list A) (i : nat) (a : A) :
  In (i, a) (enumerate l) <-> nth_error l i = Some a.
Proof.
  unfold enumerate. rewrite enumerate_from_In, Nat.sub_0_r.
  split; [tauto|]. intros H. split; [lia|exact H].
Qed.

Lemma same_image_iff (a b : ndarray Z) :
  same_image a b = true <-> grid_identical a b.
Proof.
  unfold same_image, grid_identical, equal, zip_items.
  destruct (same_shape a b) eqn:E; cbn [andb].
  - apply same_shape_true in E as [E0 E1]. unfold Np.all. cbn [shape0 shape1 item].
    rewrite forallb_forall. split.
    + intros H. repeat split; try assumption. intros y x [Hy Hx].
      assert (Hin : In y (range (shape0 a))) by now apply in_range.
      specialize (H y Hin). rewrite forallb_forall in H.
      apply Z.eqb_eq, H. now apply in_range.
    + intros (_ & _ & H) y Hy. apply forallb_forall. intros x Hx.
      apply Z.eqb_eq, H. apply in_range in Hy, Hx. split; assumption.
  - split; [discriminate|]. intros (E0 & E1 & _).
    assert (same_shape a b = true) by (apply same_shape_true; auto). congruence.
Qed.

(** The loop of [get_template] over named templates: it returns the
    position of a template that matches, or [None] when none does. *)
Lemma get_template_loop_spec (l : list (nat * Template)) (name_ : string)
  (owner_id_ : option Z) (hidden_ : bool) :
  Forall (fun p => name (snd p) <> None) l ->
  (exists i t, get_template_loop l name_ owner_id_ hidden_ = OK (Some (RList i)) /\
               In (i, t) l /\ get_template_match t name_ owner_id_ hidden_ = OK true) \/
  (get_template_loop l name_ owner_id_ hidden_ = OK None /\
   forall i t, In (i, t) l -> get_template_match t name_ owner_id_ hidden_ = OK false).
Proof.
  induction 1 as [|[i t] l Hn _ IH]; cbn [get_template_loop].
  - right. split; [reflexivity|]. intros i t [].
  - cbn [snd] in Hn.
    assert (Hm : exists b, get_template_match t name_ owner_id_ hidden_ = OK b).
    { unfold get_template_match. destruct (name t); [|congruence].
      destruct (String.eqb _ _); [destruct hidden_|]; eauto. }
    destruct Hm as [b Hb]. rewrite Hb. cbn [bind]. destruct b.
    + left. exists i, t. split; [reflexivity|]. split; [now left|exact Hb].
    + destruct IH as [(j & u & Hj & Hin & Hu) | [Hnone Hall]].
      * left. exists j, u. split; [exact Hj|]. split; [now right|exact Hu].
      * right. split; [exact Hnone|]. intros j u [E | Hin].
        -- inversion E; subst. exact Hb.
        -- eapply Hall; eauto.
Qed.

Lemma all_named_enumerate (self : TemplateManager) :
  all_named self -> Forall (fun p => name (snd p) <> None) (enumerate (list_ self)).
Proof.
  unfold all_named. rewrite !Forall_forall. intros H [i t] Hin.
  apply enumerate_In in Hin. apply nth_error_In in Hin. cbn. now apply H.
Qed.

End RegistryFacts.
Import RegistryFacts.

Section SaveProperties.

Variable stats : Stats.
Variable db_create_template : Template -> result Z.

Lemma get_template_match_true_iff (t : Template) (name_ : string) (owner : Z)
  (hidden_ : bool) :
  get_template_match t name_ (Some owner) hidden_ = OK true <->
  exists n, name t = Some n /\ lower n = lower name_ /\ in_scope t owner hidden_ = true.
Proof.
  unfold get_template_match, in_scope. destruct (name t) as [n|].
  - destruct (String.eqb_spec (lower n) (lower name_)) as [E|E].
    + destruct hidden_; split.
      * intros H. exists n. repeat split; congruence.
      * intros (n' & Hn & _ & H). now rewrite H.
      * intros H. exists n. repeat split; congruence.
      * intros (n' & Hn & _ & H). now rewrite H.
    + split; [discriminate|]. intros (n' & Hn & Hl & _). congruence.
  - split; [discriminate|]. intros (n' & Hn & _). discriminate.
Qed.

Lemma check_valid_name_ok (name_ s : string) :
  check_valid_name name_ = OK s ->
  s = name_ /\ str_in (lower name_) COMBO_NAMES = false.
Proof.
  unfold check_valid_name.
  destruct (negb (name_regex_match name_)); [discriminate|].
  destruct (_ || _)%bool; [discriminate|].
  destruct (str_in (lower name_) COMBO_NAMES); [discriminate|].
  intros E. inversion E. auto.
Qed.

(** The lookup of [save] (with a name that passed [check_valid_name]). *)
Lemma get_template_in_save (self : TemplateManager) (name_ : string) (owner : Z)
  (hidden_ : bool) :
  all_named self ->
  str_in (lower name_) COMBO_NAMES = false ->
  (exists r, get_template self name_ (Some owner) hidden_ = OK (Some r) /\
             name_taken self name_ owner hidden_) \/
  (get_template self name_ (Some owner) hidden_ = OK None /\
   ~ name_taken self name_ owner hidden_).
Proof.
  intros Hn Hc. unfold get_template. rewrite Hc. cbn [andb].
  destruct (get_template_loop_spec (enumerate (list_ self)) name_ (Some owner) hidden_
              (all_named_enumerate self Hn))
    as [(i & t & -> & Hin & Hm) | [-> Hall]].
  - left. eexists. split; [reflexivity|].
    apply enumerate_In in Hin. apply get_template_match_true_iff in Hm as (n & ? & ? & ?).
    exists i, t, n. auto.
  - right. split; [reflexivity|]. intros (i & t & n & Hi & Hname & Hl & Hs).
    apply enumerate_In in Hi. specialize (Hall i t Hi).
    assert (get_template_match t name_ (Some owner) hidden_ = OK true)
      by (apply get_template_match_true_iff; eauto).
    congruence.
Qed.

(** [check_duplicate_template] on the template [save] has labelled. *)
Lemma check_duplicate_template_spec (self : TemplateManager) (template : Template)
  (owner : Z) (hidden_ : bool) :
  hidden template = Some hidden_ -> owner_id template = Some owner ->
  (exists i t, check_duplicate_template self template = Some i /\
               image_taken_at self template owner hidden_ i t) \/
  (check_duplicate_template self template = None /\
   forall i t, ~ image_taken_at self template owner hidden_ i t).
Proof.
  intros Hh Ho. unfold check_duplicate_template. rewrite Hh, Ho.
  set (scope := if truthy_bool (Some hidden_) then get_hidden_templates self (Some owner)
                else get_all_public_templates self).
  assert (Hscope : forall i t, In (i, t) scope <->
                     nth_error (list_ self) i = Some t /\ in_scope t owner hidden_ = true).
  { intros i t. unfold scope, get_hidden_templates, get_all_public_templates, in_scope.
    destruct hidden_; cbn [truthy_bool]; rewrite filter_In, enumerate_In; tauto. }
  destruct (find _ scope) as [[i t]|] eqn:E.
  - left. exists i, t. split; [reflexivity|].
    apply find_some in E as [Hin Hp]. apply Hscope in Hin as [Hi Hs].
    rewrite !andb_true_iff, !Z.eqb_eq in Hp. destruct Hp as (Himg & Hy & Hx).
    apply same_image_iff in Himg. unfold image_taken_at. tauto.
  - right. split; [reflexivity|]. intros i t (Hi & Hs & Hg & Hx & Hy).
    assert (Hin : In (i, t) scope) by (apply Hscope; auto).
    pose proof (find_none _ _ E (i, t) Hin) as Hp. cbn in Hp.
    apply same_image_iff in Hg. rewrite Hg, Hx, Hy, !Z.eqb_refl in Hp. discriminate.
Qed.


End SaveProperties.

Lemma get_template_loop_found (l : list (nat * Template)) (name_ : string)
  (owner_id_ : option Z) (hidden_ : bool) (r : tref) :
  get_template_loop l name_ owner_id_ hidden_ = OK (Some r) ->
  exists i t, r = RList i /\ In (i, t) l /\
              get_template_match t name_ owner_id_ hidden_ = OK true.
Proof.
  induction l as [|[i t] l IH]; cbn [get_template_loop]; [discriminate|].
  destruct (get_template_match t name_ owner_id_ hidden_) as [[|]|e] eqn:E;
    cbn [bind]; [| |discriminate].
  - intros H. inversion H. exists i, t. split; [reflexivity|]. split; [now left|exact E].
  - intros H. destruct (IH H) as (j & u & -> & Hin & Hu).
    exists j, u. split; [reflexivity|]. split; [now right|exact Hu].
Qed.

Lemma update_combo_list (stats : Stats) (self : TemplateManager)
  (bot_id : option Z) (cc : option string) :
  list_ (snd (update_combo stats self bot_id cc)) = list_ self.
Proof.
  unfold update_combo.
  repeat match goal with
         | |- context [match ?x with _ => _ end] => destruct x
         end; reflexivity.
Qed.

Section UpdateProperties.

Variable stats : Stats.
Variable get_template_from_url : string -> result Template.
Variable db_update_template :
  Template -> option string -> option string -> option Z -> result (option Z).


End UpdateProperties.

(** ** Examples *)

Example save_foo_succeeds :
  fst (save stats_4x4 db_create_ok manager_combo template_a "foo" 1 false) = OK tt /\
  map name (list_ manager_foo) = [Some "foo"].
Proof. split; reflexivity. Qed.





(** The same grid at the same origin under a free name. *)
Example save_same_image_fails :
  fst (save stats_4x4 db_create_ok manager_foo template_a_copy "bar" 2 false)
    = Err (DUPLICATE_TEMPLATE (Some "foo")).
Proof. reflexivity. Qed.


Example layer_low_high :
  exists img, layer stats_demo [template_low; template_high] None true false
              = OK (0, 0, img) /\
    to_rows img = [[255; 2; 255; 255]; [3; 4; 5; 255]; [255; 6; 7; 255];
                   [255; 255; 255; 255]].
Proof. eexists. split; [vm_compute; reflexivity|reflexivity]. Qed.

Lemma layer_z_order_witness :
  exists img,
    layer stats_demo [template_low; template_high] None true false = OK (0, 0, img) /\
    item img 0 0 = TRANSPARENT /\
    item img 1 2 = template_cell template_high 1 2.
Proof.
  destruct (layer_z_order stats_demo [template_low; template_high] None eq_refl)
    as (img & Himg & _ & _ & Hcell).
  assert (Hb00 : in_bounds (placemap_array stats_demo) 0 0)
    by (vm_compute; repeat split; discriminate).
  assert (Hb12 : in_bounds (placemap_array stats_demo) 1 2)
    by (vm_compute; repeat split; discriminate).
  exists img. split; [exact Himg|]. split.
  - destruct (Hcell 0 0 Hb00) as (Hnp & _). apply Hnp. vm_compute. discriminate.
  - destruct (Hcell 1 2 Hb12) as (_ & Hlater & _).
    apply (Hlater [template_low] template_high []); try reflexivity.
    intros t' [].
Defined.

(* ===================================================================== *)
(** * Further properties *)
(* ===================================================================== *)

(** ** Cropping the canvas to a template *)

Module CropFacts.

Lemma in_boundsb_true {A} (a : ndarray A) (y x : Z) :
  in_boundsb a y x = true <-> in_bounds a y x.
Proof.
  unfold in_boundsb, in_bounds.
  rewrite !andb_true_iff, !Z.leb_le, !Z.ltb_lt. tauto.
Qed.

(** The copy-and-paste at the heart of [crop_array_to_template] and
    [crop_array_to_shape]: it never fails, and each cell of the result
    holds the array's value at the canvas cell under it, or 255 when that
    cell is off the array. *)
Lemma crop_paste_cells (array : ndarray Z) (h w : nat) (oy_ ox_ : Z) :
  let y0 := Z.min (Z.max 0 oy_) (rows array) in
  let y1 := Z.max 0 (Z.min (rows array) (oy_ + Z.of_nat h)) in
  let x0 := Z.min (Z.max 0 ox_) (cols array) in
  let x1 := Z.max 0 (Z.min (cols array) (ox_ + Z.of_nat w)) in
  exists c,
    setslice (full h w 255)
      (Some (y0 - oy_)) (Some (y1 - oy_)) (Some (x0 - ox_)) (Some (x1 - ox_))
      (getslice array (Some y0) (Some y1) (Some x0) (Some x1)) = OK c /\
    shape0 c = h /\ shape1 c = w /\
    forall y x, in_bounds c y x -> item c y x = canvas_under array oy_ ox_ y x.
Proof.
  intros y0 y1 x0 x1. unfold setslice.
  set (src := getslice array (Some y0) (Some y1) (Some x0) (Some x1)).
  assert (HH : 0 <= rows array) by (unfold rows; lia).
  assert (HW : 0 <= cols array) by (unfold cols; lia).
  assert (Hs0 : Z.of_nat (shape0 src) = y1 - y0).
  { unfold src, getslice. cbn [shape0].
    rewrite !slice_bound_in by (subst y0 y1; lia). subst y0 y1; lia. }
  assert (Hs1 : Z.of_nat (shape1 src) = x1 - x0).
  { unfold src, getslice. cbn [shape1].
    rewrite !slice_bound_in by (subst x0 x1; lia). subst x0 x1; lia. }
  assert (Hsrc : forall a b, item src a b = item array (y0 + a) (x0 + b)).
  { intros a b. unfold src, getslice. cbn [item].
    rewrite !slice_bound_in by (subst y0 x0; lia). reflexivity. }
  unfold rows, cols. cbn [full shape0 shape1].
  set (ys := slice_bound (Z.of_nat h) 0 (Some (y0 - oy_))).
  set (ye := slice_bound (Z.of_nat h) (Z.of_nat h) (Some (y1 - oy_))).
  set (xs := slice_bound (Z.of_nat w) 0 (Some (x0 - ox_))).
  set (xe := slice_bound (Z.of_nat w) (Z.of_nat w) (Some (x1 - ox_))).
  assert (Hy : ye - ys = y1 - y0 /\ (y0 < y1 -> ys = y0 - oy_)).
  { subst ys ye y0 y1. unfold slice_bound. case_ltb; lia. }
  assert (Hx : xe - xs = x1 - x0 /\ (x0 < x1 -> xs = x0 - ox_)).
  { subst xs xe x0 x1. unfold slice_bound. case_ltb; lia. }
  destruct Hy as [Hyl Hys]. destruct Hx as [Hxl Hxs].
  replace (broadcastable (shape0 src) (Z.to_nat (ye - ys)) &&
           broadcastable (shape1 src) (Z.to_nat (xe - xs))) with true.
  2:{ symmetry. unfold broadcastable. apply andb_true_iff.
      split; apply orb_true_iff; left; apply Nat.eqb_eq; lia. }
  eexists. split; [reflexivity|]. cbn [shape0 shape1 item].
  split; [reflexivity|]. split; [reflexivity|].
  intros y x [Hby Hbx]. unfold rows, cols in Hby, Hbx. cbn [shape0 shape1] in Hby, Hbx.
  unfold canvas_under. rewrite !Hsrc.
  destruct ((ys <=? y) && (y <? ys + Z.of_nat (Z.to_nat (ye - ys))) && (xs <=? x) &&
            (x <? xs + Z.of_nat (Z.to_nat (xe - xs)))) eqn:E.
  - rewrite !andb_true_iff, !Z.leb_le, !Z.ltb_lt in E.
    assert (Hly : y0 < y1) by lia. assert (Hlx : x0 < x1) by lia.
    specialize (Hys Hly). specialize (Hxs Hlx).
    replace (in_boundsb array (oy_ + y) (ox_ + x)) with true.
    2:{ symmetry. apply in_boundsb_true. unfold in_bounds. subst y0 y1 x0 x1. lia. }
    f_equal.
    + destruct (Nat.eqb_spec (shape0 src) 1); lia.
    + destruct (Nat.eqb_spec (shape1 src) 1); lia.
  - replace (in_boundsb array (oy_ + y) (ox_ + x)) with false; [reflexivity|].
    symmetry. apply not_true_is_false. intros Hin. apply in_boundsb_true in Hin.
    destruct Hin as [Hiy Hix].
    assert (Hly : y0 < y1) by (subst y0 y1; lia).
    assert (Hlx : x0 < x1) by (subst x0 x1; lia).
    specialize (Hys Hly). specialize (Hxs Hlx).
    rewrite !andb_false_iff, !Z.leb_gt, !Z.ltb_ge in E.
    subst y0 y1 x0 x1. lia.
Qed.

End CropFacts.
Import CropFacts.

Lemma crop_array_to_template_cells_spec (t : Template) (array : ndarray Z) :
  template_dims_ok t ->
  exists c, crop_array_to_template t array = OK c /\
    shape0 c = shape0 (palettized_array t) /\
    shape1 c = shape1 (palettized_array t) /\
    forall y x, in_bounds c y x -> item c y x = canvas_under array (oy t) (ox t) y x.
Proof.
  intros [Hw Hh]. unfold crop_array_to_template. rewrite Hw, Hh.
  unfold rows at 3 6, cols at 3 6.
  apply (crop_paste_cells array (shape0 (palettized_array t))
           (shape1 (palettized_array t)) (oy t) (ox t)).
Qed.

(** X1.  For a template whose stored dimensions are those of its grid,
    [crop_array_to_template] never fails: the result has the shape of the
    grid, and each cell holds the array's value at the canvas cell under
    it, or 255 when that canvas cell is outside the array. *)
Theorem crop_array_to_template_cells (t : Template) (array : ndarray Z) :
  template_dims_ok t ->
  exists c, crop_array_to_template t array = OK c /\
    shape0 c = shape0 (palettized_array t) /\
    shape1 c = shape1 (palettized_array t) /\
    forall y x, in_bounds c y x -> item c y x = canvas_under array (oy t) (ox t) y x.
Proof. exact (crop_array_to_template_cells_spec t array). Qed.

Lemma crop_array_to_template_cells_witness :
  exists c, crop_array_to_template template_a (mk_ndarray 4 4 (fun y x => 10 * y + x)) = OK c /\
    shape0 c = shape0 (palettized_array template_a) /\
    shape1 c = shape1 (palettized_array template_a) /\
    forall y x, in_bounds c y x ->
      item c y x = canvas_under (mk_ndarray 4 4 (fun y x => 10 * y + x))
                     (oy template_a) (ox template_a) y x.
Proof.
  apply (crop_array_to_template_cells template_a). split; reflexivity.
Defined.

(** X2.  [crop_array_to_shape] raises the ValueError of [np.full] for a
    negative height or width; otherwise it returns an array of the shape
    asked whose cells hold the array's value at the canvas cell under
    them, or 255 off the array. *)
Theorem crop_array_to_shape_cells (array1 : ndarray Z) (height_ width_ oy_ ox_ : Z) :
  (height_ < 0 \/ width_ < 0 ->
   crop_array_to_shape array1 height_ width_ oy_ ox_
     = Err (ValueError "negative dimensions are not allowed")) /\
  (0 <= height_ -> 0 <= width_ ->
   exists c, crop_array_to_shape array1 height_ width_ oy_ ox_ = OK c /\
     rows c = height_ /\ cols c = width_ /\
     forall y x, in_bounds c y x -> item c y x = canvas_under array1 oy_ ox_ y x).
Proof.
  unfold crop_array_to_shape. split.
  - intros H. replace ((height_ <? 0) || (width_ <? 0)) with true; [reflexivity|].
    symmetry. apply orb_true_iff. rewrite !Z.ltb_lt. exact H.
  - intros Hh Hw.
    replace ((height_ <? 0) || (width_ <? 0)) with false
      by (symmetry; apply orb_false_iff; rewrite !Z.ltb_ge; auto).
    pose proof (crop_paste_cells array1 (Z.to_nat height_) (Z.to_nat width_) oy_ ox_)
      as H. cbv zeta in H. rewrite !Z2Nat.id in H by assumption.
    destruct H as (c & Hc & H0 & H1 & Hcell).
    exists c. split; [exact Hc|]. unfold rows, cols. rewrite H0, H1.
    rewrite !Z2Nat.id by assumption. auto.
Qed.

Lemma crop_array_to_shape_cells_witness :
  exists c, crop_array_to_shape canvas_4x4 2 3 (-1) 2 = OK c /\
    rows c = 2 /\ cols c = 3 /\
    forall y x, in_bounds c y x -> item c y x = canvas_under canvas_4x4 (-1) 2 y x.
Proof.
  apply (proj2 (crop_array_to_shape_cells canvas_4x4 2 3 (-1) 2)); lia.
Defined.

(** ** The masks of a template *)

Module MaskFacts.

Lemma sum_list_map_ext {A} (f g : A -> Z) (l : list A) :
  (forall a, In a l -> f a = g a) -> sum_list (map f l) = sum_list (map g l).
Proof.
  induction l as [|a l IH]; simpl; intros H; [reflexivity|].
  rewrite (H a (or_introl eq_refl)), IH; [reflexivity|].
  intros b Hb. apply H. now right.
Qed.

Lemma sum_list_map_add {A} (f g : A -> Z) (l : list A) :
  sum_list (map f l) + sum_list (map g l) = sum_list (map (fun a => f a + g a) l).
Proof.
  induction l as [|a l IH]; simpl; lia.
Qed.

(** Counting the cells of a mask inside and outside another one. *)
Lemma sum_split (m sub : ndarray bool) :
  subset sub m ->
  Np.sum (mk_ndarray (shape0 sub) (shape1 sub)
            (fun y x => negb (item sub y x) && item m y x)) + Np.sum sub = Np.sum m.
Proof.
  intros (H0 & H1 & Hsub). unfold Np.sum. cbn [shape0 shape1 item].
  rewrite <- H0, <- H1, sum_list_map_add.
  apply sum_list_map_ext. intros y Hy. rewrite sum_list_map_add.
  apply sum_list_map_ext. intros x Hx. apply in_range in Hy, Hx.
  destruct (item sub y x) eqn:E.
  - rewrite (Hsub y x); [reflexivity|split; assumption|assumption].
  - destruct (item m y x); reflexivity.
Qed.

End MaskFacts.
Import MaskFacts.

Lemma Template_init_placeable_cells_spec (stats : Stats) (u su : string)
  (ttl : option string) (pal : ndarray Z) (ox_ oy_ : Z) (cc : string) :
  exists t pm n,
    Template_init stats u su ttl pal ox_ oy_ cc = OK t /\
    palettized_array t = pal /\ ox t = ox_ /\ oy t = oy_ /\
    width t = cols pal /\ height t = rows pal /\
    placeable_mask t = Some pm /\ same_shape pal pm = true /\
    (forall y x, in_bounds pal y x ->
       item pm y x =
       negb (item pal y x =? 255) &&
       (in_boundsb (placemap_array stats) (oy_ + y) (ox_ + x) &&
        negb (item (placemap_array stats) (oy_ + y) (ox_ + x) =? 255))) /\
    total_placeable t = Some n /\ n = Np.sum pm /\
    total_size t = Np.sum (ne_scalar pal 255) /\
    0 <= n <= total_size t.
Proof.
  unfold Template_init, make_placeable_mask.
  match goal with
  | |- context [crop_array_to_template ?t0 ?a] =>
    destruct (crop_array_to_template_cells_spec t0 a) as (c & -> & Hc0 & Hc1 & Hcell);
      [split; reflexivity|]
  end.
  cbn [bind palettized_array ox oy] in *. unfold setmask.
  match goal with
  | |- context [if ?b then _ else _] => assert (Hb : b = true)
  end.
  { apply same_shape_true. simpl. split; congruence. }
  rewrite Hb. cbn [bind]. do 3 eexists. split; [reflexivity|].
  cbn [palettized_array ox oy width height placeable_mask total_placeable total_size].
  repeat (split; [reflexivity|]).
  split; [apply same_shape_true; simpl; split; reflexivity|].
  split.
  { intros y x Hb'. cbn [item ne_scalar eq_scalar map_items].
    rewrite Hcell by (unfold in_bounds, rows, cols in *; rewrite Hc0, Hc1; exact Hb').
    unfold canvas_under.
    destruct (in_boundsb (placemap_array stats) (oy_ + y) (ox_ + x)); cbn [andb].
    - destruct (item (placemap_array stats) (oy_ + y) (ox_ + x) =? 255); cbn [negb].
      + now rewrite andb_false_r.
      + now rewrite andb_true_r.
    - now rewrite andb_false_r. }
  repeat (split; [reflexivity|]).
  split; [apply sum_nonneg|].
  apply sum_subset. unfold subset. cbn [shape0 shape1 item ne_scalar eq_scalar map_items].
  repeat split. intros y x _.
  destruct (item c y x =? 255); [discriminate|tauto].
Qed.

(** X3.  [Template.__init__] never fails.  A cell of the placeable mask
    is true exactly when the template is not transparent there and the
    placemap cell under it is on the canvas and is not 255; the number of
    placeable cells is at most the number of non-transparent cells:
    [0 <= total_placeable <= total_size]. *)
Theorem Template_init_placeable_cells (stats : Stats) (u su : string)
  (ttl : option string) (pal : ndarray Z) (ox_ oy_ : Z) (cc : string) :
  exists t pm n,
    Template_init stats u su ttl pal ox_ oy_ cc = OK t /\
    palettized_array t = pal /\ ox t = ox_ /\ oy t = oy_ /\
    width t = cols pal /\ height t = rows pal /\
    placeable_mask t = Some pm /\ same_shape pal pm = true /\
    (forall y x, in_bounds pal y x ->
       item pm y x =
       negb (item pal y x =? 255) &&
       (in_boundsb (placemap_array stats) (oy_ + y) (ox_ + x) &&
        negb (item (placemap_array stats) (oy_ + y) (ox_ + x) =? 255))) /\
    total_placeable t = Some n /\ n = Np.sum pm /\
    total_size t = Np.sum (ne_scalar pal 255) /\
    0 <= n <= total_size t.
Proof. exact (Template_init_placeable_cells_spec stats u su ttl pal ox_ oy_ cc). Qed.

(** A template as [Template.__init__] builds it, after
    [update_progress]: the masks and the counts it holds. *)
Lemma init_then_update_progress (stats stats' : Stats) (u su : string)
  (ttl : option string) (pal : ndarray Z) (ox_ oy_ : Z) (cc : string)
  (board_arg : option (ndarray Z)) :
  let board := match board_arg with
               | None => board_array stats'
               | Some b => b
               end in
  exists t pm placed t',
    Template_init stats u su ttl pal ox_ oy_ cc = OK t /\
    placeable_mask t = Some pm /\ same_shape pal pm = true /\
    update_progress stats' t board_arg = OK (Np.sum placed, t') /\
    placeable_mask t' = Some pm /\ total_placeable t' = Some (Np.sum pm) /\
    placed_mask t' = Some placed /\ current_progress t' = Some (Np.sum placed) /\
    subset placed pm /\
    forall y x, in_bounds pal y x ->
      item placed y x =
      item pm y x &&
      (in_boundsb board (oy_ + y) (ox_ + x) &&
       (item pal y x =? item board (oy_ + y) (ox_ + x))).
Proof.
  intros board.
  destruct (Template_init_placeable_cells_spec stats u su ttl pal ox_ oy_ cc)
    as (t & pm & n & Hinit & Hpal & Hox & Hoy & Hw & Hh & Hpm & Hs & Hcell & Htot & Hn & _).
  subst n. exists t, pm.
  assert (Hd : template_dims_ok t) by (split; rewrite Hpal; assumption).
  unfold update_progress, make_placed_mask. fold board.
  destruct (crop_array_to_template_cells_spec t board Hd) as (c & -> & Hc0 & Hc1 & Hc).
  cbn [bind]. unfold equal, zip_items. rewrite Hpal in *.
  replace (same_shape pal c) with true
    by (symmetry; apply same_shape_true; split; congruence).
  cbn [bind]. rewrite Hpm. unfold setmask.
  apply same_shape_true in Hs as Hs'. destruct Hs' as [Hs0 Hs1].
  match goal with
  | |- context [same_shape ?a (invert pm)] =>
    assert (Hb : same_shape a (invert pm) = true)
      by (apply same_shape_true; simpl; split; assumption);
      rewrite Hb
  end.
  cbn [bind]. do 2 eexists. split; [exact Hinit|]. split; [reflexivity|].
  split; [exact Hs|]. split; [reflexivity|].
  cbn [set_progress placeable_mask total_placeable placed_mask current_progress].
  split; [exact Hpm|]. split; [exact Htot|].
  split; [reflexivity|]. split; [reflexivity|]. split.
  - unfold subset. cbn [shape0 shape1 item invert map_items].
    repeat split; try assumption.
    intros y x _. destruct (item pm y x); simpl; congruence.
  - intros y x Hyx. cbn [item invert map_items].
    rewrite Hc by (unfold in_bounds, rows, cols in *; rewrite Hc0, Hc1; exact Hyx).
    rewrite Hox, Hoy. unfold canvas_under.
    specialize (Hcell y x Hyx).
    destruct (item pm y x) eqn:Epm; cbn [negb andb]; [|reflexivity].
    destruct (in_boundsb board (oy_ + y) (ox_ + x)); cbn [andb]; [reflexivity|].
    symmetry in Hcell. apply andb_true_iff in Hcell as [Hne _].
    apply negb_true_iff in Hne. exact Hne.
Qed.


(** X5.  After [update_progress] on a template built by
    [Template.__init__], [get_wrong_pixels_mask] marks the placeable
    cells that are not placed, and the number of wrong pixels plus the
    progress is [total_placeable]. *)
Theorem wrong_pixels_plus_progress (stats stats' : Stats) (u su : string)
  (ttl : option string) (pal : ndarray Z) (ox_ oy_ : Z) (cc : string)
  (board_arg : option (ndarray Z)) :
  exists t progress t' pm placed wrong total,
    Template_init stats u su ttl pal ox_ oy_ cc = OK t /\
    update_progress stats' t board_arg = OK (progress, t') /\
    placeable_mask t' = Some pm /\ placed_mask t' = Some placed /\
    total_placeable t' = Some total /\
    get_wrong_pixels_mask t' = OK wrong /\
    (forall y x, item wrong y x = negb (item placed y x) && item pm y x) /\
    Np.sum wrong + progress = total.
Proof.
  destruct (init_then_update_progress stats stats' u su ttl pal ox_ oy_ cc board_arg)
    as (t & pm & placed & t' & Hi & Hpm & Hs & Hu & Hpm' & Htot & Hpl & _ & Hsub & _).
  exists t, (Np.sum placed), t', pm, placed.
  unfold get_wrong_pixels_mask, logical_and, zip_items. rewrite Hpl, Hpm'.
  change (same_shape (invert placed) pm) with (same_shape placed pm).
  replace (same_shape placed pm) with true.
  2:{ symmetry. apply same_shape_true. destruct Hsub as (? & ? & _). auto. }
  eexists. exists (Np.sum pm).
  split; [exact Hi|]. split; [exact Hu|]. split; [reflexivity|].
  split; [reflexivity|]. split; [exact Htot|]. split; [reflexivity|].
  split; [reflexivity|]. apply (sum_split pm placed Hsub).
Qed.

(** ** Cropping a template to the canvas, in full *)

(** X6.  [crop_to_canvas] has two outcomes, for the board of [stats] or
    a canvas given: it raises the ValueError when the origin lies
    strictly beyond the bottom or the right edge of the canvas; otherwise
    it returns the origin clamped to the canvas and the part of the grid
    that lies on the canvas (an array with no row or no column when
    nothing does), each cell being the grid's cell at the same canvas
    position. *)
Theorem crop_to_canvas_outcomes (stats : Stats) (t : Template)
  (canvas_arg : option (ndarray Z)) :
  let canvas := match canvas_arg with
                | None => board_array stats
                | Some c => c
                end in
  let pal := palettized_array t in
  (oy t > rows canvas \/ ox t > cols canvas ->
   crop_to_canvas stats t canvas_arg
     = Err (ValueError "The template is outside canvas boundaries.")) /\
  (oy t <= rows canvas -> ox t <= cols canvas ->
   exists arr,
     crop_to_canvas stats t canvas_arg = OK (arr, Z.max 0 (ox t), Z.max 0 (oy t)) /\
     rows arr = Z.max 0 (Z.min (rows canvas) (oy t + rows pal) - Z.max 0 (oy t)) /\
     cols arr = Z.max 0 (Z.min (cols canvas) (ox t + cols pal) - Z.max 0 (ox t)) /\
     forall y x, in_bounds arr y x ->
       item arr y x = item pal (y + Z.max 0 (oy t) - oy t) (x + Z.max 0 (ox t) - ox t)).
Proof.
  intros canvas pal.
  assert (Heq : crop_to_canvas stats t canvas_arg =
                crop_to_canvas (mk_Stats canvas (placemap_array stats)
                                  (virginmap_array stats)) t None)
    by (destruct canvas_arg; reflexivity).
  rewrite Heq.
  destruct (crop_to_canvas_cases
              (mk_Stats canvas (placemap_array stats) (virginmap_array stats)) t)
    as [[[msg Hm] Hout] | (arr & Harr & Hy & Hx & Hr & Hc & Hcell)];
    cbn [board_array] in *.
  - split.
    + intros _. rewrite Hm. unfold crop_to_canvas in Hm.
      destruct (_ || _); [|discriminate Hm]. exact (eq_sym Hm).
    + intros. lia.
  - split.
    + intros. lia.
    + intros _ _. exists arr. auto.
Qed.

(** ** The hot-cell locator, edge cases *)

(** X7.  The location [find_coords] returns is the centre of a chunk
    that holds a pixel to place: some placeable cell that is not placed
    lies in the same chunk, less than a chunk away from the location
    returned in each direction. *)
Theorem find_coords_near_wrong_pixel (self : Template) (cs : Z)
  (placed placeable : ndarray bool) (x y : Z) :
  placed_mask self = Some placed ->
  placeable_mask self = Some placeable ->
  same_shape placed placeable = true ->
  0 < cs ->
  find_coords self cs = OK (Some (x, y)) ->
  exists y' x',
    in_bounds placed y' x' /\
    item placed y' x' = false /\ item placeable y' x' = true /\
    x - cs / 2 <= ox self + x' < x - cs / 2 + cs /\
    y - cs / 2 <= oy self + y' < y - cs / 2 + cs.
Proof.
  intros Hplaced Hplaceable Hshape Hcs Hres.
  destruct (find_coords_cases self cs placed placeable Hplaced Hplaceable Hshape Hcs)
    as [[Hnone _] | (R & C & Hg & Hsome & Hpos & _ & _)].
  - rewrite Hnone in Hres. discriminate.
  - rewrite Hsome in Hres. inversion Hres; subst x y; clear Hres.
    apply chunk_count_pos_exists in Hpos as (j & i & Hj & Hi & Hb & Hit).
    exists (R * cs + j), (C * cs + i).
    cbn [togo_mask_of item] in Hit. apply andb_true_iff in Hit as [Hn Hp].
    apply negb_true_iff in Hn.
    split; [exact Hb|]. split; [exact Hn|]. split; [exact Hp|]. lia.
Qed.

Lemma find_coords_near_wrong_pixel_witness :
  exists y' x',
    in_bounds (full 1 10 false) y' x' /\
    match placed_mask strip_template with
    | Some placed => item placed y' x' = false
    | None => False
    end /\
    7 - 3 / 2 <= ox strip_template + x' < 7 - 3 / 2 + 3.
Proof.
  destruct (find_coords_near_wrong_pixel strip_template 3 _ _ 7 1
              eq_refl eq_refl eq_refl eq_refl eq_refl)
    as (y' & x' & Hb & Hn & _ & Hx & _).
  exists y', x'. split; [exact Hb|]. split; [exact Hn|exact Hx].
Defined.

(** X8.  With its masks set, [find_coords] raises ZeroDivisionError for
    a chunk size of 0 and the ValueError of [np.pad] for a negative one;
    without a placed mask (progress never computed) it raises TypeError. *)
Theorem find_coords_bad_input (self : Template) (cs : Z) :
  (placed_mask self = None -> find_coords self cs = Err TypeError) /\
  (forall placed placeable,
     placed_mask self = Some placed ->
     placeable_mask self = Some placeable ->
     same_shape placed placeable = true ->
     (cs = 0 -> find_coords self cs = Err ZeroDivisionError) /\
     (cs < 0 -> find_coords self cs
                = Err (ValueError "index can't contain negative values"))).
Proof.
  unfold find_coords, get_wrong_pixels_mask. split.
  - intros ->. reflexivity.
  - intros placed placeable -> -> Hs. unfold logical_and, zip_items.
    change (same_shape (invert placed) placeable) with (same_shape placed placeable).
    rewrite Hs. cbn [bind]. split.
    + intros ->. reflexivity.
    + intros Hneg.
      replace (cs =? 0) with false by (symmetry; apply Z.eqb_neq; lia).
      unfold pad_bottom_right.
      match goal with
      | |- context [(?a <? 0) || (?b <? 0)] =>
        replace ((a <? 0) || (b <? 0)) with true; [reflexivity|]
      end.
      symmetry. apply orb_true_iff. left. apply Z.ltb_lt.
      match goal with
      | |- cs - ?r mod cs < 0 => pose proof (Z.mod_neg_bound r cs Hneg)
      end. lia.
Qed.

(** ** The ETA estimator, other branches *)


Section EtaMore.

Variable get_template_progress : Template -> Z -> option (Z * Z).
Variable td_format : Q -> string.

(** X9.  The order of the tests of [get_eta]: when a sample is missing
    the result is [(None, None)], also for a finished template; when both
    samples exist and no pixel remains, it is "done" (or 0), whatever the
    samples and also when their timestamps are equal; when both exist,
    pixels remain and the timestamps are equal, it is [(None, None)];
    when both exist and the progress was never computed, the subtraction
    raises TypeError. *)
Theorem get_eta_precedence (self : Template) (now : Z) (as_string : bool) :
  (get_template_progress self (now - timedelta_days 7) = None \/
   get_template_progress self now = None ->
   get_eta get_template_progress td_format self now as_string = OK (EtaNone, None)) /\
  (forall od op nd np,
     get_template_progress self (now - timedelta_days 7) = Some (od, op) ->
     get_template_progress self now = Some (nd, np) ->
     (current_progress self = None ->
      get_eta get_template_progress td_format self now as_string = Err TypeError) /\
     (forall total current,
        total_placeable self = Some total -> current_progress self = Some current ->
        (total - current = 0 ->
         get_eta get_template_progress td_format self now as_string
           = OK (if as_string then EtaStr "done" else EtaInt 0, None)) /\
        (total - current <> 0 -> od = nd ->
         get_eta get_template_progress td_format self now as_string
           = OK (EtaNone, None)))).
Proof.
  unfold get_eta, get_progress_at. split.
  - intros [-> | ->].
    + destruct (get_template_progress self now) as [[? ?]|]; reflexivity.
    + destruct (get_template_progress self (now - timedelta_days 7)) as [[? ?]|];
        reflexivity.
  - intros od op nd np -> ->. split.
    + intros ->. destruct (total_placeable self); reflexivity.
    + intros total current -> ->. split.
      * intros ->. reflexivity.
      * intros Hne ->.
        replace (total - current =? 0) with false by (symmetry; apply Z.eqb_neq; lia).
        rewrite Z.sub_diag. reflexivity.
Qed.


End EtaMore.


(** ** The style decoder, in detail *)

Module DecodeFacts.

Lemma find_flat_map {A B} (P : B -> bool) (f : A -> list B) (l : list A) :
  find P (flat_map f l) =
  match find (fun a => existsb P (f a)) l with
  | Some a => find P (f a)
  | None => None
  end.
Proof.
  induction l as [|a l IH]; [reflexivity|]. cbn [flat_map find].
  destruct (existsb P (f a)) eqn:E.
  - apply existsb_exists in E as (b & Hb & HP).
    destruct (find P (f a)) as [b'|] eqn:F.
    + clear - F. revert F. generalize (f a) as l1. induction l1 as [|c l1 IH]; [discriminate|].
      cbn [app find]. destruct (P c); auto.
    + pose proof (find_none _ _ F b Hb). congruence.
  - rewrite <- IH. clear IH.
    assert (Hn : forall b, In b (f a) -> P b = false).
    { intros b Hb. destruct (P b) eqn:HP; [|reflexivity].
      assert (existsb P (f a) = true) by (apply existsb_exists; eauto). congruence. }
    revert Hn. generalize (f a) as l1. induction l1 as [|c l1 IH]; [reflexivity|].
    intros Hn. cbn [app find]. rewrite (Hn c (or_introl eq_refl)).
    apply IH. intros b Hb. apply Hn. now right.
Qed.

Lemma find_map {A B} (P : B -> bool) (g : A -> B) (l : list A) :
  find P (map g l) = option_map g (find (fun a => P (g a)) l).
Proof.
  induction l as [|a l IH]; [reflexivity|]. cbn [map find].
  destruct (P (g a)); [reflexivity|exact IH].
Qed.

(** [find] over [range n] returns the least index that qualifies. *)
Lemma find_seq_first (Q : Z -> bool) (n s : nat) :
  match find Q (map Z.of_nat (seq s n)) with
  | Some i => Z.of_nat s <= i < Z.of_nat (s + n) /\ Q i = true /\
              forall i', Z.of_nat s <= i' < i -> Q i' = false
  | None => forall i, Z.of_nat s <= i < Z.of_nat (s + n) -> Q i = false
  end.
Proof.
  revert s. induction n as [|n IH]; intros s; cbn [seq map find].
  - intros i Hi. lia.
  - destruct (Q (Z.of_nat s)) eqn:E.
    + split; [lia|]. split; [exact E|]. intros i' Hi'. lia.
    + specialize (IH (S s)). destruct (find Q (map Z.of_nat (seq (S s) n))) as [i|].
      * destruct IH as (Hi & HQ & Hmin). split; [lia|]. split; [exact HQ|].
        intros i' Hi'. destruct (Z.eq_dec i' (Z.of_nat s)) as [->|Hne]; [exact E|].
        apply Hmin. lia.
      * intros i Hi. destruct (Z.eq_dec i (Z.of_nat s)) as [->|Hne]; [exact E|].
        apply IH. lia.
Qed.

Lemma find_range_first (Q : Z -> bool) (n : nat) :
  match find Q (range n) with
  | Some i => 0 <= i < Z.of_nat n /\ Q i = true /\
              forall i', 0 <= i' < i -> Q i' = false
  | None => forall i, 0 <= i < Z.of_nat n -> Q i = false
  end.
Proof. exact (find_seq_first Q n 0). Qed.

(** The double loop over a block stops at the first offset, in row-major
    order, that qualifies. *)
Lemma find_block_first (P : Z * Z -> bool) (bs : Z) :
  match find P (block_offsets bs) with
  | Some (j, i) =>
    0 <= j < bs /\ 0 <= i < bs /\ P (j, i) = true /\
    forall j' i', 0 <= j' < bs -> 0 <= i' < bs ->
      row_major_before j' i' j i -> P (j', i') = false
  | None => forall j i, 0 <= j < bs -> 0 <= i < bs -> P (j, i) = false
  end.
Proof.
  unfold block_offsets. rewrite find_flat_map.
  set (n := Z.to_nat bs).
  set (rowhit := fun j : Z => existsb P (map (fun i => (j, i)) (range n))).
  assert (Hrow : forall j, rowhit j = false ->
                   forall i, 0 <= i < Z.of_nat n -> P (j, i) = false).
  { intros j Hj i Hi. destruct (P (j, i)) eqn:E; [|reflexivity].
    assert (rowhit j = true); [|congruence].
    apply existsb_exists. exists (j, i). split; [|exact E].
    apply in_map_iff. exists i. split; [reflexivity|]. now apply in_range. }
  pose proof (find_range_first rowhit n) as Hj.
  destruct (find rowhit (range n)) as [j|].
  - destruct Hj as (Hjr & Hjhit & Hjmin).
    rewrite find_map.
    pose proof (find_range_first (fun i => P (j, i)) n) as Hi.
    destruct (find (fun i => P (j, i)) (range n)) as [i|]; cbn [option_map].
    + destruct Hi as (Hir & HP & Himin).
      split; [lia|]. split; [lia|]. split; [exact HP|].
      intros j' i' Hj' Hi' [Hlt | [-> Hlt]].
      * apply (Hrow j'); [apply Hjmin|]; lia.
      * apply Himin. lia.
    + apply existsb_exists in Hjhit as ([j0 i0] & Hin & HP).
      apply in_map_iff in Hin as (i1 & E & Hi1). inversion E; subst j0 i0.
      apply in_range in Hi1. rewrite (Hi i1 Hi1) in HP. discriminate.
  - intros j i Hjr Hir. apply (Hrow j); [apply Hj|]; lia.
Qed.

End DecodeFacts.
Import DecodeFacts.

Lemma fast_detemplatize_first_hit_spec (array : ndarray rgba)
  (true_height true_width block_size y x : Z) :
  let px j i := item array (y * block_size + j) (x * block_size + i) in
  let cell := item (fast_detemplatize array true_height true_width block_size) y x in
  ((forall j i, 0 <= j < block_size -> 0 <= i < block_size -> alpha (px j i) <= 128) /\
   cell = mk_rgba 0 0 0 0) \/
  (exists j i,
     0 <= j < block_size /\ 0 <= i < block_size /\ 128 < alpha (px j i) /\
     (forall j' i', 0 <= j' < block_size -> 0 <= i' < block_size ->
        row_major_before j' i' j i -> alpha (px j' i') <= 128) /\
     cell = mk_rgba (red (px j i)) (green (px j i)) (blue (px j i)) 255).
Proof.
  intros px cell. unfold cell, fast_detemplatize. cbn [item].
  pose proof (find_block_first
                (fun '(j, i) =>
                   alpha (item array (y * block_size + j) (x * block_size + i)) >? 128)
                block_size) as H.
  destruct (find _ (block_offsets block_size)) as [[j i]|].
  - right. destruct H as (Hj & Hi & HP & Hmin). exists j, i.
    split; [exact Hj|]. split; [exact Hi|]. rewrite Z.gtb_ltb, Z.ltb_lt in HP.
    split; [exact HP|]. split; [|reflexivity].
    intros j' i' Hj' Hi' Hb. specialize (Hmin j' i' Hj' Hi' Hb). cbn in Hmin.
    rewrite Z.gtb_ltb, Z.ltb_ge in Hmin. exact Hmin.
  - left. split; [|reflexivity]. intros j i Hj Hi. specialize (H j i Hj Hi).
    cbn in H. rewrite Z.gtb_ltb, Z.ltb_ge in H. exact H.
Qed.

(** X11.  Each cell of the grid [fast_detemplatize] returns is decided
    by the first pixel of its block, in row-major order, whose alpha
    exceeds 128: the cell takes that pixel's colour with alpha 255; when
    no pixel of the block qualifies the cell is the transparent pixel
    (0, 0, 0, 0). *)
Theorem fast_detemplatize_first_hit (array : ndarray rgba)
  (true_height true_width block_size y x : Z) :
  let px j i := item array (y * block_size + j) (x * block_size + i) in
  let cell := item (fast_detemplatize array true_height true_width block_size) y x in
  ((forall j i, 0 <= j < block_size -> 0 <= i < block_size -> alpha (px j i) <= 128) /\
   cell = mk_rgba 0 0 0 0) \/
  (exists j i,
     0 <= j < block_size /\ 0 <= i < block_size /\ 128 < alpha (px j i) /\
     (forall j' i', 0 <= j' < block_size -> 0 <= i' < block_size ->
        row_major_before j' i' j i -> alpha (px j' i') <= 128) /\
     cell = mk_rgba (red (px j i)) (green (px j i)) (blue (px j i)) 255).
Proof. exact (fast_detemplatize_first_hit_spec array true_height true_width block_size y x). Qed.

(** X12.  Decoding is idempotent: a grid that [detemplatize] returned
    for the target width [tw] is returned unchanged when decoded again
    with [tw]. *)
Theorem detemplatize_idempotent (img g : ndarray rgba) (tw : Z) :
  detemplatize img tw = OK g -> detemplatize g tw = OK g.
Proof.
  unfold detemplatize.
  destruct ((tw <=? 0) || (cols img / tw =? 1)) eqn:E.
  - intros H. inversion H; subst g. rewrite E. reflexivity.
  - apply orb_false_iff in E as [E1 E2]. apply Z.leb_gt in E1.
    destruct (cols img / tw =? 0); [discriminate|].
    intros H. inversion H; subst g; clear H.
    replace (cols (fast_detemplatize img _ tw _)) with tw
      by (unfold cols; cbn [fast_detemplatize shape1]; lia).
    rewrite Z.div_same by lia. rewrite Z.eqb_refl, orb_true_r. reflexivity.
Qed.

Lemma detemplatize_idempotent_witness :
  exists g, detemplatize image_5x5 2 = OK g /\ detemplatize g 2 = OK g.
Proof.
  eexists. split; [reflexivity|].
  apply (detemplatize_idempotent image_5x5 _ 2). reflexivity.
Defined.

(** [detemplatize] on a block size of at least 2 (the decoder proper). *)
Lemma detemplatize_ignores_remainder_aux (img : ndarray rgba) (tw : Z) :
  0 < tw -> 2 <= cols img / tw ->
  let b := cols img / tw in
  exists g, detemplatize img tw = OK g /\
            g = fast_detemplatize img (rows img / b) tw b /\
            rows g = rows img / b /\ cols g = tw.
Proof.
  intros Htw Hb b. unfold detemplatize. fold b.
  replace (tw <=? 0) with false by (symmetry; apply Z.leb_gt; lia).
  replace (b =? 1) with false by (symmetry; apply Z.eqb_neq; lia).
  replace (b =? 0) with false by (symmetry; apply Z.eqb_neq; lia).
  cbn [orb]. eexists. split; [reflexivity|]. split; [reflexivity|].
  unfold rows, cols. cbn [fast_detemplatize shape0 shape1].
  assert (0 <= Z.of_nat (shape0 img) / b) by (apply Z.div_pos; lia).
  rewrite !Z2Nat.id by lia. split; reflexivity.
Qed.

(** X13.  Round trip with a block-scaled image.  When the block size
    [b = width // tw] is at least 2 and every pixel of every block of the
    image is the pixel [src[y, x]] of a grid [src], [detemplatize] gives
    back [src[y, x]] where that pixel is fully opaque (alpha 255), the
    pixel with its alpha raised to 255 where its alpha exceeds 128, and
    the transparent pixel (0, 0, 0, 0) where its alpha is at most 128. *)
Theorem detemplatize_block_scaled (img src : ndarray rgba) (tw : Z) :
  0 < tw -> 2 <= cols img / tw ->
  let b := cols img / tw in
  (forall y x j i, 0 <= y < rows img / b -> 0 <= x < tw ->
     0 <= j < b -> 0 <= i < b ->
     item img (y * b + j) (x * b + i) = item src y x) ->
  exists g, detemplatize img tw = OK g /\
    rows g = rows img / b /\ cols g = tw /\
    forall y x, 0 <= y < rows img / b -> 0 <= x < tw ->
      let p := item src y x in
      (alpha p = 255 -> item g y x = p) /\
      (128 < alpha p -> item g y x = mk_rgba (red p) (green p) (blue p) 255) /\
      (alpha p <= 128 -> item g y x = mk_rgba 0 0 0 0).
Proof.
  intros Htw Hb b Hblocks.
  destruct (detemplatize_ignores_remainder_aux img tw Htw Hb) as (g & Hg & -> & Hr & Hc).
  exists (fast_detemplatize img (rows img / b) tw b).
  split; [exact Hg|]. split; [exact Hr|]. split; [exact Hc|].
  intros y x Hy Hx p.
  assert (Hopaque : 128 < alpha p ->
            item (fast_detemplatize img (rows img / b) tw b) y x
            = mk_rgba (red p) (green p) (blue p) 255).
  { intros Ha.
    destruct (fast_detemplatize_first_hit_spec img (rows img / b) tw b y x)
      as [[Hall _] | (j & i & Hj & Hi & _ & _ & ->)].
    - specialize (Hall 0 0 ltac:(fold b; lia) ltac:(fold b; lia)).
      rewrite (Hblocks y x 0 0) in Hall by (fold b; lia). fold p in Hall. lia.
    - rewrite (Hblocks y x j i) by assumption. reflexivity. }
  split; [|split].
  - intros Ha. rewrite Hopaque by lia. destruct p as [r gr bl a]. cbn in *. now subst a.
  - exact Hopaque.
  - intros Ha.
    destruct (fast_detemplatize_first_hit_spec img (rows img / b) tw b y x)
      as [[_ ->] | (j & i & Hj & Hi & Hgt & _ & _)]; [reflexivity|].
    rewrite (Hblocks y x j i) in Hgt by assumption. fold p in Hgt. lia.
Qed.

Lemma detemplatize_block_scaled_witness :
  exists g, detemplatize pixels_2x2_scaled 2 = OK g /\
    rows g = 2 /\ cols g = 2 /\
    forall y x, 0 <= y < 2 -> 0 <= x < 2 ->
      let p := item pixels_2x2 y x in
      (alpha p = 255 -> item g y x = p) /\
      (128 < alpha p -> item g y x = mk_rgba (red p) (green p) (blue p) 255) /\
      (alpha p <= 128 -> item g y x = mk_rgba 0 0 0 0).
Proof.
  apply (detemplatize_block_scaled pixels_2x2_scaled pixels_2x2 2);
    [lia | vm_compute; discriminate |].
  change (cols pixels_2x2_scaled / 2) with 2.
  intros y x j i _ _ Hj Hi. cbn [pixels_2x2_scaled pixels_2x2 item].
  replace ((y * 2 + j) / 2) with y by (apply (Z.div_unique _ 2 y j); lia).
  replace ((x * 2 + i) / 2) with x by (apply (Z.div_unique _ 2 x i); lia).
  reflexivity.
Defined.

(** ** Names *)

Module NameFacts.

Lemma lower_append (s r : string) : lower (s ++ r) = (lower s ++ lower r)%string.
Proof.
  induction s as [|c s IH]; [reflexivity|]. cbn [append lower]. now rewrite IH.
Qed.

Lemma length_append (s r : string) :
  String.length (s ++ r) = (String.length s + String.length r)%nat.
Proof.
  induction s as [|c s IH]; [reflexivity|]. cbn [append String.length]. now rewrite IH.
Qed.

Lemma name_regex_match_newline (s : string) :
  all_name_chars s = true -> name_regex_match (s ++ NEWLINE) = true.
Proof.
  induction s as [|c s IH]; [reflexivity|]. cbn [all_name_chars append name_regex_match].
  intros H. apply andb_true_iff in H as [Hc Hs]. rewrite Hc. auto.
Qed.

(** A string that ends with a newline is none of the reserved names. *)
Lemma newline_not_reserved (s : string) :
  str_in (s ++ NEWLINE) COMBO_NAMES = false.
Proof.
  assert (H : forall r, all_name_chars r = true \/ r = "@combo" ->
                String.eqb (s ++ NEWLINE) r = false).
  { intros r Hr. apply String.eqb_neq. intros E.
    assert (Hlast : forall t, t = (s ++ NEWLINE)%string ->
                      exists u, t = (u ++ NEWLINE)%string) by (intros; eauto).
    destruct Hr as [Hr | ->].
    - clear Hlast. revert r E Hr. induction s as [|c s IH]; intros r E Hr.
      + subst r. discriminate Hr.
      + destruct r as [|c' r]; [discriminate E|]. inversion E; subst c'.
        cbn [all_name_chars] in Hr. apply andb_true_iff in Hr as [_ Hr].
        exact (IH r H1 Hr).
    - clear Hlast.
      destruct s as [|c0 [|c1 [|c2 [|c3 [|c4 [|c5 [|c6 s]]]]]]]; inversion E. }
  unfold str_in, COMBO_NAMES. cbn [existsb].
  rewrite (H "@combo"), (H "combo"), (H "global"); auto.
Qed.

End NameFacts.
Import NameFacts.

(** X14.  [check_valid_name] returns the name it accepts unchanged.  A
    name of 1 to 39 letters, digits, hyphens and underscores followed by
    one newline is accepted as well: the [$] of the pattern also matches
    before a newline that ends the string. *)
Theorem check_valid_name_trailing_newline (s : string) :
  (forall r, check_valid_name s = OK r -> r = s) /\
  (all_name_chars s = true ->
   (1 <= String.length s <= 39)%nat ->
   check_valid_name (s ++ NEWLINE) = OK (s ++ NEWLINE)%string).
Proof.
  split.
  - intros r H. apply check_valid_name_ok in H. tauto.
  - intros Hc Hl. unfold check_valid_name.
    rewrite (name_regex_match_newline s Hc). cbn [negb].
    rewrite length_append. cbn [NEWLINE String.length].
    replace (Nat.ltb (String.length s + 1) 2 || Nat.ltb 40 (String.length s + 1))%bool
      with false.
    2:{ symmetry. apply orb_false_iff. split; apply Nat.ltb_ge; lia. }
    rewrite lower_append.
    change (lower (String (ascii_of_nat 10) "")) with NEWLINE.
    rewrite newline_not_reserved. reflexivity.
Qed.

Lemma check_valid_name_trailing_newline_witness :
  check_valid_name ("ab" ++ NEWLINE) = OK ("ab" ++ NEWLINE)%string.
Proof.
  apply (proj2 (check_valid_name_trailing_newline "ab")); [reflexivity|].
  cbn. lia.
Defined.

(** ** The registry: saving, looking up, deleting *)

Section RegistryMoreProperties.

Variable stats : Stats.
Variable db_create_template : Template -> result Z.
Variable db_delete_template : Template -> result unit.

(** What a successful [save] went through. *)
Lemma save_success (self self' : TemplateManager) (template : Template)
  (name_ : string) (owner : Z) (hidden_ : bool) :
  all_named self ->
  save stats db_create_template self template name_ owner hidden_ = (OK tt, self') ->
  exists id_ c,
    check_valid_name name_ = OK name_ /\
    str_in (lower name_) COMBO_NAMES = false /\
    check_links template = OK tt /\
    ~ name_taken self name_ owner hidden_ /\
    (forall i t, ~ image_taken_at self template owner hidden_ i t) /\
    db_create_template
      (set_identity template (Some name_) (Some owner) (Some hidden_) (id template))
      = OK id_ /\
    update_combo stats
      (set_list self (list_ self ++ [saved_template template name_ owner hidden_ id_]))
      None None = (OK c, self') /\
    list_ self' = (list_ self ++ [saved_template template name_ owner hidden_ id_])%list.
Proof.
  intros Hn. unfold save.
  destruct (check_valid_name name_) as [s|e] eqn:Ev; [|discriminate].
  destruct (check_valid_name_ok _ _ Ev) as [-> Hc].
  match goal with
  | |- context [check_links ?t] => change (check_links t) with (check_links template)
  end.
  destruct (check_links template) as [[]|e] eqn:El; [|discriminate].
  cbn [owner_id set_identity hidden name].
  destruct (get_template_in_save self name_ owner hidden_ Hn Hc)
    as [(r & -> & _) | [-> Hfree]]; [discriminate|].
  match goal with
  | |- context [check_duplicate_template self ?t] =>
    destruct (check_duplicate_template_spec db_create_template self t owner hidden_ eq_refl eq_refl)
      as [(i & t' & -> & _) | [-> Hnone]]
  end; [discriminate|].
  match goal with
  | |- context [db_create_template ?t] => destruct (db_create_template t) as [id_|e] eqn:Edb
  end; [|discriminate].
  match goal with
  | |- context [update_combo stats ?m None None] =>
    pose proof (update_combo_list stats m None None) as Hl;
      destruct (update_combo stats m None None) as [[c|e] m'] eqn:Eu
  end; [|discriminate].
  intros H. inversion H; subst m'; clear H.
  exists id_, c. cbn [snd list_ set_list] in Hl.
  split; [reflexivity|]. split; [exact Hc|]. split; [reflexivity|].
  split; [exact Hfree|]. split; [exact Hnone|]. split; [exact Edb|].
  split; [exact Eu|exact Hl].
Qed.

Lemma in_scope_saved (t template : Template) (name_ : string) (owner : Z)
  (hidden_ : bool) (id_ : Z) :
  same_scope t (saved_template template name_ owner hidden_ id_) = in_scope t owner hidden_ /\
  same_scope (saved_template template name_ owner hidden_ id_) t = in_scope t owner hidden_.
Proof.
  unfold same_scope, in_scope, saved_template. cbn [hidden owner_id set_identity].
  assert (Hsym : opt_eqb Z.eqb (Some owner) (owner_id t)
                 = opt_eqb Z.eqb (owner_id t) (Some owner)).
  { destruct (owner_id t); cbn; [apply Z.eqb_sym|reflexivity]. }
  rewrite Hsym.
  destruct hidden_, (truthy_bool (hidden t)); cbn; auto.
Qed.

Lemma save_then_get_template_spec (self self' : TemplateManager) (template : Template)
  (name_ : string) (owner : Z) (hidden_ : bool) :
  all_named self ->
  save stats db_create_template self template name_ owner hidden_ = (OK tt, self') ->
  exists id_,
    list_ self' = (list_ self ++ [saved_template template name_ owner hidden_ id_])%list /\
    get_template self' name_ (Some owner) hidden_
      = OK (Some (RList (List.length (list_ self)))) /\
    deref self' (RList (List.length (list_ self)))
      = Some (saved_template template name_ owner hidden_ id_).
Proof.
  intros Hn Hsave.
  destruct (save_success self self' template name_ owner hidden_ Hn Hsave)
    as (id_ & c & _ & Hc & _ & Hfree & _ & _ & _ & Hl).
  exists id_. split; [exact Hl|].
  set (t' := saved_template template name_ owner hidden_ id_) in *.
  assert (Hlast : nth_error (list_ self') (List.length (list_ self)) = Some t').
  { rewrite Hl, nth_error_app2, Nat.sub_diag by lia. reflexivity. }
  split; [|exact Hlast].
  assert (Hn' : all_named self').
  { unfold all_named in *. rewrite Hl. apply Forall_app. split; [exact Hn|].
    constructor; [discriminate|constructor]. }
  assert (Hmatch : get_template_match t' name_ (Some owner) hidden_ = OK true).
  { apply get_template_match_true_iff. exists name_. split; [reflexivity|].
    split; [reflexivity|].
    rewrite <- (proj1 (in_scope_saved t' template name_ owner hidden_ id_)).
    unfold same_scope, t', saved_template. cbn [hidden owner_id set_identity].
    destruct hidden_; cbn; [apply Z.eqb_refl|reflexivity]. }
  unfold get_template. rewrite Hc. cbn [andb].
  destruct (get_template_loop_spec (enumerate (list_ self')) name_ (Some owner) hidden_
              (all_named_enumerate self' Hn'))
    as [(i & t & Hloop & Hin & Hm) | [_ Hall]].
  - rewrite Hloop. apply enumerate_In in Hin.
    destruct (Nat.lt_ge_cases i (List.length (list_ self))) as [Hlt | Hge].
    + exfalso. apply Hfree. rewrite Hl, nth_error_app1 in Hin by exact Hlt.
      apply get_template_match_true_iff in Hm as (n & ? & ? & ?).
      exists i, t, n. auto.
    + assert (Hi : (i < List.length (list_ self'))%nat)
        by (apply nth_error_Some; congruence).
      rewrite Hl, length_app in Hi. cbn in Hi.
      replace i with (List.length (list_ self)) by lia. reflexivity.
  - apply enumerate_In in Hlast. specialize (Hall _ _ Hlast). congruence.
Qed.

(** X15.  Save, then look up.  After a successful [save] the list is the
    former list followed by the template with its name, owner, hidden
    flag and database id set, and [get_template] with that name, owner
    and flag returns that last entry. *)
Theorem save_then_get_template (self self' : TemplateManager) (template : Template)
  (name_ : string) (owner : Z) (hidden_ : bool) :
  all_named self ->
  save stats db_create_template self template name_ owner hidden_ = (OK tt, self') ->
  exists id_,
    list_ self' = (list_ self ++ [saved_template template name_ owner hidden_ id_])%list /\
    get_template self' name_ (Some owner) hidden_
      = OK (Some (RList (List.length (list_ self)))) /\
    deref self' (RList (List.length (list_ self)))
      = Some (saved_template template name_ owner hidden_ id_).
Proof. exact (save_then_get_template_spec self self' template name_ owner hidden_). Qed.

Lemma grid_identical_sym (a b : ndarray Z) : grid_identical a b -> grid_identical b a.
Proof.
  intros (H0 & H1 & H). unfold grid_identical. repeat split; try congruence.
  intros y x Hb. symmetry. apply H. unfold in_bounds, rows, cols in *.
  rewrite H0, H1. exact Hb.
Qed.

(** X16.  A successful [save] keeps the invariants of the registry:
    every listed template has a name, no two templates of one scope
    share a name (without case), and no two templates of one scope share
    both their pixel grid and their origin. *)
Theorem save_keeps_registry_invariants (self self' : TemplateManager)
  (template : Template) (name_ : string) (owner : Z) (hidden_ : bool) :
  all_named self -> names_unique self -> images_unique self ->
  save stats db_create_template self template name_ owner hidden_ = (OK tt, self') ->
  all_named self' /\ names_unique self' /\ images_unique self'.
Proof.
  intros Hn Hnames Himages Hsave.
  destruct (save_success self self' template name_ owner hidden_ Hn Hsave)
    as (id_ & c & _ & _ & _ & Hfree & Hnoimg & _ & _ & Hl).
  set (t' := saved_template template name_ owner hidden_ id_) in *.
  set (n := List.length (list_ self)).
  assert (Hnth : forall i t, nth_error (list_ self') i = Some t ->
                   ((i < n)%nat /\ nth_error (list_ self) i = Some t) \/
                   (i = n /\ t = t')).
  { intros i t Hi. rewrite Hl in Hi.
    destruct (Nat.lt_ge_cases i n) as [Hlt | Hge].
    - left. rewrite nth_error_app1 in Hi by exact Hlt. auto.
    - right. assert (Hlen : (i < List.length (list_ self ++ [t']))%nat)
        by (apply nth_error_Some; congruence).
      rewrite length_app in Hlen. cbn in Hlen.
      assert (i = n) by (unfold n; lia). subst i.
      rewrite nth_error_app2, Nat.sub_diag in Hi by (unfold n; lia).
      cbn in Hi. split; congruence. }
  subst t'.
  split; [|split].
  - unfold all_named in *. rewrite Hl. apply Forall_app. split; [exact Hn|].
    constructor; [discriminate|constructor].
  - intros i j ti tj ni nj Hi Hj Hni Hnj Hlow Hsc.
    destruct (Hnth i ti Hi) as [[Hil Hi'] | [-> ->]];
      destruct (Hnth j tj Hj) as [[Hjl Hj'] | [-> ->]].
    + exact (Hnames i j ti tj ni nj Hi' Hj' Hni Hnj Hlow Hsc).
    + exfalso. apply Hfree. exists i, ti, ni.
      cbn in Hnj. inversion Hnj; subst nj.
      rewrite (proj1 (in_scope_saved ti template name_ owner hidden_ id_)) in Hsc. auto.
    + exfalso. apply Hfree. exists j, tj, nj.
      cbn in Hni. inversion Hni; subst ni.
      rewrite (proj2 (in_scope_saved tj template name_ owner hidden_ id_)) in Hsc. auto.
    + reflexivity.
  - intros i j ti tj Hi Hj Hsc Hg Hx Hy.
    destruct (Hnth i ti Hi) as [[Hil Hi'] | [-> ->]];
      destruct (Hnth j tj Hj) as [[Hjl Hj'] | [-> ->]].
    + exact (Himages i j ti tj Hi' Hj' Hsc Hg Hx Hy).
    + exfalso. apply (Hnoimg i ti).
      rewrite (proj1 (in_scope_saved ti template name_ owner hidden_ id_)) in Hsc.
      unfold image_taken_at. split; [exact Hi'|]. split; [exact Hsc|].
      split; [apply grid_identical_sym; exact Hg|]. cbn in Hx, Hy. auto.
    + exfalso. apply (Hnoimg j tj).
      rewrite (proj2 (in_scope_saved tj template name_ owner hidden_ id_)) in Hsc.
      unfold image_taken_at. split; [exact Hj'|]. split; [exact Hsc|].
      split; [exact Hg|]. cbn in Hx, Hy. auto.
    + reflexivity.
Qed.

(** X17.  Saving before the combo exists is not atomic.  When the
    manager has no combo and the template passes every check and is
    stored, [save] appends it to the list and then fails, because
    [update_combo] is called without a bot id: the failure leaves the
    template in the list. *)
Theorem save_without_combo_appends_then_fails (self : TemplateManager)
  (template : Template) (name_ : string) (owner : Z) (hidden_ : bool) (id_ : Z) :
  all_named self ->
  combo self = None ->
  check_valid_name name_ = OK name_ ->
  check_links template = OK tt ->
  ~ name_taken self name_ owner hidden_ ->
  (forall i t, ~ image_taken_at self template owner hidden_ i t) ->
  db_create_template
    (set_identity template (Some name_) (Some owner) (Some hidden_) (id template))
    = OK id_ ->
  exists e self',
    save stats db_create_template self template name_ owner hidden_ = (Err e, self') /\
    list_ self' = (list_ self ++ [saved_template template name_ owner hidden_ id_])%list /\
    combo self' = None.
Proof.
  intros Hn Hcombo Hv Hlinks Hfree Hnoimg Hdb. unfold save. rewrite Hv.
  destruct (check_valid_name_ok _ _ Hv) as [_ Hc].
  match goal with
  | |- context [check_links ?t] => change (check_links t) with (check_links template)
  end.
  rewrite Hlinks. cbn [owner_id set_identity hidden name].
  destruct (get_template_in_save self name_ owner hidden_ Hn Hc)
    as [(r & _ & Htaken) | [-> _]]; [contradiction|].
  match goal with
  | |- context [check_duplicate_template self ?t] =>
    destruct (check_duplicate_template_spec db_create_template self t owner hidden_
                eq_refl eq_refl)
      as [(i & t' & _ & Himg) | [-> _]]
  end.
  { exfalso. apply (Hnoimg i t'). exact Himg. }
  match goal with
  | |- context [db_create_template ?t] =>
    change (db_create_template t) with
      (db_create_template
         (set_identity template (Some name_) (Some owner) (Some hidden_) (id template)))
  end.
  rewrite Hdb. unfold update_combo. cbn [combo set_list list_].
  rewrite Hcombo.
  destruct (make_combo_image stats _) as [img|e];
    do 2 eexists; (split; [reflexivity|]); split; try reflexivity; exact Hcombo.
Qed.

(** X18.  A successful [delete_template] removes from the list exactly
    the template it returns, found under the name in the requester's
    scope; that template is not the combo, and the requester owns it or
    is a progress admin. *)
Theorem delete_template_success (self self' : TemplateManager) (name_ : string)
  (command_user_id : Z) (hidden_ : bool) (temp : Template) :
  delete_template stats db_delete_template self name_ command_user_id hidden_
    = (OK temp, self') ->
  exists i,
    get_template self name_ (Some command_user_id) hidden_ = OK (Some (RList i)) /\
    nth_error (list_ self) i = Some temp /\
    list_ self' = remove_at (list_ self) i /\
    (List.length (list_ self') + 1 = List.length (list_ self))%nat /\
    is_combo temp = false /\
    (owner_id temp = Some command_user_id \/ In command_user_id (progress_admins self)).
Proof.
  unfold delete_template. intros H.
  destruct (get_template self name_ (Some command_user_id) hidden_)
    as [[r|]|e] eqn:Eg; try discriminate H.
  destruct (deref self r) as [t|] eqn:Ed; try discriminate H.
  destruct (negb (opt_eqb Z.eqb (owner_id t) (Some command_user_id)) &&
            negb (existsb (Z.eqb command_user_id) (progress_admins self)))%bool eqn:Eown;
    try discriminate H.
  destruct (is_combo t) eqn:Ec; try discriminate H.
  destruct (db_delete_template t); try discriminate H.
  destruct r as [|i]; try discriminate H.
  match type of H with
  | context [update_combo stats ?m None None] =>
    pose proof (update_combo_list stats m None None) as Hl;
      destruct (update_combo stats m None None) as [[c|e] m'] eqn:Eu
  end; try discriminate H.
  inversion H; subst; clear H. cbn [snd list_ set_list deref] in *.
  exists i. split; [reflexivity|]. split; [exact Ed|]. split; [exact Hl|].
  assert (Hlen : (i < List.length (list_ self))%nat)
    by (apply nth_error_Some; congruence).
  split.
  { rewrite Hl. unfold remove_at. rewrite length_app, length_firstn, length_skipn. lia. }
  split; [exact Ec|].
  apply andb_false_iff in Eown as [Eo | Ea].
  - left. apply negb_false_iff in Eo. destruct (owner_id temp) as [o|]; [|discriminate].
    cbn in Eo. apply Z.eqb_eq in Eo. now subst o.
  - right. apply negb_false_iff in Ea. apply existsb_exists in Ea as (adm & Hin & Ea).
    apply Z.eqb_eq in Ea. now subst adm.
Qed.

End RegistryMoreProperties.

Lemma manager_combo_invariants :
  all_named manager_combo /\ names_unique manager_combo /\ images_unique manager_combo.
Proof.
  split; [constructor|]. split.
  - intros [|i] j ti tj ni nj Hi; discriminate Hi.
  - intros [|i] j ti tj Hi; discriminate Hi.
Qed.

Lemma save_foo_equation :
  save stats_4x4 db_create_ok manager_combo template_a "foo" 1 false = (OK tt, manager_foo).
Proof. vm_compute. reflexivity. Qed.

Lemma save_then_get_template_witness :
  exists id_,
    list_ manager_foo = [saved_template template_a "foo" 1 false id_] /\
    get_template manager_foo "foo" (Some 1) false = OK (Some (RList 0)) /\
    deref manager_foo (RList 0) = Some (saved_template template_a "foo" 1 false id_).
Proof.
  exact (save_then_get_template stats_4x4 db_create_ok manager_combo manager_foo
           template_a "foo" 1 false (proj1 manager_combo_invariants) save_foo_equation).
Defined.

Lemma save_keeps_registry_invariants_witness :
  all_named manager_foo /\ names_unique manager_foo /\ images_unique manager_foo.
Proof.
  exact (save_keeps_registry_invariants stats_4x4 db_create_ok manager_combo manager_foo
           template_a "foo" 1 false
           (proj1 manager_combo_invariants)
           (proj1 (proj2 manager_combo_invariants))
           (proj2 (proj2 manager_combo_invariants))
           save_foo_equation).
Defined.

Lemma save_without_combo_appends_then_fails_witness :
  exists e self',
    save stats_4x4 db_create_ok manager_empty template_a "foo" 1 false = (Err e, self') /\
    list_ self' = [saved_template template_a "foo" 1 false 7] /\
    combo self' = None.
Proof.
  apply (save_without_combo_appends_then_fails stats_4x4 db_create_ok manager_empty
           template_a "foo" 1 false 7); try reflexivity.
  - constructor.
  - intros (i & t & n & Hi & _). destruct i; discriminate Hi.
  - intros i t (Hi & _). destruct i; discriminate Hi.
Defined.

Lemma delete_template_success_witness :
  exists temp self',
    delete_template stats_4x4 db_delete_ok manager_foo "FOO" 1 false = (OK temp, self') /\
    exists i,
      get_template manager_foo "FOO" (Some 1) false = OK (Some (RList i)) /\
      nth_error (list_ manager_foo) i = Some temp /\
      list_ self' = remove_at (list_ manager_foo) i /\
      (List.length (list_ self') + 1 = List.length (list_ manager_foo))%nat /\
      is_combo temp = false /\
      (owner_id temp = Some 1 \/ In 1 (progress_admins manager_foo)).
Proof.
  do 2 eexists. split; [vm_compute; reflexivity|].
  eapply (delete_template_success stats_4x4 db_delete_ok manager_foo _ "FOO" 1 false).
  vm_compute. reflexivity.
Defined.

(** ** The combo *)

(** X19.  On a snapshot whose board and placemap have one shape, a
    successful [update_combo] stores a combo whose grid has the shape of
    the placemap and leaves the list alone.  In the grid, a cell the
    placemap marks non-placeable is transparent; a placeable cell shows
    the first template of the list that is not transparent there (the
    list is layered in reverse, so earlier entries are drawn on top); a
    placeable cell where every template is transparent is transparent.
    The placeable mask of the combo marks non-transparent cells only and
    [total_placeable] is its count. *)
Theorem update_combo_image (stats : Stats) (self self' : TemplateManager)
  (bot_id : option Z) (cc : option string) (c : Template) :
  same_shape (board_array stats) (placemap_array stats) = true ->
  update_combo stats self bot_id cc = (OK c, self') ->
  let placemap := placemap_array stats in
  combo self' = Some c /\ list_ self' = list_ self /\
  shape0 (palettized_array c) = shape0 placemap /\
  shape1 (palettized_array c) = shape1 placemap /\
  (forall y x, in_bounds placemap y x ->
     (item placemap y x <> 0 -> item (palettized_array c) y x = TRANSPARENT) /\
     (forall earlier t later,
        list_ self = (earlier ++ t :: later)%list ->
        item placemap y x = 0 ->
        opaque_at t y x = true ->
        (forall t', In t' earlier -> opaque_at t' y x = false) ->
        item (palettized_array c) y x = template_cell t y x) /\
     (item placemap y x = 0 ->
      (forall t, In t (list_ self) -> opaque_at t y x = false) ->
      item (palettized_array c) y x = TRANSPARENT)) /\
  exists pm,
    placeable_mask c = Some pm /\ total_placeable c = Some (Np.sum pm) /\
    subset pm (ne_scalar (palettized_array c) 255).
Proof.
  intros Hs H placemap.
  pose proof (update_combo_list stats self bot_id cc) as Hl.
  rewrite H in Hl. cbn [snd] in Hl.
  destruct (layer_full_image stats (rev (list_ self)) None true Hs)
    as (img & _ & _ & _ & _ & Himg & _ & H0 & H1 & Hcell).
  fold placemap in H0, H1, Hcell.
  unfold update_combo, make_combo_image in H. rewrite Himg in H. cbn [bind snd] in H.
  match type of H with
  | context [match ?cr with OK _ => _ | Err _ => _ end] =>
    destruct cr as [c1|e] eqn:Ecr; [|discriminate H]
  end.
  assert (Hc1 : palettized_array c1 = img).
  { destruct (combo self) as [c0|].
    - inversion Ecr. destruct (truthy_str cc); reflexivity.
    - destruct bot_id as [b|]; [|discriminate Ecr].
      destruct cc as [s|]; [|discriminate Ecr].
      destruct (_ && _)%bool; [|discriminate Ecr]. inversion Ecr. reflexivity. }
  unfold setmask in H. rewrite Hc1 in H.
  replace (same_shape img (eq_scalar (placemap_array stats) 255)) with true in H
    by (symmetry; apply same_shape_true; simpl; auto).
  unfold make_placeable_mask in H.
  match type of H with
  | context [crop_array_to_template ?t0 ?a] =>
    destruct (crop_array_to_template t0 a) as [cm|e]; [|discriminate H]
  end.
  cbn [bind] in H. unfold setmask in H.
  match type of H with
  | context [if ?b then _ else _] => destruct b eqn:Eshape; [|discriminate H]
  end.
  cbn [bind] in H. inversion H; subst c self'; clear H.
  cbn [combo set_combo palettized_array set_placeable set_palettized_array
       placeable_mask total_placeable shape0 shape1].
  split; [reflexivity|]. split; [exact Hl|]. split; [exact H0|]. split; [exact H1|].
  split.
  - intros y x Hb. specialize (Hcell y x Hb). cbn [andb] in Hcell.
    cbn [item eq_scalar map_items]. rewrite Hcell. fold placemap.
    split; [|split].
    + intros Hne. destruct (item placemap y x =? 255); [reflexivity|].
      replace (item placemap y x =? 0) with false by (symmetry; now apply Z.eqb_neq).
      reflexivity.
    + intros earlier t later Hlist Hp Ht Hearlier. rewrite Hp. cbn [Z.eqb negb].
      rewrite Hlist, rev_app_distr. cbn [rev]. rewrite <- app_assoc. cbn [app].
      apply composite_cell_last_opaque; [exact Ht|].
      intros t' Hin. apply Hearlier. now apply in_rev.
    + intros Hp Hall. rewrite Hp. cbn [Z.eqb negb].
      apply composite_cell_all_transparent.
      intros t Hin. apply Hall. now apply in_rev.
  - eexists. split; [reflexivity|]. split; [reflexivity|].
    unfold subset. cbn [shape0 shape1 item ne_scalar eq_scalar map_items].
    repeat split. intros y x _.
    destruct (item cm y x =? 255); [discriminate|tauto].
Qed.

Lemma update_combo_image_witness :
  exists c self',
    update_combo stats_4x4 manager_foo None None = (OK c, self') /\
    combo self' = Some c /\ list_ self' = list_ manager_foo /\
    to_rows (palettized_array c)
      = [[1; 2; 255; 255]; [3; 4; 255; 255]; [255; 255; 255; 255]; [255; 255; 255; 255]].
Proof.
  destruct (update_combo stats_4x4 manager_foo None None) as [[c|e] m] eqn:E;
    [|vm_compute in E; discriminate E].
  exists c, m. split; [reflexivity|].
  destruct (update_combo_image stats_4x4 manager_foo m None None c eq_refl E)
    as (Hc & Hl & _).
  split; [exact Hc|]. split; [exact Hl|].
  vm_compute in E. inversion E. reflexivity.
Defined.

Module ComboFacts.

(** [crop_array_to_template] reads the origin, the stored dimensions and
    the shape of the grid of the template, nothing else. *)
Lemma crop_array_to_template_dims (t t' : Template) (a : ndarray Z) :
  ox t = ox t' -> oy t = oy t' -> width t = width t' -> height t = height t' ->
  shape0 (palettized_array t) = shape0 (palettized_array t') ->
  shape1 (palettized_array t) = shape1 (palettized_array t') ->
  crop_array_to_template t a = crop_array_to_template t' a.
Proof.
  intros Hx Hy Hw Hh H0 H1. unfold crop_array_to_template, full_like.
  rewrite Hx, Hy, Hw, Hh, H0, H1. reflexivity.
Qed.

(** The combo a successful [update_combo] stores can be refreshed. *)
Lemma update_combo_ready (stats : Stats) (self self' : TemplateManager)
  (bot_id : option Z) (cc : option string) (c : Template) :
  update_combo stats self bot_id cc = (OK c, self') ->
  combo self' = Some c /\ combo_ready stats c.
Proof.
  unfold update_combo. intros H.
  destruct (make_combo_image stats self) as [img|e]; [|discriminate H].
  match type of H with
  | context [match ?cr with OK _ => _ | Err _ => _ end] =>
    destruct cr as [c1|e] eqn:Ecr; [|discriminate H]
  end.
  unfold setmask in H.
  destruct (same_shape (palettized_array c1) (eq_scalar (placemap_array stats) 255))
    eqn:Es; [|discriminate H].
  apply same_shape_true in Es as [Es0 Es1]. cbn [eq_scalar map_items shape0 shape1] in *.
  unfold make_placeable_mask in H.
  match type of H with
  | context [crop_array_to_template ?t0 ?a] =>
    destruct (crop_array_to_template t0 a) as [cm|e] eqn:Ecrop; [|discriminate H]
  end.
  cbn [bind] in H. unfold setmask in H.
  match type of H with
  | context [if ?b then _ else _] => destruct b; [|discriminate H]
  end.
  cbn [bind] in H. inversion H; subst c self'; clear H.
  split; [reflexivity|].
  intros arr H0 H1. exists cm. rewrite <- Ecrop.
  apply crop_array_to_template_dims; cbn; congruence.
Qed.

(** A manager whose combo can be refreshed, on a snapshot whose board
    and placemap have one shape: [update_combo] succeeds. *)
Lemma update_combo_succeeds (stats : Stats) (self : TemplateManager) (c0 : Template)
  (bot_id : option Z) (cc : option string) :
  same_shape (board_array stats) (placemap_array stats) = true ->
  combo self = Some c0 -> combo_ready stats c0 ->
  exists c, update_combo stats self bot_id cc = (OK c, set_combo self c).
Proof.
  intros Hs Hc Hready.
  destruct (layer_full_image stats (rev (list_ self)) None true Hs)
    as (img & _ & _ & _ & _ & Himg & _ & H0 & H1 & _).
  unfold update_combo, make_combo_image. rewrite Himg, Hc. cbn [bind snd].
  set (c1 := if truthy_str cc then _ else _).
  assert (Hpal : palettized_array c1 = img) by (unfold c1; destruct (truthy_str cc); reflexivity).
  assert (Hdims : ox c1 = ox c0 /\ oy c1 = oy c0 /\ width c1 = width c0 /\
                  height c1 = height c0)
    by (unfold c1; destruct (truthy_str cc); repeat split; reflexivity).
  destruct Hdims as (Hx & Hy & Hw & Hh).
  unfold setmask. rewrite Hpal.
  replace (same_shape img (eq_scalar (placemap_array stats) 255)) with true
    by (symmetry; apply same_shape_true; simpl; auto).
  unfold make_placeable_mask.
  match goal with
  | |- context [crop_array_to_template ?t0 ?a] =>
    destruct (Hready (palettized_array t0)) as (cm & Hcm);
      [cbn; exact H0 | cbn; exact H1 |];
      assert (Ecrop : crop_array_to_template t0 a = OK cm)
  end.
  { rewrite <- Hcm. apply crop_array_to_template_dims; cbn; congruence. }
  rewrite Ecrop. cbn [bind]. unfold setmask.
  assert (Hcmshape : shape0 cm = shape0 img /\ shape1 cm = shape1 img).
  { unfold crop_array_to_template, setslice in Ecrop.
    match type of Ecrop with
    | (if ?b then _ else _) = _ => destruct b; [|discriminate Ecrop]
    end.
    inversion Ecrop. cbn. split; reflexivity. }
  destruct Hcmshape as [Hm0 Hm1].
  match goal with
  | |- context [if ?b then _ else _] => replace b with true
  end.
  - cbn [bind]. eexists. reflexivity.
  - symmetry. apply same_shape_true. cbn. split; congruence.
Qed.

Lemma remove_at_last {A} (l : list A) (a : A) :
  remove_at (l ++ [a]) (List.length l) = l.
Proof.
  unfold remove_at.
  rewrite firstn_app, Nat.sub_diag, firstn_all. cbn [firstn].
  rewrite skipn_all2 by (rewrite length_app; cbn; lia).
  now rewrite !app_nil_r.
Qed.

End ComboFacts.
Import ComboFacts.

Section SaveDelete.

Variable stats : Stats.
Variable db_create_template : Template -> result Z.
Variable db_delete_template : Template -> result unit.

(** X20.  Save, then delete.  On a snapshot whose board and placemap
    have one shape, after a successful [save] of a template (not the
    combo), [delete_template] called by the owner with the same name and
    flag, the database accepting, succeeds: it returns the saved entry
    and the list is the list before the save. *)
Theorem save_then_delete_restores_list (self self1 : TemplateManager)
  (template : Template) (name_ : string) (owner : Z) (hidden_ : bool) :
  all_named self ->
  same_shape (board_array stats) (placemap_array stats) = true ->
  is_combo template = false ->
  (forall t, db_delete_template t = OK tt) ->
  save stats db_create_template self template name_ owner hidden_ = (OK tt, self1) ->
  exists id_ self2,
    delete_template stats db_delete_template self1 name_ owner hidden_
      = (OK (saved_template template name_ owner hidden_ id_), self2) /\
    list_ self2 = list_ self.
Proof.
  intros Hn Hs Hnc Hdb Hsave.
  destruct (save_then_get_template_spec stats db_create_template self self1 template
              name_ owner hidden_ Hn Hsave) as (id_ & Hl & Hget & Hderef).
  destruct (save_success stats db_create_template self self1 template name_ owner
              hidden_ Hn Hsave) as (id' & c & _ & _ & _ & _ & _ & _ & Hu & Hl').
  assert (id' = id_).
  { rewrite Hl in Hl'. apply app_inv_head in Hl'. inversion Hl'. reflexivity. }
  subst id'.
  destruct (update_combo_ready stats _ self1 None None c Hu) as [Hcombo Hready].
  exists id_. unfold delete_template. rewrite Hget, Hderef.
  cbn [saved_template owner_id set_identity is_combo opt_eqb].
  rewrite Z.eqb_refl, Hnc, Hdb. cbn [negb andb].
  destruct (update_combo_succeeds stats
              (set_list self1 (remove_at (list_ self1) (List.length (list_ self))))
              c None None Hs Hcombo Hready) as (c2 & ->).
  eexists. split; [reflexivity|].
  cbn [list_ set_combo set_list]. rewrite Hl. apply remove_at_last.
Qed.

End SaveDelete.

Lemma save_then_delete_restores_list_witness :
  exists id_ self2,
    delete_template stats_4x4 db_delete_ok manager_foo "foo" 1 false
      = (OK (saved_template template_a "foo" 1 false id_), self2) /\
    list_ self2 = list_ manager_combo.
Proof.
  apply (save_then_delete_restores_list stats_4x4 db_create_ok db_delete_ok
           manager_combo manager_foo template_a "foo" 1 false
           (proj1 manager_combo_invariants) eq_refl eq_refl (fun _ => eq_refl)
           save_foo_equation).
Defined.

(** ** The compositor: order and bounding box *)

Module LayerOrderFacts.

Lemma composite_cell_swap (a b : Template) (rest : list Template) (below y x : Z) :
  opaque_at a y x && opaque_at b y x = false ->
  composite_cell (a :: b :: rest) below y x = composite_cell (b :: a :: rest) below y x.
Proof.
  intros H. cbn [composite_cell].
  destruct (opaque_at a y x), (opaque_at b y x); try reflexivity. discriminate H.
Qed.

(** One iteration of the loop of [layer] on a canvas-shaped background:
    the bounding box it leaves. *)
Lemma layer_step_bounds (stats : Stats) (bg : ndarray Z) (mnx mny mxx mxy : Z)
  (t : Template) :
  same_shape (board_array stats) bg = true ->
  template_dims_ok t ->
  exists bg' mnx' mny' mxx' mxy',
    layer_step stats (bg, mnx, mny, mxx, mxy) t = OK (bg', mnx', mny', mxx', mxy') /\
    mnx' <= mnx /\ mny' <= mny /\ mxx <= mxx' /\ mxy <= mxy' /\
    (0 <= mnx -> 0 <= mnx') /\ (0 <= mny -> 0 <= mny') /\
    forall y x, in_bounds bg y x -> opaque_at t y x = true ->
      mnx' <= x < mxx' /\ mny' <= y < mxy'.
Proof.
  intros Hs [Hw Hh]. apply same_shape_true in Hs as Hs'. destruct Hs' as [Hs0 Hs1].
  destruct (layer_step_cell stats bg mnx mny mxx mxy t Hs)
    as (bg' & a & b & c & d & Hstep & _).
  exists bg', a, b, c, d. split; [exact Hstep|].
  unfold layer_step in Hstep.
  destruct (crop_to_canvas_cases stats t)
    as [[[msg Hm] Hout] | (arr & Harr & Hy0 & Hx0 & Hra & Hca & _)].
  - rewrite Hm in Hstep. inversion Hstep; subst a b c d bg'.
    split; [lia|]. split; [lia|]. split; [lia|]. split; [lia|]. split; [auto|]. split; [auto|].
    intros y x [Hy Hx] Hop. exfalso.
    unfold opaque_at, template_cell in Hop.
    replace (in_boundsb (palettized_array t) (y - oy t) (x - ox t)) with false in Hop.
    + discriminate Hop.
    + symmetry. apply in_boundsb_false. unfold in_bounds, rows, cols in *. lia.
  - rewrite Harr in Hstep. destruct (paste_masked _ _ _ _ _) as [bg2|e]; [|discriminate Hstep].
    cbn [bind] in Hstep. inversion Hstep; subst a b c d.
    split; [lia|]. split; [lia|]. split; [lia|]. split; [lia|]. split; [lia|]. split; [lia|].
    intros y x [Hy Hx] Hop.
    unfold opaque_at, template_cell in Hop.
    destruct (in_boundsb (palettized_array t) (y - oy t) (x - ox t)) eqn:Eb;
      [|discriminate Hop].
    apply in_boundsb_iff in Eb. destruct Eb as [Eby Ebx].
    rewrite Hw, Hh. lia.
Qed.

(** The loop of [layer]: the bounding box contains every canvas cell
    where a template is not transparent. *)
Lemma layer_loop_bounds (stats : Stats) (ts : list Template) :
  forall (bg : ndarray Z) (mnx mny mxx mxy : Z),
  same_shape (board_array stats) bg = true ->
  Forall template_dims_ok ts ->
  exists bg' mnx' mny' mxx' mxy',
    layer_loop stats ts (bg, mnx, mny, mxx, mxy) = OK (bg', mnx', mny', mxx', mxy') /\
    mnx' <= mnx /\ mny' <= mny /\ mxx <= mxx' /\ mxy <= mxy' /\
    (0 <= mnx -> 0 <= mnx') /\ (0 <= mny -> 0 <= mny') /\
    forall t y x, In t ts -> in_bounds bg y x -> opaque_at t y x = true ->
      mnx' <= x < mxx' /\ mny' <= y < mxy'.
Proof.
  induction ts as [|t ts IH]; intros bg mnx mny mxx mxy Hs Hd.
  - exists bg, mnx, mny, mxx, mxy. split; [reflexivity|].
    split; [lia|]. split; [lia|]. split; [lia|]. split; [lia|]. split; [auto|]. split; [auto|]. intros t y x [].
  - inversion Hd as [|? ? Hdt Hdts]; subst. cbn [layer_loop].
    destruct (layer_step_bounds stats bg mnx mny mxx mxy t Hs Hdt)
      as (bg1 & a & b & c & d & Hstep & Ha & Hb & Hc & Hd' & Ha0 & Hb0 & Hin).
    pose proof (layer_step_cell stats bg mnx mny mxx mxy t Hs)
      as (bg1' & a' & b' & c' & d' & Hstep' & H0 & H1 & _).
    rewrite Hstep in Hstep'. inversion Hstep'; subst bg1' a' b' c' d'; clear Hstep'.
    rewrite Hstep. cbn [bind].
    assert (Hs1 : same_shape (board_array stats) bg1 = true).
    { apply same_shape_true in Hs as [? ?]. apply same_shape_true. split; congruence. }
    destruct (IH bg1 a b c d Hs1 Hdts)
      as (bg2 & a2 & b2 & c2 & d2 & Hloop & Ha2 & Hb2 & Hc2 & Hd2 & Ha20 & Hb20 & Hin2).
    exists bg2, a2, b2, c2, d2. split; [exact Hloop|].
    split; [lia|]. split; [lia|]. split; [lia|]. split; [lia|]. split; [auto|]. split; [auto|].
    intros u y x [<- | Hu] Hb' Hop.
    + specialize (Hin y x Hb' Hop). lia.
    + apply (Hin2 u y x Hu); [|exact Hop].
      unfold in_bounds, rows, cols in *. rewrite H0, H1. exact Hb'.
Qed.

Lemma composite_cell_opaque_source (ts : list Template) (below y x : Z) :
  composite_cell ts below y x <> below ->
  exists t, In t ts /\ opaque_at t y x = true.
Proof.
  revert below. induction ts as [|t ts IH]; intros below H; [now elim H|].
  cbn [composite_cell] in H. destruct (opaque_at t y x) eqn:E.
  - exists t. split; [now left|exact E].
  - destruct (IH below H) as (u & Hu & Hop). exists u. split; [now right|exact Hop].
Qed.

End LayerOrderFacts.
Import LayerOrderFacts.

(** X21.  Two neighbours of the list whose non-transparent footprints
    do not meet on the canvas can be swapped: on a snapshot whose board
    and placemap have one shape, [layer] returns images with the same
    cells for both orders. *)
Theorem layer_disjoint_swap (stats : Stats) (before after : list Template)
  (a b : Template) (placemap_arg : option (ndarray Z)) (crop_to_placemap : bool) :
  let placemap := match placemap_arg with
                  | None => placemap_array stats
                  | Some p => p
                  end in
  same_shape (board_array stats) placemap = true ->
  (forall y x, in_bounds placemap y x ->
     opaque_at a y x = true -> opaque_at b y x = true -> False) ->
  exists img1 img2,
    layer stats (before ++ a :: b :: after) placemap_arg crop_to_placemap false
      = OK (0, 0, img1) /\
    layer stats (before ++ b :: a :: after) placemap_arg crop_to_placemap false
      = OK (0, 0, img2) /\
    shape0 img1 = shape0 img2 /\ shape1 img1 = shape1 img2 /\
    forall y x, in_bounds placemap y x -> item img1 y x = item img2 y x.
Proof.
  intros placemap Hs Hdisj.
  destruct (layer_full_image stats (before ++ a :: b :: after) placemap_arg
              crop_to_placemap Hs)
    as (img1 & _ & _ & _ & _ & H1 & _ & H10 & H11 & Hc1).
  destruct (layer_full_image stats (before ++ b :: a :: after) placemap_arg
              crop_to_placemap Hs)
    as (img2 & _ & _ & _ & _ & H2 & _ & H20 & H21 & Hc2).
  fold placemap in H10, H11, Hc1, H20, H21, Hc2.
  exists img1, img2. split; [exact H1|]. split; [exact H2|].
  split; [congruence|]. split; [congruence|].
  intros y x Hb. rewrite (Hc1 y x Hb), (Hc2 y x Hb).
  destruct (crop_to_placemap && negb (item placemap y x =? 0)); [reflexivity|].
  rewrite !composite_cell_app. apply composite_cell_swap.
  destruct (opaque_at a y x) eqn:Ea, (opaque_at b y x) eqn:Eb; try reflexivity.
  exfalso. exact (Hdisj y x Hb Ea Eb).
Qed.

Lemma layer_disjoint_swap_witness :
  exists img1 img2,
    layer stats_demo [template_a; template_base64] None true false = OK (0, 0, img1) /\
    layer stats_demo [template_base64; template_a] None true false = OK (0, 0, img2) /\
    shape0 img1 = shape0 img2 /\ shape1 img1 = shape1 img2 /\
    forall y x, in_bounds (placemap_array stats_demo) y x -> item img1 y x = item img2 y x.
Proof.
  apply (layer_disjoint_swap stats_demo [] [] template_a template_base64 None true eq_refl).
  intros y x [Hy Hx] Ha Hb.
  unfold in_bounds, rows, cols in Hy, Hx. cbn in Hy, Hx.
  assert (Hcases : (y = 0 \/ y = 1 \/ y = 2 \/ y = 3) /\ (x = 0 \/ x = 1 \/ x = 2 \/ x = 3))
    by lia.
  destruct Hcases as [[-> | [-> | [-> | ->]]] [-> | [-> | [-> | ->]]]];
    vm_compute in Ha, Hb; congruence.
Defined.

(** X22.  Cropping to the templates cuts no drawn pixel.  On a snapshot
    whose board and placemap have one shape, and for templates whose
    stored dimensions are those of their grids, the image [layer]
    returns with [crop_to_template] is the slice of the full image at
    the offset returned, and every non-transparent cell of the full
    image lies in that slice. *)
Theorem layer_crop_keeps_drawn_cells (stats : Stats) (ts : list Template)
  (placemap_arg : option (ndarray Z)) (crop_to_placemap : bool) :
  let placemap := match placemap_arg with
                  | None => placemap_array stats
                  | Some p => p
                  end in
  same_shape (board_array stats) placemap = true ->
  Forall template_dims_ok ts ->
  exists img crop off_x off_y,
    layer stats ts placemap_arg crop_to_placemap false = OK (0, 0, img) /\
    layer stats ts placemap_arg crop_to_placemap true = OK (off_x, off_y, crop) /\
    0 <= off_x /\ 0 <= off_y /\
    forall y x, in_bounds placemap y x -> item img y x <> TRANSPARENT ->
      in_bounds crop (y - off_y) (x - off_x) /\
      item crop (y - off_y) (x - off_x) = item img y x.
Proof.
  intros placemap Hs Hd.
  destruct (layer_full_image stats ts placemap_arg crop_to_placemap Hs)
    as (img & _ & _ & _ & _ & Hfull & _ & H0 & H1 & Hcell).
  fold placemap in H0, H1, Hcell.
  (* the bounding box of the loop *)
  destruct (layer_loop_bounds stats ts (full_like placemap 255)
              (cols (full_like placemap 255)) (rows (full_like placemap 255)) 0 0 Hs Hd)
    as (bg & mnx & mny & mxx & mxy & Hloop & Ha & Hb & _ & _ & Ha0 & Hb0 & Hin).
  assert (Hcrop : layer stats ts placemap_arg crop_to_placemap true
                  = OK (mnx, mny, getslice img (Some mny) (Some mxy) (Some mnx) (Some mxx))).
  { unfold layer in Hfull |- *. fold placemap in Hfull |- *.
    rewrite Hloop in Hfull |- *. cbn [bind] in Hfull |- *.
    destruct (if crop_to_placemap then _ else _) as [bg3|e]; [|discriminate Hfull].
    cbn [bind] in Hfull |- *. inversion Hfull. reflexivity. }
  exists img, (getslice img (Some mny) (Some mxy) (Some mnx) (Some mxx)), mnx, mny.
  split; [exact Hfull|]. split; [exact Hcrop|].
  unfold rows, cols in Ha, Hb, Ha0, Hb0, Hin. cbn [full_like full shape0 shape1] in *.
  assert (Hmx : 0 <= mnx <= Z.of_nat (shape1 placemap)) by (split; [apply Ha0|]; lia).
  assert (Hmy : 0 <= mny <= Z.of_nat (shape0 placemap)) by (split; [apply Hb0|]; lia).
  split; [lia|]. split; [lia|].
  intros y x Hyx Hne. pose proof Hyx as [Hy Hx]. unfold rows, cols in Hy, Hx.
  rewrite (Hcell y x Hyx) in Hne.
  assert (Hop : exists t, In t ts /\ opaque_at t y x = true).
  { destruct (crop_to_placemap && negb (item placemap y x =? 0)); [now elim Hne|].
    now apply composite_cell_opaque_source in Hne. }
  destruct Hop as (t & Ht & Hop).
  destruct (Hin t y x Ht Hyx Hop) as [Hbx Hby].
  unfold in_bounds, getslice, rows, cols. cbn [shape0 shape1 item].
  rewrite H0, H1.
  rewrite !(slice_bound_in _ _ mny), !(slice_bound_in _ _ mnx) by (unfold rows, cols; lia).
  unfold slice_bound, rows, cols. split.
  - case_ltb; lia.
  - f_equal; lia.
Qed.

Lemma layer_crop_keeps_drawn_cells_witness :
  exists img crop off_x off_y,
    layer stats_demo [template_low; template_high] None true false = OK (0, 0, img) /\
    layer stats_demo [template_low; template_high] None true true
      = OK (off_x, off_y, crop) /\
    0 <= off_x /\ 0 <= off_y /\
    forall y x, in_bounds (placemap_array stats_demo) y x ->
      item img y x <> TRANSPARENT ->
      in_bounds crop (y - off_y) (x - off_x) /\
      item crop (y - off_y) (x - off_x) = item img y x.
Proof.
  apply (layer_crop_keeps_drawn_cells stats_demo [template_low; template_high] None true
           eq_refl).
  repeat constructor.
Defined.

(** ** The registry: the combo is protected, edits keep names unique *)

Module UpdateFacts.

Lemma nth_error_replace_at {A} (l : list A) (i j : nat) (a : A) :
  (i < List.length l)%nat ->
  nth_error (replace_at l i a) j = if Nat.eqb j i then Some a else nth_error l j.
Proof.
  intros Hi. unfold replace_at.
  destruct (Nat.eqb_spec j i) as [->|Hne].
  - rewrite nth_error_app2; rewrite length_firstn; [|lia].
    replace (i - Nat.min i (List.length l))%nat with 0%nat by lia. reflexivity.
  - destruct (Nat.lt_ge_cases j i) as [Hlt | Hge].
    + rewrite nth_error_app1 by (rewrite length_firstn; lia).
      rewrite nth_error_firstn.
      destruct (Nat.ltb_spec j i); [reflexivity|lia].
    + rewrite nth_error_app2 by (rewrite length_firstn; lia).
      rewrite length_firstn.
      replace (j - Nat.min i (List.length l))%nat with (S (j - S i)) by lia.
      cbn [nth_error]. rewrite nth_error_skipn. f_equal. lia.
Qed.

End UpdateFacts.
Import UpdateFacts.

Section UpdateMore.

Variable stats : Stats.
Variable get_template_from_url : string -> result Template.
Variable db_update_template :
  Template -> option string -> option string -> option Z -> result (option Z).
Variable db_delete_template : Template -> result unit.

(** X23.  The combo is protected.  When the manager has a combo, a name
    that resolves to it ("@combo", "combo" or "global", in any case)
    can be neither edited nor deleted: [update_template] and
    [delete_template] fail, for every requester, and leave the manager
    as it was. *)
Theorem combo_is_protected (self : TemplateManager) (c : Template) (name_ : string)
  (command_user_id : Z) (new_url new_name : option string) (new_owner : option Z)
  (hidden_ : bool) :
  combo self = Some c -> is_combo c = true ->
  str_in (lower name_) COMBO_NAMES = true ->
  (exists msg,
     update_template stats get_template_from_url db_update_template self name_
       command_user_id new_url new_name new_owner = (Err (ValueError msg), self)) /\
  (exists msg,
     delete_template stats db_delete_template self name_ command_user_id hidden_
       = (Err (ValueError msg), self)).
Proof.
  intros Hc Hic Hname.
  unfold update_template, delete_template, get_template.
  rewrite Hname, Hc. cbn [andb deref]. rewrite Hc, Hic.
  destruct (negb (opt_eqb Z.eqb (owner_id c) (Some command_user_id)) &&
            negb (existsb (Z.eqb command_user_id) (progress_admins self)))%bool;
    split; eexists; reflexivity.
Qed.

Lemma update_template_source_name (self : TemplateManager) (old_ref : tref)
  (old_temp nt : Template) (new_url : option string) :
  update_template_source get_template_from_url self old_ref old_temp new_url = OK nt ->
  name nt = name old_temp.
Proof.
  unfold update_template_source. destruct (truthy_str new_url); [|congruence].
  destruct (get_template_from_url _) as [t0|e]; [|discriminate]. cbn [bind].
  destruct (check_links t0); [|discriminate]. cbn [bind].
  destruct (opt_eqb Z.eqb (total_placeable t0) (Some 0)); [discriminate|].
  destruct (check_duplicate_template self t0) as [j|].
  - destruct (tref_eqb (RList j) old_ref); [|discriminate].
    destruct (_ && _)%bool; [discriminate|]. intros H. inversion H. reflexivity.
  - intros H. inversion H. reflexivity.
Qed.

Lemma update_template_name_inv (self : TemplateManager) (old_ref : tref)
  (nt0 nt : Template) (new_name : option string) :
  update_template_name self old_ref nt0 new_name = OK nt ->
  name nt = name nt0 \/
  exists n, name nt = Some n /\ str_in (lower n) COMBO_NAMES = false /\
    (get_template self n None false = OK None \/
     get_template self n None false = OK (Some old_ref)).
Proof.
  unfold update_template_name. destruct (truthy_str new_name); [|left; congruence].
  destruct (check_valid_name _) as [n|e] eqn:Ev; [|discriminate]. cbn [bind].
  apply check_valid_name_ok in Ev as [-> Hc].
  destruct (get_template self _ None false) as [[r|]|e] eqn:Eg; [| |discriminate];
    cbn [bind].
  - destruct (tref_eqb r old_ref) eqn:Er; cbn [negb]; [|discriminate].
    intros H. inversion H. right. eexists. split; [reflexivity|]. split; [exact Hc|].
    right. rewrite Eg. f_equal. f_equal.
    destruct r as [|a], old_ref as [|b]; try discriminate Er; [reflexivity|].
    cbn in Er. apply Nat.eqb_eq in Er. now subst.
  - intros H. inversion H. right. eexists. split; [reflexivity|]. split; [exact Hc|].
    left. exact Eg.
Qed.

(** The public lookup of a name ([get_template] with [hidden=False]). *)
Lemma get_template_public (self : TemplateManager) (n : string) (owner_id_ : option Z)
  (i : nat) :
  get_template self n owner_id_ false = OK (Some (RList i)) ->
  exists t m, nth_error (list_ self) i = Some t /\ name t = Some m /\
              lower m = lower n /\ truthy_bool (hidden t) = false.
Proof.
  unfold get_template. destruct (_ && _)%bool; [discriminate|]. intros H.
  apply get_template_loop_found in H as (j & t & Hj & Hin & Hm).
  inversion Hj; subst j. apply enumerate_In in Hin.
  unfold get_template_match in Hm. destruct (name t) as [m|] eqn:Em; [|discriminate].
  destruct (String.eqb_spec (lower m) (lower n)); [|discriminate].
  inversion Hm as [Hneg]. apply negb_true_iff in Hneg. exists t, m. auto.
Qed.

(** When the public lookup finds nothing, or finds the entry [i], no
    other public template has the name. *)
Lemma get_template_public_first (self : TemplateManager) (n : string)
  (owner_id_ : option Z) (i k : nat) (tk : Template) (nk : string) :
  all_named self ->
  str_in (lower n) COMBO_NAMES = false ->
  get_template self n owner_id_ false = OK None \/
  get_template self n owner_id_ false = OK (Some (RList i)) ->
  nth_error (list_ self) k = Some tk -> name tk = Some nk -> lower nk = lower n ->
  truthy_bool (hidden tk) = false ->
  get_template self n owner_id_ false = OK (Some (RList i)) /\
  exists ti ni, nth_error (list_ self) i = Some ti /\ name ti = Some ni /\
                lower ni = lower n /\ truthy_bool (hidden ti) = false.
Proof.
  intros Hn Hc Hget Hk Hnk Hlow Hpub.
  assert (Hmatch : get_template_match tk n owner_id_ false = OK true).
  { unfold get_template_match. rewrite Hnk, Hlow, String.eqb_refl, Hpub. reflexivity. }
  destruct Hget as [Hnone | Hsome].
  - exfalso. unfold get_template in Hnone. rewrite Hc in Hnone. cbn [andb] in Hnone.
    destruct (get_template_loop_spec (enumerate (list_ self)) n owner_id_ false
                (all_named_enumerate self Hn))
      as [(j & t & Hloop & _) | [_ Hall]]; [congruence|].
    apply enumerate_In in Hk. specialize (Hall k tk Hk). congruence.
  - split; [exact Hsome|].
    destruct (get_template_public self n owner_id_ i Hsome) as (t & m & ? & ? & ? & ?).
    exists t, m. auto.
Qed.

(** X24.  A successful [update_template] keeps two invariants of the
    registry: every listed template has a name, and no two templates of
    one scope share a name (without case).  The list keeps its length:
    the entry edited is replaced, nothing is added or removed. *)
Theorem update_template_keeps_names_unique (self self' : TemplateManager)
  (current_name : string) (command_user_id : Z) (new_url new_name : option string)
  (new_owner : option Z) (old_temp new_temp : Template) :
  all_named self -> names_unique self ->
  update_template stats get_template_from_url db_update_template self current_name
    command_user_id new_url new_name new_owner = (OK (old_temp, new_temp), self') ->
  all_named self' /\ names_unique self' /\
  List.length (list_ self') = List.length (list_ self).
Proof.
  intros Hn Hu. unfold update_template. intros H.
  destruct (get_template self current_name (Some command_user_id) false)
    as [[old_ref|]|e] eqn:Eg; try discriminate H.
  destruct (deref self old_ref) as [old|] eqn:Ed; try discriminate H.
  destruct (_ && _)%bool; try discriminate H.
  destruct (is_combo old) eqn:Ec; try discriminate H.
  destruct (update_template_source get_template_from_url self old_ref old new_url)
    as [nt0|e] eqn:Esrc; cbn [bind] in H; try discriminate H.
  destruct (update_template_name self old_ref nt0 new_name) as [nt|e] eqn:Enm;
    try discriminate H.
  destruct (db_update_template _ _ _ _) as [temp_id|e]; [|destruct e; discriminate H].
  destruct (match temp_id with Some n => n =? 0 | None => true end); try discriminate H.
  destruct old_ref as [|i]; try discriminate H.
  match type of H with
  | context [update_combo stats ?m None None] =>
    pose proof (update_combo_list stats m None None) as Hl;
      destruct (update_combo stats m None None) as [[c|e] m'] eqn:Eu
  end; try discriminate H.
  inversion H; subst old m'; clear H. cbn [snd list_ set_list deref] in *.
  (* the entry edited *)
  destruct (get_template_public self current_name _ i Eg)
    as (old' & mo & Hold' & Hmo & _ & Hopub).
  assert (old' = old_temp) by congruence. subst old'.
  assert (Hlen : (i < List.length (list_ self))%nat)
    by (apply nth_error_Some; congruence).
  (* the name of the replacement *)
  apply update_template_source_name in Esrc.
  apply update_template_name_inv in Enm.
  assert (Hname : name new_temp = name nt).
  { rewrite <- H2. destruct new_owner; reflexivity. }
  assert (Hhid : truthy_bool (hidden new_temp) = false).
  { rewrite <- H2. reflexivity. }
  assert (Hnth : forall j t, nth_error (list_ self') j = Some t ->
                   (j = i /\ t = new_temp) \/ (j <> i /\ nth_error (list_ self) j = Some t)).
  { intros j t Hj. rewrite Hl, nth_error_replace_at in Hj by exact Hlen.
    destruct (Nat.eqb_spec j i); [left|right]; split; congruence. }
  (* a public template with the name of the replacement is the entry edited *)
  assert (Hclash : forall k tk nk nn,
            k <> i -> nth_error (list_ self) k = Some tk -> name tk = Some nk ->
            name new_temp = Some nn -> lower nk = lower nn ->
            truthy_bool (hidden tk) = false -> False).
  { intros k tk nk nn Hk Htk Hnk Hnn Hlow Hpub.
    rewrite Hname in Hnn.
    destruct Enm as [Esame | (n & Hn' & Hc & Hget)].
    - (* the name is the old one *)
      apply Hk. symmetry.
      apply (Hu i k old_temp tk mo nk Hold' Htk Hmo Hnk).
      + rewrite Esame, Esrc, Hmo in Hnn. inversion Hnn. congruence.
      + unfold same_scope. rewrite Hopub, Hpub. reflexivity.
    - (* renamed *)
      rewrite Hn' in Hnn. inversion Hnn; subst nn.
      destruct (get_template_public_first self n None i k tk nk Hn Hc Hget Htk Hnk
                  Hlow Hpub) as (_ & ti & ni & Hti & Hni & Hlni & Htpub).
      apply Hk. symmetry.
      apply (Hu i k ti tk ni nk Hti Htk Hni Hnk); [congruence|].
      unfold same_scope. rewrite Htpub, Hpub. reflexivity. }
  split; [|split].
  - unfold all_named in *. rewrite Forall_forall in *. intros t Ht.
    apply In_nth_error in Ht as (j & Hj).
    destruct (Hnth j t Hj) as [[_ ->] | [_ Hj']].
    + rewrite Hname. destruct Enm as [-> | (n & -> & _)]; [|discriminate].
      rewrite Esrc, Hmo. discriminate.
    + apply Hn. eapply nth_error_In; eauto.
  - intros j k tj tk nj nk Hj Hk Hnj Hnk Hlow Hsc.
    destruct (Hnth j tj Hj) as [[-> ->] | [Hji Hj']];
      destruct (Hnth k tk Hk) as [[-> ->] | [Hki Hk']].
    + reflexivity.
    + exfalso. unfold same_scope in Hsc. rewrite Hhid in Hsc.
      apply negb_true_iff in Hsc.
      exact (Hclash k tk nk nj Hki Hk' Hnk Hnj (eq_sym Hlow) Hsc).
    + exfalso. unfold same_scope in Hsc. rewrite Hhid in Hsc.
      destruct (truthy_bool (hidden tj)) eqn:Etj.
      * cbn in Hsc. discriminate Hsc.
      * exact (Hclash j tj nj nk Hji Hj' Hnj Hnk Hlow Etj).
    + exact (Hu j k tj tk nj nk Hj' Hk' Hnj Hnk Hlow Hsc).
  - rewrite Hl. unfold replace_at.
    rewrite length_app, length_firstn. cbn [List.length]. rewrite length_skipn. lia.
Qed.

End UpdateMore.

Lemma combo_is_protected_witness :
  (exists msg,
     update_template stats_4x4 no_download db_update_ok manager_foo "Combo" 99
       None (Some "mine") None = (Err (ValueError msg), manager_foo)) /\
  (exists msg,
     delete_template stats_4x4 db_delete_ok manager_foo "Combo" 99 false
       = (Err (ValueError msg), manager_foo)).
Proof.
  destruct (combo manager_foo) as [c|] eqn:E; [|vm_compute in E; discriminate E].
  apply (combo_is_protected stats_4x4 no_download db_update_ok db_delete_ok
           manager_foo c "Combo" 99 None (Some "mine") None false E).
  - vm_compute in E. inversion E. reflexivity.
  - vm_compute. reflexivity.
Defined.

Lemma manager_foo_invariants : all_named manager_foo /\ names_unique manager_foo.
Proof.
  assert (Hl : exists t, list_ manager_foo = [t] /\ name t = Some "foo")
    by (eexists; split; vm_compute; reflexivity).
  destruct Hl as (t & Hl & Ht). split.
  - unfold all_named. rewrite Hl. constructor; [congruence|constructor].
  - intros i j ti tj ni nj Hi Hj _ _ _ _. rewrite Hl in Hi, Hj.
    destruct i as [|[|i]], j as [|[|j]]; cbn in Hi, Hj; try discriminate; reflexivity.
Qed.

Lemma update_template_keeps_names_unique_witness :
  exists old_temp new_temp self',
    update_template stats_4x4 no_download db_update_ok manager_foo "foo" 1
      None (Some "bar") None = (OK (old_temp, new_temp), self') /\
    all_named self' /\ names_unique self' /\
    List.length (list_ self') = List.length (list_ manager_foo).
Proof.
  destruct (update_template stats_4x4 no_download db_update_ok manager_foo "foo" 1
              None (Some "bar") None) as [[[o n]|e] m] eqn:E;
    [|vm_compute in E; discriminate E].
  exists o, n, m. split; [reflexivity|].
  exact (update_template_keeps_names_unique stats_4x4 no_download db_update_ok
           manager_foo m "foo" 1 None (Some "bar") None o n
           (proj1 manager_foo_invariants) (proj2 manager_foo_invariants) E).
Defined.

(** ** cogs/clock.py: the periodic refresh *)

Module ClockFacts.

Lemma on_canvas_prune (cc : option string) (t : Template) :
  match cc with
  | Some c => negb (String.eqb (canvas_code t) c)
  | None => false
  end = negb (on_canvas cc t).
Proof. destruct cc; reflexivity. Qed.

Lemma update_progress_refreshed (stats : Stats) (t t' : Template) (p : Z) :
  update_progress stats t None = OK (p, t') -> refreshed stats t t'.
Proof.
  unfold update_progress, refreshed.
  destruct (make_placed_mask stats t None) as [pm|e]; [|discriminate].
  cbn [bind]. intros H. inversion H. exists pm. split; reflexivity.
Qed.

Lemma refreshed_on_canvas (stats : Stats) (cc : option string) (t t' : Template) :
  refreshed stats t t' -> on_canvas cc t' = on_canvas cc t.
Proof. intros (pm & _ & ->). reflexivity. Qed.

Lemma Forall2_same_or {A} (R : A -> A -> Prop) (l : list A) :
  Forall2 (fun t t' => t' = t \/ R t t') l l.
Proof. induction l; constructor; auto. Qed.

End ClockFacts.
Import ClockFacts.

Section ClockProperties.

Variable stats : Stats.
Variable create_template_stat : Template -> Z -> Z -> result unit.
Variable create_combo_stat : Template -> Z -> Z -> result (option Z).


(** Whatever the outcome of the loop, the templates of the canvas stay,
    in order, each one as it was or refreshed. *)
Lemma update_template_stats_loop_any (cc : option string) (dt : Z)
  (todo : list Template) :
  forall kept,
    exists l2,
      snd (update_template_stats_loop stats create_template_stat cc dt todo kept)
      = (kept ++ l2)%list /\
               Forall2 (fun t t' => t' = t \/ refreshed stats t t')
                 (filter (on_canvas cc) todo) (filter (on_canvas cc) l2).
Proof.
  induction todo as [|temp rest IH]; intros kept.
  - exists []. cbn. rewrite app_nil_r. split; [reflexivity|constructor].
  - cbn [update_template_stats_loop]. rewrite on_canvas_prune.
    destruct (on_canvas cc temp) eqn:Eon; cbn [negb].
    + destruct (update_progress stats temp None) as [[p t']|e] eqn:Ep.
      * apply update_progress_refreshed in Ep.
        pose proof (refreshed_on_canvas stats cc temp t' Ep) as Eon'.
        rewrite Eon in Eon'.
        destruct (create_template_stat t' dt p).
        -- destruct (IH (kept ++ [t'])%list) as (l2 & -> & HF).
           exists (t' :: l2). rewrite <- app_assoc. split; [reflexivity|].
           cbn [filter]. rewrite Eon, Eon'. constructor; auto.
        -- exists (t' :: rest). split; [reflexivity|].
           cbn [filter]. rewrite Eon, Eon'. constructor; [auto|].
           apply Forall2_same_or.
      * exists (temp :: rest). split; [reflexivity|]. apply Forall2_same_or.
    + destruct (IH kept) as (l2 & -> & HF). exists l2. split; [reflexivity|].
      cbn [filter]. rewrite Eon. exact HF.
Qed.

(** The list after [update_template_stats] is the list the loop left. *)
Lemma update_template_stats_list (self : TemplateManager) (cc : option string)
  (dt bot_user_id : Z) :
  list_ (snd (update_template_stats stats create_template_stat create_combo_stat
                self cc dt bot_user_id))
  = snd (update_template_stats_loop stats create_template_stat cc dt (list_ self) []).
Proof.
  unfold update_template_stats.
  destruct (update_template_stats_loop stats create_template_stat cc dt (list_ self) [])
    as [[u|e] l]; [|reflexivity].
  cbn [snd].
  pose proof (update_combo_list stats (set_list self l) (Some bot_user_id) cc) as Hl.
  destruct (update_combo stats (set_list self l) (Some bot_user_id) cc) as [[c0|e] m];
    cbn [snd list_ set_list] in Hl; [|exact Hl].
  destruct (combo m) as [c|]; [|exact Hl].
  destruct (update_progress stats c None) as [[p c']|e]; [|exact Hl].
  destruct (create_combo_stat c' dt p); exact Hl.
Qed.


(** X26.  The refresh never loses a template of the current canvas.
    Whatever the outcome of [update_template_stats] (also when the
    board, the database or the combo make it raise half-way), the
    templates of the current canvas are all in the list afterwards, in
    their order, each one either untouched or with its progress
    recomputed. *)
Theorem update_template_stats_keeps_current (self : TemplateManager)
  (cc : option string) (dt bot_user_id : Z) :
  Forall2 (fun t t' => t' = t \/ refreshed stats t t')
    (filter (on_canvas cc) (list_ self))
    (filter (on_canvas cc)
       (list_ (snd (update_template_stats stats create_template_stat
                      create_combo_stat self cc dt bot_user_id)))).
Proof.
  rewrite update_template_stats_list.
  destruct (update_template_stats_loop_any cc dt (list_ self) []) as (l2 & -> & HF).
  exact HF.
Qed.

End ClockProperties.


(** ** The registry: what a lookup returns *)

Module LookupFacts.




End LookupFacts.
Import LookupFacts.


